(** * napalm-nokia_olt: the output parsing and fact normalisation engine

    A shallow embedding of the NAPALM driver for Nokia OLT devices
    ([napalm_nokia_olt/napalm_nokia_olt/nokia_olt.py], and the escape filter of
    the older [napalm_nokia_olt/nokia_olt.py]) together with the properties
    its specification states about it.

    Conventions of the embedding:
    - Python [str] is [string]; a character is an 8-bit code point.
    - a Python [dict] is a [gmap]; [None] as a value is [None : option _].
    - a Python function that may raise returns an [outcome].
    - [re] patterns are values of [regex], run by a backtracking matcher
      that follows the priorities of Python's [re] module.
    - the device ([_send_command]) is a function from command text to reply
      text, and [xml.etree.ElementTree.fromstring] is a parameter. *)

From Stdlib Require Import Ascii String ZArith Lia.
From stdpp Require Import base option list strings gmap fin_maps sorting.

(** ** Python exceptions and the outcome of a call *)

Inductive exn : Type :=
| KeyError
| IndexError
| AttributeError
| TypeError
| ValueError
| ParseError.

Inductive outcome (A : Type) : Type :=
| Ret (a : A)
| Raise (e : exn).
Arguments Ret {A} a.
Arguments Raise {A} e.

Global Instance outcome_ret : MRet outcome := fun A a => Ret a.

Global Instance outcome_bind : MBind outcome := fun A B f m =>
  match m with
  | Ret a => f a
  | Raise e => Raise e
  end.

(** [for x in xs: body], threading the loop state and stopping at the first
    exception. *)
Fixpoint for_each {A S} (body : S → A → outcome S) (xs : list A) (s : S)
  : outcome S :=
  match xs with
  | [] => Ret s
  | x :: xs' => s' ← body s x; for_each body xs' s'
  end.

(** [d[k]] on a dict. *)
Definition getitem `{Countable K} {V} (d : gmap K V) (k : K) : outcome V :=
  match d !! k with
  | Some v => Ret v
  | None => Raise KeyError
  end.

(** [l[i]] on a list. *)
Definition list_item {A} (l : list A) (i : nat) : outcome A :=
  match l !! i with
  | Some v => Ret v
  | None => Raise IndexError
  end.

(** ** Characters *)

Definition LF : ascii := "010"%char.
Definition CR : ascii := "013"%char.
Definition ESC : ascii := "027"%char.
Definition DQUOTE : ascii := "034"%char.

Definition code (c : ascii) : N := N_of_ascii c.

Definition in_range (lo hi c : ascii) : bool :=
  (code lo <=? code c)%N && (code c <=? code hi)%N.

(** [str.isspace] and the class [\s] of a [str] pattern, on 8-bit code
    points. *)
Definition py_isspace (c : ascii) : bool :=
  match code c with
  | 9 | 10 | 11 | 12 | 13 | 28 | 29 | 30 | 31 | 32 | 133 | 160 => true
  | _ => false
  end%N.

(** The class [\d]. *)
Definition py_isdigit (c : ascii) : bool := in_range "0" "9" c.

(** A line boundary of [str.splitlines]. *)
Definition is_linebreak (c : ascii) : bool :=
  match code c with
  | 10 | 11 | 12 | 13 | 28 | 29 | 30 | 133 => true
  | _ => false
  end%N.

(** ** The [str] methods the driver uses *)

Definition str_rev (s : string) : string := String.rev s.

Fixpoint str_take (n : nat) (s : string) : string :=
  match n, s with
  | S n', String c s' => String c (str_take n' s')
  | _, _ => ""
  end.

Fixpoint str_drop (n : nat) (s : string) : string :=
  match n, s with
  | S n', String _ s' => str_drop n' s'
  | _, _ => s
  end.

(** [s.startswith(p)], returning what follows the prefix. *)
Fixpoint strip_prefix (p s : string) : option string :=
  match p, s with
  | "", _ => Some s
  | String a p', String b s' => if Ascii.eqb a b then strip_prefix p' s' else None
  | String _ _, "" => None
  end.

(** [sub in s]. *)
Fixpoint str_contains (sub s : string) : bool :=
  match strip_prefix sub s with
  | Some _ => true
  | None =>
      match s with
      | "" => false
      | String _ s' => str_contains sub s'
      end
  end.

(** [s.replace(old, new)] for a non-empty [old]; [skip] counts the characters
    of an occurrence of [old] that are still to be passed over. *)
Fixpoint replace_go (old new : string) (skip : nat) (s : string) : string :=
  match s with
  | "" => ""
  | String c s' =>
      match skip with
      | S n => replace_go old new n s'
      | O =>
          match strip_prefix old s with
          | Some _ => new +:+ replace_go old new (String.length old - 1) s'
          | None => String c (replace_go old new 0 s')
          end
      end
  end.

Definition str_replace (old new s : string) : string := replace_go old new 0 s.

(** [s.split()]: the maximal runs of non-whitespace characters. *)
Fixpoint split_go (cur : option string) (s : string) : list string :=
  match s with
  | "" => option_list (str_rev <$> cur)
  | String c s' =>
      if py_isspace c
      then option_list (str_rev <$> cur) ++ split_go None s'
      else split_go (Some (String c (default "" cur))) s'
  end.

Definition str_split (s : string) : list string := split_go None s.

(** [s.split(sep)] for a one-character separator: never an empty list. *)
Fixpoint split_on_go (sep : ascii) (cur : string) (s : string) : list string :=
  match s with
  | "" => [str_rev cur]
  | String c s' =>
      if Ascii.eqb c sep
      then str_rev cur :: split_on_go sep "" s'
      else split_on_go sep (String c cur) s'
  end.

Definition str_split_on (sep : ascii) (s : string) : list string :=
  split_on_go sep "" s.

(** [s.splitlines()]: [\r\n] is one boundary, and a final boundary opens no
    empty line. *)
Fixpoint splitlines_go (cur : string) (s : string) : list string :=
  match s with
  | "" => match cur with "" => [] | _ => [str_rev cur] end
  | String c s' =>
      if is_linebreak c then
        match s' with
        | String d s'' =>
            if Ascii.eqb c CR && Ascii.eqb d LF
            then str_rev cur :: splitlines_go "" s''
            else str_rev cur :: splitlines_go "" s'
        | "" => [str_rev cur]
        end
      else splitlines_go (String c cur) s'
  end.

Definition str_splitlines (s : string) : list string := splitlines_go "" s.

Fixpoint lstrip (s : string) : string :=
  match s with
  | String c s' => if py_isspace c then lstrip s' else s
  | "" => ""
  end.

(** [s.strip()]. *)
Definition str_strip (s : string) : string :=
  str_rev (lstrip (str_rev (lstrip s))).

(** [sep.join(l)]. *)
Fixpoint str_join (sep : string) (l : list string) : string :=
  match l with
  | [] => ""
  | [x] => x
  | x :: l' => x +:+ sep +:+ str_join sep l'
  end.

Definition str_concat (l : list string) : string := foldr String.append "" l.

(** Whether every character of a string passes a test. *)
Fixpoint str_all (p : ascii → bool) (s : string) : bool :=
  match s with
  | "" => true
  | String c s' => p c && str_all p s'
  end.

(** [int(s)] on a [str]: surrounding whitespace, an optional sign, decimal
    digits, single underscores between digits. [None] is [ValueError]. *)
Definition digit_val (c : ascii) : Z := Z.of_N (code c) - 48.

Fixpoint digits_go (acc : Z) (after_digit : bool) (s : string) : option Z :=
  match s with
  | "" => if after_digit then Some acc else None
  | String c s' =>
      if py_isdigit c then digits_go (acc * 10 + digit_val c) true s'
      else if Ascii.eqb c "_" && after_digit then
        match s' with
        | String d _ => if py_isdigit d then digits_go acc false s' else None
        | "" => None
        end
      else None
  end.

(** The whitespace [int] passes over at both ends of a [str]: the ASCII
    characters of C's [isspace], and the two whitespace characters from 128
    to 255, which [int] turns into spaces first. The separators 28 to 31,
    which [str.strip] removes, stay and make [int] raise. *)
Definition int_isspace (c : ascii) : bool :=
  match code c with
  | 9 | 10 | 11 | 12 | 13 | 32 | 133 | 160 => true
  | _ => false
  end%N.

Fixpoint int_lstrip (s : string) : string :=
  match s with
  | String c s' => if int_isspace c then int_lstrip s' else s
  | "" => ""
  end.

Definition int_strip (s : string) : string :=
  str_rev (int_lstrip (str_rev (int_lstrip s))).

Definition py_int (s : string) : option Z :=
  match int_strip s with
  | String "-" s' => Z.opp <$> digits_go 0 false s'
  | String "+" s' => digits_go 0 false s'
  | s' => digits_go 0 false s'
  end.

(** ** Regular expressions: the fragment of Python's [re] the driver uses *)

Module Re.

(** One item of a bracketed class; [\s] and [\d] alone are one-item
    classes. *)
Inductive citem : Type :=
| IChar (c : ascii)
| IRange (lo hi : ascii)
| ISpace
| IDigit.

Inductive cclass : Type :=
| Dot
| Class (items : list citem).

(** Every repetition in the driver's patterns is a greedy repetition of
    one character class with no upper bound: [Rep cl n] is [cl{n,}], so
    [cl*] is [Rep cl 0] and [cl+] is [Rep cl 1]. *)
Inductive regex : Type :=
| Lit (s : string)
| Cls (cl : cclass)
| Rep (cl : cclass) (least : nat)
| Seq (r1 r2 : regex)
| Alt (r1 r2 : regex)
| Group (n : nat) (r : regex)
| Bol
| Eol
| Ahead (r : regex)
| NotAhead (r : regex)
| Behind (width : nat) (r : regex).

Record flags : Type := Flags { multiline : bool; dotall : bool }.

Definition no_flags : flags := Flags false false.
Definition MULTILINE : flags := Flags true false.
Definition MULTILINE_DOTALL : flags := Flags true true.

Definition item_test (i : citem) (c : ascii) : bool :=
  match i with
  | IChar a => Ascii.eqb a c
  | IRange lo hi => in_range lo hi c
  | ISpace => py_isspace c
  | IDigit => py_isdigit c
  end.

Definition class_test (fl : flags) (cl : cclass) (c : ascii) : bool :=
  match cl with
  | Dot => dotall fl || negb (Ascii.eqb c LF)
  | Class items => existsb (fun i => item_test i c) items
  end.

(** A position in the subject: the text before it (reversed), the text
    from it on, and the groups captured so far. *)
Record mstate : Type := MState {
  m_pre : string;
  m_rest : string;
  m_caps : list (nat * string)
}.

Definition at_bol (fl : flags) (st : mstate) : bool :=
  match m_pre st with
  | "" => true
  | String c _ => multiline fl && Ascii.eqb c LF
  end.

Definition at_eol (fl : flags) (st : mstate) : bool :=
  match m_rest st with
  | "" => true
  | String c s' =>
      if multiline fl then Ascii.eqb c LF
      else Ascii.eqb c LF && String.eqb s' ""
  end.

(** Moving over the literal [l]: [pre] receives its characters. *)
Definition pass (l : string) (pre : string) : string :=
  String.rev_app l pre.

(** The text between two positions of one subject, the later one
    given by its reversed prefix. *)
Definition between (st st' : mstate) : string :=
  str_rev (str_take (String.length (m_pre st') - String.length (m_pre st))
                    (m_pre st')).

(** Greedy [cl{least,}] with backtracking: the longest run first. *)
Fixpoint rep {R : Type} (fl : flags) (cl : cclass) (least : nat) (pre s : string)
    (caps : list (nat * string)) (k : mstate → option R) : option R :=
  let stop := match least with
              | O => k (MState pre s caps)
              | S _ => None
              end in
  match s with
  | "" => stop
  | String c s' =>
      if class_test fl cl c then
        match rep fl cl (pred least) (String c pre) s' caps k with
        | Some x => Some x
        | None => stop
        end
      else stop
  end.

Fixpoint rmatch {R : Type} (fl : flags) (r : regex) (st : mstate)
    (k : mstate → option R) : option R :=
  match r with
  | Lit l =>
      match strip_prefix l (m_rest st) with
      | Some s' => k (MState (pass l (m_pre st)) s' (m_caps st))
      | None => None
      end
  | Cls cl =>
      match m_rest st with
      | String c s' =>
          if class_test fl cl c
          then k (MState (String c (m_pre st)) s' (m_caps st))
          else None
      | "" => None
      end
  | Rep cl least => rep fl cl least (m_pre st) (m_rest st) (m_caps st) k
  | Seq r1 r2 => rmatch fl r1 st (fun st' => rmatch fl r2 st' k)
  | Alt r1 r2 =>
      match rmatch fl r1 st k with
      | Some x => Some x
      | None => rmatch fl r2 st k
      end
  | Group n r1 =>
      rmatch fl r1 st (fun st' =>
        k (MState (m_pre st') (m_rest st') ((n, between st st') :: m_caps st')))
  | Bol => if at_bol fl st then k st else None
  | Eol => if at_eol fl st then k st else None
  | Ahead r1 =>
      match rmatch fl r1 st (fun _ => Some tt) with
      | Some _ => k st
      | None => None
      end
  | NotAhead r1 =>
      match rmatch fl r1 st (fun _ => Some tt) with
      | Some _ => None
      | None => k st
      end
  | Behind w r1 =>
      if (w <=? String.length (m_pre st))%nat then
        let back := MState (str_drop w (m_pre st))
                           (String.rev_app (str_take w (m_pre st)) (m_rest st))
                           (m_caps st) in
        match rmatch fl r1 back (fun st' =>
                if (String.length (m_rest st') =? String.length (m_rest st))%nat
                then Some tt else None) with
        | Some _ => k st
        | None => None
        end
      else None
  end.

(** A match object: where the match began and where it ended. *)
Record mobj : Type := MObj { mo_start : mstate; mo_end : mstate }.

Definition match_at (fl : flags) (r : regex) (pre s : string) : option mobj :=
  let st := MState pre s [] in
  rmatch fl r st (fun st' => Some (MObj st st')).

(** [m.group(0)] and [m.group(n)]. *)
Definition group0 (m : mobj) : string := between (mo_start m) (mo_end m).

Fixpoint capture (n : nat) (caps : list (nat * string)) : option string :=
  match caps with
  | [] => None
  | (i, t) :: caps' => if (i =? n)%nat then Some t else capture n caps'
  end.

Definition group (n : nat) (m : mobj) : option string :=
  capture n (m_caps (mo_end m)).

Definition span_len (s : string) (m : mobj) : nat :=
  String.length s - String.length (m_rest (mo_end m)).

(** [re.search]: the leftmost position where the pattern matches. *)
Fixpoint search_from (fl : flags) (r : regex) (pre s : string) : option mobj :=
  match match_at fl r pre s with
  | Some m => Some m
  | None =>
      match s with
      | "" => None
      | String c s' => search_from fl r (String c pre) s'
      end
  end.

Definition search (fl : flags) (r : regex) (s : string) : option mobj :=
  search_from fl r "" s.

(** The non-overlapping matches from left to right, as [re.findall] and
    [re.sub] visit them. [skip] counts the characters of the last match
    still to be passed over. None of the driver's patterns matches the
    empty string; an empty match is passed over here. *)
Fixpoint matches_go (fl : flags) (r : regex) (skip : nat) (pre s : string)
  : list mobj :=
  match s with
  | "" => []
  | String c s' =>
      match skip with
      | S n => matches_go fl r n (String c pre) s'
      | O =>
          match match_at fl r pre s with
          | Some m =>
              match span_len s m with
              | O => matches_go fl r 0 (String c pre) s'
              | S n => m :: matches_go fl r n (String c pre) s'
              end
          | None => matches_go fl r 0 (String c pre) s'
          end
      end
  end.

(** [re.findall] for a pattern without groups, and for a pattern with
    one group. *)
Definition findall0 (fl : flags) (r : regex) (s : string) : list string :=
  group0 <$> matches_go fl r 0 "" s.

Definition findall1 (fl : flags) (r : regex) (s : string) : list string :=
  (fun m => default "" (group 1 m)) <$> matches_go fl r 0 "" s.

(** [re.sub(r, "", s)]: every match deleted. *)
Fixpoint delete_go (fl : flags) (r : regex) (skip : nat) (pre s : string)
  : string :=
  match s with
  | "" => ""
  | String c s' =>
      match skip with
      | S n => delete_go fl r n (String c pre) s'
      | O =>
          match match_at fl r pre s with
          | Some m =>
              match span_len s m with
              | O => String c (delete_go fl r 0 (String c pre) s')
              | S n => delete_go fl r n (String c pre) s'
              end
          | None => String c (delete_go fl r 0 (String c pre) s')
          end
      end
  end.

Definition sub_delete (r : regex) (s : string) : string :=
  delete_go no_flags r 0 "" s.

(** Building patterns. *)
Definition digit : cclass := Class [IDigit].
Definition space : cclass := Class [ISpace].

Fixpoint seq (rs : list regex) : regex :=
  match rs with
  | [] => Lit ""
  | [r] => r
  | r :: rs' => Seq r (seq rs')
  end.

Fixpoint alt (r : regex) (rs : list regex) : regex :=
  match rs with
  | [] => r
  | r' :: rs' => Alt r (alt r' rs')
  end.

(** *** The matcher read as a list of choices *)

(** Where the runs that [rep] tries end, the longest first. *)
Fixpoint rep_ends (fl : flags) (cl : cclass) (least : nat) (s : string) : list nat :=
  let stop := match least with
              | O => [0%nat]
              | S _ => []
              end in
  match s with
  | "" => stop
  | String c s' =>
      if class_test fl cl c
      then (S <$> rep_ends fl cl (pred least) s') ++ stop
      else stop
  end.

(** The ways a pattern without anchors and look-around matches at the
    start of [s], in the order [rmatch] tries them: the number of
    characters taken and the groups captured. *)
Fixpoint ends (fl : flags) (r : regex) (s : string) (caps : list (nat * string))
  : list (nat * list (nat * string)) :=
  match r with
  | Lit l =>
      match strip_prefix l s with
      | Some _ => [(String.length l, caps)]
      | None => []
      end
  | Cls cl =>
      match s with
      | String c _ => if class_test fl cl c then [(1%nat, caps)] else []
      | "" => []
      end
  | Rep cl least => (fun n => (n, caps)) <$> rep_ends fl cl least s
  | Seq r1 r2 =>
      x ← ends fl r1 s caps;
      (fun y => ((x.1 + y.1)%nat, y.2)) <$> ends fl r2 (str_drop x.1 s) x.2
  | Alt r1 r2 => ends fl r1 s caps ++ ends fl r2 s caps
  | Group g r1 => (fun x => (x.1, (g, str_take x.1 s) :: x.2)) <$> ends fl r1 s caps
  | _ => []
  end.

(** A pattern without anchors and look-around. *)
Fixpoint plain (r : regex) : bool :=
  match r with
  | Lit _ | Cls _ | Rep _ _ => true
  | Seq r1 r2 | Alt r1 r2 => plain r1 && plain r2
  | Group _ r1 => plain r1
  | _ => false
  end.

(** The first choice that the continuation accepts. *)
Fixpoint first_some {A R : Type} (k : A → option R) (l : list A) : option R :=
  match l with
  | [] => None
  | x :: l' =>
      match k x with
      | Some y => Some y
      | None => first_some k l'
      end
  end.

End Re.

(** ** The escape filter of the older driver ([napalm_nokia_olt/nokia_olt.py]) *)

Module EscapeFilter.
Import Re.

(** [chr(27)], the first character of every pattern of the catalog. *)
Definition chr27 : regex := Lit (String ESC "").

Definition code_position_cursor := Seq chr27 (seq [Lit "["; Rep digit 1; Lit ";"; Rep digit 1; Lit "H"]).
Definition code_show_cursor := Seq chr27 (Lit "[?25h").
Definition code_next_line := Seq chr27 (Lit "E").
Definition code_erase_line_end := Seq chr27 (Lit "[K").
Definition code_erase_line := Seq chr27 (Lit "[2K").
Definition code_erase_start_line := Seq chr27 (Lit "[K").
Definition code_enable_scroll := Seq chr27 (seq [Lit "["; Rep digit 1; Lit ";"; Rep digit 1; Lit "r"]).
Definition code_insert_line := Seq chr27 (seq [Lit "["; Group 2 (Rep digit 1); Lit "L"]).
Definition code_carriage_return := Seq chr27 (Lit "[1M").
Definition code_disable_line_wrapping := Seq chr27 (Lit "[?7l").
Definition code_reset_mode_screen_options := Seq chr27 (seq [Lit "[?"; Rep digit 1; Lit "l"]).
Definition code_reset_graphics_mode := Seq chr27 (Lit "[00m").
Definition code_erase_display := Seq chr27 (Lit "[2J").
Definition code_erase_display_0 := Seq chr27 (Lit "[J").
Definition code_graphics_mode := Seq chr27 (seq [Lit "["; Cls digit; Lit "m"]).
Definition code_graphics_mode1 :=
  Seq chr27 (seq [Lit "["; Cls digit; Cls digit; Lit ";"; Cls digit; Cls digit; Lit "m"]).
Definition code_graphics_mode2 :=
  Seq chr27 (seq [Lit "["; Cls digit; Cls digit; Lit ";"; Cls digit; Cls digit;
                  Lit ";"; Cls digit; Cls digit; Lit "m"]).
Definition code_graphics_mode3 :=
  Seq chr27 (seq [Lit "["; Group 2 (Alt (Lit "3") (Lit "4")); Cls digit; Lit "m"]).
Definition code_graphics_mode4 :=
  Seq chr27 (seq [Lit "["; Group 2 (Alt (Lit "9") (Lit "10"));
                  Cls (Class [IRange "0" "7"]); Lit "m"]).
Definition code_get_cursor_position := Seq chr27 (Lit "[6n").
Definition code_cursor_position := Seq chr27 (Lit "[m").
Definition code_attrs_off := Seq chr27 (Lit "[0m").
Definition code_reverse := Seq chr27 (Lit "[7m").
Definition code_cursor_left := Seq chr27 (seq [Lit "["; Rep digit 1; Lit "D"]).
Definition code_cursor_forward := Seq chr27 (seq [Lit "["; Rep digit 0; Lit "C"]).
Definition code_cursor_up := Seq chr27 (seq [Lit "["; Rep digit 0; Lit "A"]).
Definition code_cursor_down := Seq chr27 (seq [Lit "["; Rep digit 0; Lit "B"]).
Definition code_wrap_around := Seq chr27 (Lit "[?7h").
Definition code_bracketed_paste_mode := Seq chr27 (Lit "[?2004h").

Definition code_set : list regex := [
  code_position_cursor;
  code_show_cursor;
  code_erase_line;
  code_enable_scroll;
  code_erase_start_line;
  code_carriage_return;
  code_disable_line_wrapping;
  code_erase_line_end;
  code_reset_mode_screen_options;
  code_reset_graphics_mode;
  code_erase_display;
  code_graphics_mode;
  code_graphics_mode1;
  code_graphics_mode2;
  code_graphics_mode3;
  code_graphics_mode4;
  code_get_cursor_position;
  code_cursor_position;
  code_erase_display;
  code_erase_display_0;
  code_attrs_off;
  code_reverse;
  code_cursor_left;
  code_cursor_up;
  code_cursor_down;
  code_cursor_forward;
  code_wrap_around;
  code_bracketed_paste_mode
].

(** The group the loop puts before each code: one of [-], [\], [/],
    a whitespace character, [|]. *)
Definition lead : regex :=
  Group 1 (alt (Lit "-") [Lit "\"; Lit "/"; Cls space; Lit "|"]).

Definition lead_char (c : ascii) : bool :=
  Ascii.eqb "-" c || Ascii.eqb "\" c || Ascii.eqb "/" c || py_isspace c
  || Ascii.eqb "|" c.

Definition _strip_ansi_escape_codes (string_buffer : string) : string :=
  fold_left (fun output ansi_esc_code =>
               sub_delete (Seq lead ansi_esc_code) output)
            code_set string_buffer.

(** No character of the lead group stands directly before an [ESC]. *)
Fixpoint esc_guarded (s : string) : bool :=
  match s with
  | String a s' =>
      match s' with
      | String b _ => negb (lead_char a && Ascii.eqb ESC b) && esc_guarded s'
      | "" => true
      end
  | "" => true
  end.

(** The filter as the specification words it: every occurrence of each
    catalogued sequence deleted, whatever stands before it. *)
Definition catalog_deleted (string_buffer : string) : string :=
  fold_left (fun output ansi_esc_code => sub_delete ansi_esc_code output)
            code_set string_buffer.

(** Sample texts: an erase-line code after a letter and after a dash, and
    a bracketed-paste code nested inside an erase-line code. *)
Definition after_letter : string := "ab" +:+ String ESC "[Kcd".
Definition after_dash : string := "ab-" +:+ String ESC "[Kcd".
Definition nested_codes : string :=
  "-" +:+ String ESC ("-" +:+ String ESC "[?2004h[K").

(** *** The shape of the catalogued sequences *)

(** After [ESC], every pattern of the catalog takes characters among the
    digits, [[], [;] and [?], and then one letter. *)
Definition body_char (c : ascii) : bool :=
  py_isdigit c || Ascii.eqb c "[" || Ascii.eqb c ";" || Ascii.eqb c "?".

Definition final_char (c : ascii) : bool :=
  in_range "A" "Z" c || in_range "a" "z" c.

Fixpoint shape (s : string) : bool :=
  match s with
  | "" => false
  | String c s' =>
      match s' with
      | "" => final_char c
      | String _ _ => body_char c && shape s'
      end
  end.

Definition item_ok (i : citem) : bool :=
  match i with
  | IChar a => body_char a
  | IRange lo hi => (code "0" <=? code lo)%N && (code hi <=? code "9")%N
  | ISpace => false
  | IDigit => true
  end.

Definition class_ok (cl : cclass) : bool :=
  match cl with
  | Dot => false
  | Class items => forallb item_ok items
  end.

(** A pattern that takes body characters only. *)
Fixpoint bodyish (r : regex) : bool :=
  match r with
  | Lit l => str_all body_char l
  | Cls cl | Rep cl _ => class_ok cl
  | Seq r1 r2 | Alt r1 r2 => bodyish r1 && bodyish r2
  | Group _ r1 => bodyish r1
  | _ => false
  end.

(** A pattern that takes body characters and then one letter. *)
Fixpoint closing (r : regex) : bool :=
  match r with
  | Lit l => shape l
  | Seq r1 r2 => bodyish r1 && closing r2
  | Alt r1 r2 => closing r1 && closing r2
  | Group _ r1 => closing r1
  | _ => false
  end.

(** *** Texts with occurrences put in *)

(** An input text cut into pieces: plain text, and a lead character
    followed by a sequence. *)
Inductive part : Type :=
| Text (t : string)
| Code (c : ascii) (w : string).

Definition render (ps : list part) : string :=
  foldr (fun p rest => match p with
                       | Text t => t +:+ rest
                       | Code c w => String c (w +:+ rest)
                       end) "" ps.

(** The text without what was put in. *)
Definition residue (ps : list part) : string :=
  foldr (fun p rest => match p with
                       | Text t => t +:+ rest
                       | Code _ _ => rest
                       end) "" ps.

(** The pattern matches [w], all of it. *)
Definition matches_all (r : regex) (w : string) : bool :=
  match match_at no_flags r "" w with
  | Some m => String.eqb (m_rest (mo_end m)) ""
  | None => false
  end.

(** [w] is a sequence of the catalog. *)
Definition catalogued (w : string) : bool :=
  existsb (fun r => matches_all r w) code_set.

(** A piece put in is a lead character followed by a catalogued
    sequence. *)
Definition occurrence (p : part) : bool :=
  match p with
  | Text _ => true
  | Code c w => lead_char c && catalogued w
  end.

(** No substitution of the filter matches anywhere in [t]. *)
Definition occurrence_free (t : string) : bool :=
  forallb (fun r => match search no_flags (Seq lead r) t with
                    | None => true
                    | Some _ => false
                    end) code_set.

(** The pieces a pass for the code [r] takes out. *)
Definition hit (r : regex) (p : part) : bool :=
  match p with
  | Text _ => false
  | Code _ w => matches_all r w
  end.

(** A text with three occurrences put in; the piece after the dash is
    a sequence the catalog does not hold. *)
Definition spliced : list part :=
  [Text "x"; Code "-" (String ESC "[K"); Text (" -" +:+ String ESC "c");
   Code "|" (String ESC "[12;40H"); Text "y"; Code " " (String ESC "[?2004h")].

End EscapeFilter.


(** ** Element trees, as [xml.etree.ElementTree] hands them to the driver *)

Module Etree.

#[warnings="-register-all"]
Inductive Element : Type :=
| Elem (tag : string) (attrib : gmap string string) (text : option string)
       (children : list Element).

Definition tag (e : Element) : string :=
  match e with Elem t _ _ _ => t end.
Definition attrib (e : Element) : gmap string string :=
  match e with Elem _ a _ _ => a end.
Definition text (e : Element) : option string :=
  match e with Elem _ _ x _ => x end.
Definition children (e : Element) : list Element :=
  match e with Elem _ _ _ cs => cs end.

(** [elem.iter()]: the element, then its descendants, in document order. *)
Fixpoint iter (e : Element) : list Element :=
  match e with
  | Elem _ _ _ cs => e :: concat (map iter cs)
  end.

Definition descendants (e : Element) : list Element :=
  concat (map iter (children e)).

Definition has_tag (t : string) (e : Element) : bool := String.eqb (tag e) t.

(** [elem.findall(t)]: the children with tag [t]. *)
Definition findall_children (t : string) (e : Element) : list Element :=
  List.filter (has_tag t) (children e).

(** [elem.findall(".//t")]: the descendants with tag [t]. *)
Definition findall_deep (t : string) (e : Element) : list Element :=
  List.filter (has_tag t) (descendants e).

(** [elem.findall('.//t[@name="v"]')]. *)
Definition findall_deep_named (t v : string) (e : Element) : list Element :=
  List.filter (fun d => has_tag t d && bool_decide (attrib d !! "name" = Some v))
              (descendants e).

End Etree.

(** ** The driver ([napalm_nokia_olt/napalm_nokia_olt/nokia_olt.py]) *)

Module NokiaOltDriver.
Import Etree.

(** A flattened node: field name to text, [None] for an element without
    text. *)
Abbreviation record := (gmap string (option string)).

(** What a guarded operation returns: the data, or the message it builds
    when the device sent nothing. *)
Inductive reply (A : Type) : Type :=
| Data (a : A)
| NoData (msg : string).
Arguments Data {A} a.
Arguments NoData {A} msg.

(** The values of the facts dict: a string, [None], or a list of strings. *)
Inductive pyval : Type :=
| VStr (s : string)
| VNone
| VList (l : list string).

Definition of_text (t : option string) : pyval :=
  match t with
  | Some s => VStr s
  | None => VNone
  end.

(** [f"{x}"] for a string or [None]. *)
Definition fmt (t : option string) : string := default "None" t.

(** A method call or an [in] test on a value that may be [None]. *)
Definition as_str (t : option string) (e : exn) : outcome string :=
  match t with
  | Some s => Ret s
  | None => Raise e
  end.

(** [int(x)] on a string or [None]. *)
Definition int_of (t : option string) : outcome Z :=
  match t with
  | None => Raise TypeError
  | Some s =>
      match py_int s with
      | Some z => Ret z
      | None => Raise ValueError
      end
  end.

(** [for x in data] on a list or [None]. *)
Definition iterable {A} (data : option (list A)) : outcome (list A) :=
  match data with
  | Some l => Ret l
  | None => Raise TypeError
  end.

(** One VLAN of [get_vlans]: the dict with keys [name] and
    [interfaces]. *)
Record vlan : Type := Vlan { vlan_name : option string; vlan_interfaces : list string }.

(** The order of Python lists of integers. *)
Fixpoint key_lt (a b : list Z) : bool :=
  match a, b with
  | _, [] => false
  | [], _ :: _ => true
  | x :: a', y :: b' => (x <? y)%Z || ((x =? y)%Z && key_lt a' b')
  end.

Fixpoint insert_by_key (x : list Z * string) (l : list (list Z * string))
  : list (list Z * string) :=
  match l with
  | [] => [x]
  | y :: l' => if key_lt x.1 y.1 then x :: l else y :: insert_by_key x l'
  end.

(** [list.sort(key=...)] on already computed keys: stable. *)
Definition sort_by_key (l : list (list Z * string)) : list string :=
  snd <$> foldl (fun acc x => insert_by_key x acc) [] l.

(** The module-level patterns. *)
Definition sep_class : Re.cclass := Re.Class [Re.ISpace; Re.IChar ":"].

Definition PORT_REGEX : Re.regex :=
  Re.seq [Re.Bol;
          Re.NotAhead (Re.alt (Re.Lit "=")
                         [Re.Lit "-"; Re.Cls Re.space; Re.Lit "Port";
                          Re.Seq (Re.Lit "Id") (Re.Cls Re.Dot)]);
          Re.Rep Re.Dot 1; Re.Eol].

Definition labelled (label : string) : Re.regex :=
  Re.seq [Re.Bol; Re.Lit label; Re.Rep sep_class 1;
          Re.Group 1 (Re.Rep Re.Dot 1); Re.Eol].

Definition REMOTE_HOST_REGEX : Re.regex := labelled "System Name".

Definition REMOTE_PORT_REGEX : Re.regex :=
  Re.seq [Re.Bol; Re.Lit "Port Id"; Re.Rep sep_class 1;
          Re.Group 1 (Re.seq [
            Re.Rep (Re.Class [Re.IRange "0" "9"; Re.IRange "a" "z";
                              Re.IRange "A" "Z"; Re.IChar ":"]) 1;
            Re.Rep (Re.Class [Re.IChar LF]) 0;
            Re.Rep (Re.Class [Re.ISpace; Re.IChar DQUOTE; Re.IChar "/";
                              Re.IRange "a" "z"; Re.IRange "A" "Z";
                              Re.IRange "0" "9"]) 1;
            Re.Eol])].

Definition REMOTE_CHASSIS_REGEX : Re.regex :=
  Re.seq [Re.Bol; Re.Lit "Chassis Id"; Re.Rep Re.space 3;
          Re.Cls (Re.Class [Re.IChar ":"; Re.ISpace]);
          Re.Group 1 (Re.Rep Re.Dot 1); Re.Eol].

Definition REMOTE_PORT_DESCR_REGEX : Re.regex := labelled "Port Description".

Definition REMOTE_SYS_DESCR_REGEX : Re.regex :=
  Re.seq [Re.Behind 18 (Re.Seq Re.Bol (Re.Lit "System Description"));
          Re.Rep Re.space 0; Re.Lit ":"; Re.Cls Re.space;
          Re.Group 1 (Re.Rep Re.Dot 0);
          Re.Ahead (Re.Lit (String LF (String LF (String LF ""))))].

Definition REMOTE_SYS_CAP_REGEX : Re.regex := labelled "Supported Caps".
Definition REMOTE_SYS_EN_CAP_REGEX : Re.regex := labelled "Enabled Caps".

(** [m.group(1)] on the result of [re.search]; in each pattern above
    group 1 takes part in every match. *)
Definition group1 (m : option Re.mobj) : outcome string :=
  match m with
  | None => Raise AttributeError
  | Some m => Ret (default "" (Re.group 1 m))
  end.

Section Driver.

(** [ET.fromstring], the device behind [self.device.send_command], and
    [self.hostname]. *)
Variable fromstring : string → outcome Element.
Variable send_command : string → string.
Variable hostname : string.

Definition _send_command (command : string) (xml_format : bool) : string :=
  send_command (if xml_format then command +:+ " xml" else command).

Definition convert_software_version_xml_to_dict (xml_data : string)
  : outcome (option (gmap string string)) :=
  match xml_data with
  | "" => Ret None
  | _ =>
      (fix lines (ls : list string) : outcome (option (gmap string string)) :=
         match ls with
         | [] => Ret None
         | line :: ls' =>
             if str_contains "info" line then
               let line := str_split (str_replace "name=" ""
                             (str_replace "<" " " (str_replace ">" " " line))) in
               software ← list_item (reverse line) 1;
               Ret (Some {[ "ISAM" := software ]})
             else lines ls'
         end) (str_splitlines xml_data)
  end.

(** The lines of the reply without those that mention [hierarchy],
    joined and stripped. *)
Definition sanitize (xml_data : string) : string :=
  str_strip (str_concat
    (List.filter (fun line => negb (str_contains "hierarchy" line))
                 (str_splitlines xml_data))).

(** The inner loop of [convert_xml_to_list]: the children of one
    instance. *)
Definition instance_fields (instance_elem : Element) : outcome record :=
  for_each (fun (data : record) element =>
              name ← getitem (attrib element) "name";
              Ret (<[name := text element]> data))
           (children instance_elem) ∅.

Definition root_instances (root : Element) : outcome (list record) :=
  for_each (fun instances instance_elem =>
              data ← instance_fields instance_elem;
              Ret (instances ++ [data]))
           (findall_children "instance" root) [].

Definition convert_xml_to_list (xml_data : string)
  : outcome (option (list record)) :=
  match xml_data with
  | "" => Ret None
  | _ =>
      root ← fromstring (sanitize xml_data);
      instances ← root_instances root;
      Ret (Some instances)
  end.

Definition _convert_xml_elem_to_dict (elem : Element) : outcome record :=
  for_each (fun (data : record) e =>
              if has_tag "instance" e then Ret data
              else
                name ← getitem (attrib e) "name";
                let key_name := str_replace " " "_" name in
                Ret (<[key_name := text e]> data))
           (iter elem) ∅.

(** The [try] around [data_dict[record[key]] = record] drops the records
    without the key. *)
Definition _convert_list_to_dict (data : list record) (key : string)
  : gmap (option string) record :=
  foldl (fun data_dict record =>
           match record !! key with
           | Some k => <[k := record]> data_dict
           | None => data_dict
           end)
        ∅ data.

Definition make_device_model (data : string) : outcome (option string) :=
  if bool_decide (data = "") then Ret None else
  (fix lines (ls : list string) : outcome (option string) :=
     match ls with
     | [] => Ret None
     | line :: ls' =>
         if str_contains "Copyright" line && str_contains "NOKIA" line then
           let line_list := str_split line in
           match list_find (fun w => bool_decide (w = "NOKIA")) line_list with
           | None => Raise ValueError
           | Some (nokia_index, _) =>
               a ← list_item line_list (nokia_index + 1);
               b ← list_item line_list (nokia_index + 2);
               Ret (Some (a +:+ " " +:+ b))
           end
         else lines ls'
     end) (str_splitlines data).

(** *** get_facts *)

(** [for r in range(n): l.pop(0)]. *)
Fixpoint pop_front (n : nat) (l : list string) : outcome (list string) :=
  match n with
  | O => Ret l
  | S n' =>
      match l with
      | [] => Raise IndexError
      | _ :: l' => pop_front n' l'
      end
  end.

(** The key of the interface sort: [list(map(int, p.split("/")))]. *)
Definition port_key (p : option string) : outcome (list Z * string) :=
  s ← as_str p AttributeError;
  ks ← for_each (fun ks part => k ← int_of (Some part); Ret (ks ++ [k]))
                (str_split_on "/" s) [];
  Ret (ks, s).

Definition sort_ports (port_list : list (option string)) : outcome (list string) :=
  keyed ← for_each (fun acc p => kp ← port_key p; Ret (acc ++ [kp])) port_list [];
  Ret (sort_by_key keyed).

Definition facts_hostname (hostname_xml_tree : Element) (facts : gmap string pyval)
  : outcome (gmap string pyval) :=
  for_each (fun facts elem =>
              dummy_data ← _convert_xml_elem_to_dict elem;
              match dummy_data !! "description" with
              | Some hostname =>
                  Ret (<["interface_list" := VList []]>
                      (<["fqdn" := VStr "Unknown"]>
                      (<["serial_number" := VStr ""]>
                      (<["os_version" := VStr ""]>
                      (<["uptime" := VStr ""]>
                      (<["vendor" := VStr "Nokia"]>
                      (<["hostname" := of_text hostname]> facts)))))))
              | None => Ret facts
              end)
           (findall_deep_named "hierarchy" "isam" hostname_xml_tree) facts.

Definition facts_os (os_xml_tree : Element) (facts : gmap string pyval)
  : outcome (gmap string pyval) :=
  for_each (fun facts elem =>
              dummy_data ← _convert_xml_elem_to_dict elem;
              match dummy_data !! "isam-feature-group" with
              | Some os_version => Ret (<["os_version" := of_text os_version]> facts)
              | None => Ret facts
              end)
           (findall_deep_named "hierarchy" "ansi" os_xml_tree) facts.

Definition facts_shelf (sn_xml_tree : Element) (facts : gmap string pyval)
  : outcome (gmap string pyval) :=
  for_each (fun facts elem =>
              dummy_data ← _convert_xml_elem_to_dict elem;
              let facts :=
                match dummy_data !! "serial-no" with
                | Some serial_number =>
                    <["serial_number" := of_text serial_number]> facts
                | None => facts
                end in
              match dummy_data !! "variant" with
              | Some variant =>
                  model ← getitem facts "model";
                  match model with
                  | VStr m =>
                      Ret (<["model" := VStr (m +:+ " (" +:+ fmt variant +:+ ")")]> facts)
                  | _ => Raise TypeError
                  end
              | None => Ret facts
              end)
           (findall_deep_named "hierarchy" "shelf" sn_xml_tree) facts.

Definition facts_uptime (uptime_output : string) (facts : gmap string pyval)
  : outcome (gmap string pyval) :=
  for_each (fun facts line =>
              let split_line := str_split line in
              match split_line with
              | [] => Ret facts
              | first :: _ =>
                  if str_contains "System" first then
                    second ← list_item split_line 1;
                    if str_contains "Up" second then
                      rest ← pop_front 4 split_line;
                      Ret (<["uptime" := VStr (str_join " " rest)]> facts)
                    else Ret facts
                  else Ret facts
              end)
           (str_splitlines uptime_output) facts.

Definition facts_ports (port_xml_tree : Element) : outcome (list (option string)) :=
  for_each (fun port_list elem =>
              dummy_data ← _convert_xml_elem_to_dict elem;
              match dummy_data !! "ont-idx" with
              | Some p => Ret (port_list ++ [p])
              | None => Ret port_list
              end)
           (findall_deep "instance" port_xml_tree) [].

(** The body of [get_facts] once the replies are parsed. *)
Definition merge_facts (device_model : option string)
    (hostname_xml_tree os_xml_tree sn_xml_tree : Element)
    (uptime_output : string) (port_xml_tree : Element)
  : outcome (gmap string pyval) :=
  let facts := {[ "model" := of_text device_model ]} in
  facts ← facts_hostname hostname_xml_tree facts;
  facts ← facts_os os_xml_tree facts;
  facts ← facts_shelf sn_xml_tree facts;
  facts ← facts_uptime uptime_output facts;
  port_list ← facts_ports port_xml_tree;
  port_list ← sort_ports port_list;
  Ret (<["interface_list" := VList port_list]> facts).

Definition get_facts : outcome (gmap string pyval) :=
  let hostname_output := _send_command "show equipment isam detail" true in
  let os_output := _send_command "show software-mngt version ansi" true in
  let uptime_output := _send_command "show core1-uptime" false in
  let sn_output := _send_command "show equipment shelf 1/1 detail" true in
  let port_output := _send_command "show equipment ont interface" true in
  let model_output := _send_command "admin display-config" false in
  device_model ← make_device_model model_output;
  hostname_xml_tree ← fromstring hostname_output;
  os_xml_tree ← fromstring os_output;
  sn_xml_tree ← fromstring sn_output;
  port_xml_tree ← fromstring port_output;
  merge_facts device_model hostname_xml_tree os_xml_tree sn_xml_tree
              uptime_output port_xml_tree.

(** *** get_vlans *)

Definition vlan_names (output_xml_tree : Element) : outcome (gmap Z vlan) :=
  for_each (fun (vlans : gmap Z vlan) elem =>
              dummy_data ← _convert_xml_elem_to_dict elem;
              id ← getitem dummy_data "id";
              primary_key ← int_of id;
              match vlans !! primary_key with
              | Some _ => Ret vlans
              | None =>
                  name ← getitem dummy_data "name";
                  Ret (<[primary_key := Vlan name []]> vlans)
              end)
           (findall_deep "instance" output_xml_tree) ∅.

Definition transmits (mode : string) : bool :=
  str_contains "single-tagged" mode || str_contains "untagged" mode.

Definition vlan_tagging (vlans : gmap Z vlan) (elem : Element)
  : outcome (gmap Z vlan) :=
  dummy_data ← _convert_xml_elem_to_dict elem;
  id ← getitem dummy_data "vlan-id";
  vlan_id ← int_of id;
  port_raw ← getitem dummy_data "vlan-port";
  port_raw ← as_str port_raw AttributeError;
  port ← list_item (str_split_on ":" port_raw) 1;
  mode ← getitem dummy_data "transmit-mode";
  mode ← as_str mode TypeError;
  if transmits mode then
    v ← getitem vlans vlan_id;
    Ret (<[vlan_id := Vlan (vlan_name v) (vlan_interfaces v ++ [port])]> vlans)
  else Ret vlans.

(** The body of [get_vlans] once the two replies are parsed. *)
Definition merge_vlans (output_xml_tree tag_xml_tree : Element)
  : outcome (gmap Z vlan) :=
  vlans ← vlan_names output_xml_tree;
  for_each vlan_tagging (findall_deep "instance" tag_xml_tree) vlans.

Definition get_vlans : outcome (gmap Z vlan) :=
  let vlan_name_output := _send_command "show vlan name" true in
  let tagging_output :=
    _send_command "show vlan residential-bridge extensive" true in
  output_xml_tree ← fromstring vlan_name_output;
  tag_xml_tree ← fromstring tagging_output;
  merge_vlans output_xml_tree tag_xml_tree.

(** *** The guarded table operations *)

Definition no_data : string := "No available data from the " +:+ hostname.

Definition no_data_for (command : string) : string :=
  "No available ** " +:+ command +:+ " ** data from the " +:+ hostname.

(** The shape shared by the table operations: send, and if the reply is
    not empty list its instances and key them. *)
Definition keyed_table (command key msg : string)
  : outcome (reply (gmap (option string) record)) :=
  let data := _send_command command true in
  match data with
  | "" => Ret (NoData msg)
  | _ =>
      data_list ← convert_xml_to_list data;
      data_list ← iterable data_list;
      Ret (Data (_convert_list_to_dict data_list key))
  end.

Definition get_equipment_ont_status_xpon :=
  keyed_table "show equipment ont status x-pon" "ont" no_data.
Definition get_equipment_ont_interfaces :=
  keyed_table "show equipment ont interface" "ont-idx" no_data.
Definition get_equipment_ont_status_pon :=
  keyed_table "show equipment ont status pon" "ont" no_data.
Definition get_vlan_residential_bridge :=
  keyed_table "show vlan residential-bridge extensive" "vlan-port" no_data.
Definition get_unprovision_devices :=
  keyed_table "show pon unprovision-onu" "gpon-index" no_data.
Definition get_equipment_slot :=
  keyed_table "show equipment slot" "slot" (no_data_for "show equipment slot").
Definition get_equipment_slot_detail :=
  keyed_table "show equipment slot detail" "slot"
              (no_data_for "show equipment slot detail").
Definition get_equipment_ont_slot :=
  keyed_table "show equipment ont slot" "ont-slot-idx"
              (no_data_for "show equipment ont slot").
Definition get_equipment_ont_optics :=
  keyed_table "show equipment ont optics" "ont-idx"
              (no_data_for "show equipment ont optics").
Definition get_pon_optics :=
  keyed_table "show pon optics" "pon-idx" (no_data_for "show pon optics").
Definition get_equipment_ont_sw_downloads :=
  keyed_table "show equipment ont sw-download" "ont-idx"
              (no_data_for "show equipment ont sw-download").
Definition get_vlan_fdb_board :=
  keyed_table "show vlan fdb-board" "mac" (no_data_for "show vlan fdb-board").
Definition get_ethernet_ont_operational_data :=
  keyed_table "show ethernet ont operational-data" "uni-idx"
              (no_data_for "show ethernet ont operational-data").
Definition get_equipment_ont_sw_version :=
  keyed_table "show equipment ont sw-version" "sw-ver-id"
              (no_data_for "show equipment ont sw-version").
Definition get_equipment_transceiver_inventor :=
  keyed_table "show equipment transceiver-inventor" "index"
              (no_data_for "show equipment transceiver-inventor").
Definition get_equipment_diagnostics_sfp :=
  keyed_table "show equipment diagnostics sfp" "position"
              (no_data_for "show equipment diagnostics sfp").
Definition get_vlan_name :=
  keyed_table "show vlan name" "id" (no_data_for "show vlan name").
Definition get_equipment_temperature :=
  keyed_table "show equipment temperature" "sensor-id"
              (no_data_for "show equipment temperature").

Definition get_software_mgmt_version_etsi
  : outcome (reply (option (gmap string string))) :=
  let command := "show software-mngt version etsi" in
  let data := _send_command command true in
  match data with
  | "" => Ret (NoData (no_data_for command))
  | _ => d ← convert_software_version_xml_to_dict data; Ret (Data d)
  end.

(** *** get_vlan_bridge_port_fdb *)

Abbreviation fdb := (list (option string * option string)).

(** [for i in tmp_data: if i[1] != mac_: (append); break]: whether the
    loop reaches an element with another MAC, at which it appends once
    and stops. *)
Fixpoint other_mac (tmp_data : fdb) (mac_ : option string) : bool :=
  match tmp_data with
  | [] => false
  | i :: tmp_data' =>
      if bool_decide (i.2 ≠ mac_) then true else other_mac tmp_data' mac_
  end.

Definition fdb_entry (new_dict : gmap (option string) fdb) (entry : record)
  : outcome (gmap (option string) fdb) :=
  port_ ← getitem entry "port";
  vlan_id_ ← getitem entry "vlan-id";
  mac_ ← getitem entry "mac";
  let new_dict :=
    match new_dict !! port_ with
    | Some tmp_data =>
        if other_mac tmp_data mac_
        then <[port_ := tmp_data ++ [(vlan_id_, mac_)]]> new_dict
        else new_dict
    | None => new_dict
    end in
  match new_dict !! port_ with
  | Some _ => Ret new_dict
  | None => Ret (<[port_ := [(vlan_id_, mac_)]]> new_dict)
  end.

(** The loop of [get_vlan_bridge_port_fdb] over the listed records. *)
Definition group_fdb (loaded_data : list record)
  : outcome (gmap (option string) fdb) :=
  for_each fdb_entry loaded_data ∅.

Definition get_vlan_bridge_port_fdb
  : outcome (reply (gmap (option string) fdb)) :=
  let command := "show vlan bridge-port-fdb" in
  let data := _send_command command true in
  match data with
  | "" => Ret (NoData (no_data_for command))
  | _ =>
      tmp_data ← convert_xml_to_list data;
      loaded_data ← iterable tmp_data;
      new_dict ← group_fdb loaded_data;
      Ret (Data new_dict)
  end.

(** *** get_ntp_servers *)

(** [for key in sub: if key == "server-ip-addrv6": ...] runs its body
    once when the record has that key. *)
Definition ntp_record (ntp_servers : gmap string (list (option string)))
    (sub : record) : gmap string (list (option string)) :=
  let key := "server-ip-addrv6" in
  match sub !! key with
  | Some v => <[key := default [] (ntp_servers !! key) ++ [v]]> ntp_servers
  | None => ntp_servers
  end.

Definition get_ntp_servers : outcome (gmap string (list (option string))) :=
  let command := "show sntp server-tablev6 " in
  let data := _send_command command true in
  data ← convert_xml_to_list data;
  data ← iterable data;
  Ret (foldl ntp_record ∅ data).

(** *** get_lldp_neighbors_detail *)

(** The ports of [show port]: the first word of each line that
    [PORT_REGEX] keeps, unless the last word is [vport]. *)
Definition lldp_ports (port_data : string) : list string :=
  let all_ports := Re.findall0 Re.MULTILINE PORT_REGEX port_data in
  flat_map (fun line =>
              let line := str_split line in
              match line with
              | [] => []
              | first :: _ =>
                  if bool_decide (last line = Some "vport") then [] else [first]
              end) all_ports.

Abbreviation neighbor := (gmap string string).

Definition neighbor_defaults (port remote_host : string) : neighbor :=
  list_to_map [
    ("parent_interface", port);
    ("remote_chassis_id", "");
    ("remote_system_name", remote_host);
    ("remote_port", "");
    ("remote_port_description", "");
    ("remote_system_description", "");
    ("remote_system_capab", "");
    ("remote_system_enable_capab", "")
  ].

(** The body of the loop over the ports, given the reply for [port]. *)
Definition lldp_detail (lldp : gmap string (list neighbor))
    (port lldp_data : string) : outcome (gmap string (list neighbor)) :=
  match Re.findall1 Re.MULTILINE REMOTE_HOST_REGEX lldp_data with
  | [] => Ret lldp
  | remote_host :: _ =>
      let n := neighbor_defaults port remote_host in
      let remote_chassis_id_data :=
        Re.search Re.MULTILINE REMOTE_CHASSIS_REGEX lldp_data in
      let remote_port_descr_data :=
        Re.search Re.MULTILINE REMOTE_PORT_DESCR_REGEX lldp_data in
      let remote_sys_descr_data :=
        Re.search Re.MULTILINE_DOTALL REMOTE_SYS_DESCR_REGEX lldp_data in
      let remote_sys_cap_data :=
        Re.search Re.MULTILINE REMOTE_SYS_CAP_REGEX lldp_data in
      let remote_sys_en_cap_data :=
        Re.search Re.MULTILINE REMOTE_SYS_EN_CAP_REGEX lldp_data in
      chassis ← group1 remote_chassis_id_data;
      let n := <["remote_chassis_id" := chassis]> n in
      port_descr ← group1 remote_port_descr_data;
      let n := <["remote_port_description" := port_descr]> n in
      sys_descr ← group1 remote_sys_descr_data;
      let n := <["remote_system_description" :=
                   str_join " " (str_split sys_descr)]> n in
      sys_cap ← group1 remote_sys_cap_data;
      let n := <["remote_system_capab" := sys_cap]> n in
      sys_en_cap ← group1 remote_sys_en_cap_data;
      let n := <["remote_system_enable_capab" := sys_en_cap]> n in
      let remote_port_data :=
        Re.search Re.MULTILINE REMOTE_PORT_REGEX lldp_data in
      port_text ← group1 remote_port_data;
      match str_split port_text !! 1%nat with
      | Some remote_port =>
          Ret (<[port := [<["remote_port" :=
                             str_replace (String DQUOTE "") "" remote_port]> n]]> lldp)
      | None => Ret (<[port := [n]]> lldp)
      end
  end.

Definition get_lldp_neighbors_detail : outcome (gmap string (list neighbor)) :=
  let port_data := _send_command "show port" false in
  for_each (fun lldp port =>
              lldp_detail lldp port
                (_send_command ("show port " +:+ port +:+ " ethernet lldp remote-info")
                               false))
           (lldp_ports port_data) ∅.

(** *** get_lldp_neighbors *)

(** The body of the loop over the ports in [get_lldp_neighbors], given the
    reply for [port]. *)
Definition lldp_neighbor (lldp : gmap string (list neighbor))
    (port lldp_data : string) : outcome (gmap string (list neighbor)) :=
  match Re.search Re.MULTILINE REMOTE_HOST_REGEX lldp_data with
  | None => Ret lldp
  | Some remote_host =>
      let n : neighbor :=
        {[ "hostname" := default "" (Re.group 1 remote_host); "port" := "" ]} in
      let remote_port_data :=
        Re.search Re.MULTILINE REMOTE_PORT_REGEX lldp_data in
      port_text ← group1 remote_port_data;
      match str_split port_text !! 1%nat with
      | Some remote_port =>
          Ret (<[port := [<["port" := str_replace (String DQUOTE "") "" remote_port]> n]]>
                 lldp)
      | None => Ret (<[port := [n]]> lldp)
      end
  end.

Definition get_lldp_neighbors : outcome (gmap string (list neighbor)) :=
  let port_data := _send_command "show port" false in
  for_each (fun lldp port =>
              lldp_neighbor lldp port
                (_send_command ("show port " +:+ port +:+ " ethernet lldp remote-info")
                               false))
           (lldp_ports port_data) ∅.

(** *** get_interfaces *)







(** *** get_config *)

(** [full] and [sanitized] are not read; the test on [retrieve.lower()]
    guards a [pass]. *)
Definition get_config (retrieve : string) : gmap string string :=
  let configs : gmap string string :=
    {[ "running" := ""; "startup" := "No Startup"; "candidate" := "No Candidate" ]} in
  if bool_decide (retrieve = "all") || bool_decide (retrieve = "running") then
    let output_ := _send_command "info configure" false in
    match output_ with
    | "" => configs
    | _ =>
        let data := str_split_on LF output_ in
        let non_empty_lines := filter (fun line => str_strip line ≠ "") data in
        let string_without_empty_lines :=
          foldl (fun acc line => acc +:+ line +:+ String LF "") "" non_empty_lines in
        <["running" := string_without_empty_lines]> configs
    end
  else configs.

(** *** cli *)

(** The device of the model raises nothing, so the [except] branch of
    [cli] is never taken. *)
Definition cli (commands : list string) : gmap string string :=
  foldl (fun output cmd => <[cmd := _send_command cmd false]> output) ∅ commands.

(** *** The optional arguments handed to Netmiko *)

(** The keys of [netmiko_argument_map]; its values are never read. *)
Definition netmiko_argument_map : list string := [
  "port"; "secret"; "verbose"; "keepalive"; "global_delay_factor"; "use_keys";
  "key_file"; "ssh_strict"; "system_host_keys"; "alt_host_keys"; "alt_key_file";
  "ssh_config_file"; "session_log"; "read_timeout_override"
].

(** The loop of [__init__] that builds [self.netmiko_optional_args]: the
    [try] drops the keys [optional_args] lacks. *)
Definition netmiko_optional_args {V : Type} (optional_args : gmap string V)
  : gmap string V :=
  foldl (fun args k =>
           match optional_args !! k with
           | Some v => <[k := v]> args
           | None => args
           end)
        ∅ netmiko_argument_map.

End Driver.

End NokiaOltDriver.

(** ** Sample inputs *)

Module Samples.
Import Etree NokiaOltDriver.

Definition unlines (l : list string) : string := str_join (String LF "") l.

(** The key the node flattener files a node under: its [name] attribute
    with the spaces replaced. *)
Definition field_key (e : Element) : option string :=
  str_replace " " "_" <$> attrib e !! "name".

(** A stand-in for [ET.fromstring] that knows the documents of a table. *)
Definition parses (table : list (string * Element)) (s : string)
  : outcome Element :=
  match list_find (fun p => bool_decide (p.1 = s)) table with
  | Some (_, (_, root)) => Ret root
  | None => Raise ParseError
  end.

(** A stand-in for [ET.fromstring] that knows one document. *)
Definition parses_to (doc : string) (root : Element) (s : string)
  : outcome Element :=
  if bool_decide (s = doc) then Ret root else Raise ParseError.

(** An element with a [name] attribute and text, as the device prints
    [res-id] and [info]. *)
Definition field (tag name : string) (value : option string) : Element :=
  Elem tag {[ "name" := name ]} value [].

Definition instance (fields : list Element) : Element :=
  Elem "instance" ∅ None fields.

Definition runtime_data (nodes : list Element) : Element :=
  Elem "runtime-data" ∅ None nodes.

(** Three rows of [show vlan bridge-port-fdb] for one port: the first
    row comes again after a row with another MAC. *)
Definition fdb_row (port vlan_id mac : string) : record :=
  list_to_map [("port", Some port); ("vlan-id", Some vlan_id); ("mac", Some mac)].

Definition fdb_repeated : list record := [
  fdb_row "1/1/5/1" "100" "00:11:22:33:44:55";
  fdb_row "1/1/5/1" "200" "66:77:88:99:aa:bb";
  fdb_row "1/1/5/1" "100" "00:11:22:33:44:55"
].

(** A row of [show vlan residential-bridge extensive]; the device names
    one of its fields with a space. *)
Definition association_type : Element :=
  field "info" "association type" (Some "static").

(** One slot, listed directly under the root, and the same instance one
    level further down. *)
Definition slot_instance : Element :=
  instance [field "res-id" "slot" (Some "lt:1/1/1");
            field "info" "oper-status" (Some "enabled");
            field "info" "error-status" None].


Definition oper_status : Element := field "info" "oper-status" (Some "enabled").

Definition slot_record : record :=
  {[ "slot" := Some "lt:1/1/1"; "oper-status" := Some "enabled";
     "error-status" := None ]}.

Definition slot_doc : string :=
  "<runtime-data><instance><res-id name='slot'>lt:1/1/1</res-id>" +:+
  "<info name='oper-status'>enabled</info><info name='error-status'/>" +:+
  "</instance></runtime-data>".

Definition slot_root : Element := runtime_data [slot_instance].

Definition nested_doc : string :=
  "<runtime-data><group><instance><res-id name='slot'>lt:1/1/1</res-id>" +:+
  "<info name='oper-status'>enabled</info><info name='error-status'/>" +:+
  "</instance></group></runtime-data>".

Definition nested_root : Element :=
  runtime_data [Elem "group" ∅ None [slot_instance]].

(** *** VLANs *)

(** The integer an instance holds under [key], when it has one. *)
Definition vlan_id_of (key : string) (elem : Element) : option Z :=
  match _convert_xml_elem_to_dict elem with
  | Ret d =>
      match d !! key with
      | Some id => match int_of id with Ret z => Some z | Raise _ => None end
      | None => None
      end
  | Raise _ => None
  end.

(** The ids of the [show vlan name] output. *)
Definition named_ids (output_xml_tree : Element) : list Z :=
  omap (vlan_id_of "id") (findall_deep "instance" output_xml_tree).

(** Whether [get_vlans] appends the port of a tagging instance: its
    transmit mode mentions [single-tagged] or [untagged]. *)
Definition appends (elem : Element) : bool :=
  match _convert_xml_elem_to_dict elem with
  | Ret d =>
      match d !! "transmit-mode" with
      | Some (Some mode) => transmits mode
      | _ => false
      end
  | Raise _ => false
  end.

Definition vlan_10 : Element :=
  runtime_data [instance [field "res-id" "id" (Some "10");
                          field "info" "name" (Some "mgmt")]].

Definition tagging_row (vlan_id mode : string) : Element :=
  instance [field "res-id" "vlan-id" (Some vlan_id);
            field "res-id" "vlan-port"
                  (Some ("vlan-port:1/1/1/16/29/1/2:" +:+ vlan_id));
            field "info" "transmit-mode" (Some mode)].

(** VLAN 20 is not in [vlan_10]; one row would not be appended, the other
    would. *)
Definition vlan_20_double_tagged : Element :=
  runtime_data [tagging_row "20" "double-tagged"].
Definition vlan_20_untagged : Element :=
  runtime_data [tagging_row "20" "untagged"].
Definition vlan_10_untagged : Element :=
  runtime_data [tagging_row "10" "untagged"].

Definition vlan_10_doc : string :=
  "<runtime-data><instance><res-id name='id'>10</res-id>"
  +:+ "<info name='name'>mgmt</info></instance></runtime-data>".

Definition tagging_doc (vlan_id mode : string) : string :=
  "<runtime-data><instance><res-id name='vlan-id'>" +:+ vlan_id +:+ "</res-id>"
  +:+ "<res-id name='vlan-port'>vlan-port:1/1/1/16/29/1/2:" +:+ vlan_id
  +:+ "</res-id><info name='transmit-mode'>" +:+ mode
  +:+ "</info></instance></runtime-data>".

Definition vlan_parser : string → outcome Element :=
  parses [(vlan_10_doc, vlan_10);
          (tagging_doc "20" "double-tagged", vlan_20_double_tagged);
          (tagging_doc "20" "untagged", vlan_20_untagged);
          (tagging_doc "10" "untagged", vlan_10_untagged)].

(** A device with VLAN 10 and the given tagging reply. *)
Definition vlan_device (tagging : string) (command : string) : string :=
  if bool_decide (command = "show vlan name xml") then vlan_10_doc else tagging.

(** *** Facts *)

(** Whether flattening [elem] gives a record with [key]. *)
Definition supplied (key : string) (elem : Element) : bool :=
  match _convert_xml_elem_to_dict elem with
  | Ret d => bool_decide (is_Some (d !! key))
  | Raise _ => false
  end.

Definition supplies (key : string) (elems : list Element) : bool :=
  existsb (supplied key) elems.

(** Whether a line of [show core1-uptime] is the one [get_facts] reads
    the uptime from. *)
Definition uptime_line (line : string) : bool :=
  match str_split line with
  | first :: second :: _ => str_contains "System" first && str_contains "Up" second
  | _ => false
  end.

(** The defaults [get_facts] writes next to the hostname. *)
Definition has_defaults (facts : gmap string pyval) : Prop :=
  facts !! "vendor" = Some (VStr "Nokia")
  ∧ facts !! "uptime" = Some (VStr "")
  ∧ facts !! "os_version" = Some (VStr "")
  ∧ facts !! "serial_number" = Some (VStr "")
  ∧ facts !! "fqdn" = Some (VStr "Unknown")
  ∧ facts !! "interface_list" = Some (VList []).

Definition hierarchy (name : string) (nodes : list Element) : Element :=
  Elem "hierarchy" {[ "name" := name ]} None nodes.

(** A device whose isam-detail reply has a description and whose
    shelf-detail reply has a serial number and a variant; its other
    replies hold no fact. *)
Definition isam_doc : string :=
  "<runtime-data><hierarchy name='isam'><info name='description'>olt-1</info>"
  +:+ "</hierarchy></runtime-data>".
Definition isam_root : Element :=
  runtime_data [hierarchy "isam" [field "info" "description" (Some "olt-1")]].

Definition shelf_doc : string :=
  "<runtime-data><hierarchy name='shelf'><info name='serial-no'>SN123</info>"
  +:+ "<info name='variant'>NFXS-E</info></hierarchy></runtime-data>".
Definition shelf_root : Element :=
  runtime_data [hierarchy "shelf" [field "info" "serial-no" (Some "SN123");
                                   field "info" "variant" (Some "NFXS-E")]].

Definition empty_doc : string := "<runtime-data></runtime-data>".
Definition empty_root : Element := runtime_data [].

(** The isam-detail reply without a description. *)
Definition isam_bare_doc : string :=
  "<runtime-data><hierarchy name='isam'></hierarchy></runtime-data>".
Definition isam_bare_root : Element := runtime_data [hierarchy "isam" []].

Definition facts_parser : string → outcome Element :=
  parses [(isam_doc, isam_root); (shelf_doc, shelf_root);
          (empty_doc, empty_root); (isam_bare_doc, isam_bare_root)].

Definition facts_device (command : string) : string :=
  if bool_decide (command = "show equipment isam detail xml") then isam_doc
  else if bool_decide (command = "show equipment shelf 1/1 detail xml") then shelf_doc
  else if bool_decide (command = "admin display-config") then "# Copyright NOKIA 7360 ISAM"
  else if bool_decide (command = "show core1-uptime") then ""
  else empty_doc.

(** The same device with the description missing. *)
Definition undescribed_device (command : string) : string :=
  if bool_decide (command = "show equipment isam detail xml") then isam_bare_doc
  else facts_device command.

(** What [get_facts] returns on [facts_device]. *)
Definition olt1_facts : gmap string pyval :=
  list_to_map [
    ("hostname", VStr "olt-1"); ("vendor", VStr "Nokia"); ("uptime", VStr "");
    ("os_version", VStr ""); ("serial_number", VStr "SN123");
    ("model", VStr "7360 ISAM (NFXS-E)"); ("fqdn", VStr "Unknown");
    ("interface_list", VList [])
  ].

(** What [get_facts] returns on [undescribed_device]. *)
Definition undescribed_facts : gmap string pyval :=
  list_to_map [
    ("serial_number", VStr "SN123"); ("model", VStr "7360 ISAM (NFXS-E)");
    ("interface_list", VList [])
  ].

(** *** Replies without data *)

(** A device that answers nothing, one that answers an unclosed tag, and
    a parser that accepts no document. *)
Definition silent_device : string → string := fun _ => "".
Definition garbled_device : string → string := fun _ => "<instance>".
Definition strict_parser : string → outcome Element := parses [].

(** The table operations that test their reply before they list it, each
    with the command it sends. *)
Definition table_operations (fromstring : string → outcome Element)
    (send_command : string → string) (hostname : string)
  : list (string * outcome (reply (gmap (option string) record))) := [
  ("show equipment ont status x-pon",
   get_equipment_ont_status_xpon fromstring send_command hostname);
  ("show equipment ont interface",
   get_equipment_ont_interfaces fromstring send_command hostname);
  ("show equipment ont status pon",
   get_equipment_ont_status_pon fromstring send_command hostname);
  ("show vlan residential-bridge extensive",
   get_vlan_residential_bridge fromstring send_command hostname);
  ("show pon unprovision-onu",
   get_unprovision_devices fromstring send_command hostname);
  ("show equipment slot",
   get_equipment_slot fromstring send_command hostname);
  ("show equipment slot detail",
   get_equipment_slot_detail fromstring send_command hostname);
  ("show equipment ont slot",
   get_equipment_ont_slot fromstring send_command hostname);
  ("show equipment ont optics",
   get_equipment_ont_optics fromstring send_command hostname);
  ("show pon optics",
   get_pon_optics fromstring send_command hostname);
  ("show equipment ont sw-download",
   get_equipment_ont_sw_downloads fromstring send_command hostname);
  ("show vlan fdb-board",
   get_vlan_fdb_board fromstring send_command hostname);
  ("show ethernet ont operational-data",
   get_ethernet_ont_operational_data fromstring send_command hostname);
  ("show equipment ont sw-version",
   get_equipment_ont_sw_version fromstring send_command hostname);
  ("show equipment transceiver-inventor",
   get_equipment_transceiver_inventor fromstring send_command hostname);
  ("show equipment diagnostics sfp",
   get_equipment_diagnostics_sfp fromstring send_command hostname);
  ("show vlan name",
   get_vlan_name fromstring send_command hostname);
  ("show equipment temperature",
   get_equipment_temperature fromstring send_command hostname)
].

(** *** LLDP *)

Definition show_port_reply : string :=
  unlines [
    "===============================================";
    "Ports on NT";
    "===============================================";
    "Port          Admin Link Port    Port";
    "Id            State      State   Type";
    "-----------------------------------------------";
    "nt-a:xfp:1    Up    Yes  Up      xgige";
    "nt-b:vp:1     Up    Yes  Up      vport";
    "==============================================="
  ].

(** A neighbour block with a system name and a port id, without a chassis
    id. *)
Definition remote_info_reply : string :=
  unlines ["System Name: R1"; "Port Id: 1/1/2"; ""].

Definition lldp_device (command : string) : string :=
  if bool_decide (command = "show port") then show_port_reply
  else if bool_decide (command = "show port nt-a:xfp:1 ethernet lldp remote-info")
       then remote_info_reply
  else "".

(** *** Views used by the further properties *)

(** The text an element's flattening holds under [key]. *)
Definition field_of (key : string) (elem : Element) : option (option string) :=
  match _convert_xml_elem_to_dict elem with
  | Ret d => d !! key
  | Raise _ => None
  end.

(** The port [get_vlans] takes from a tagging instance: the second piece
    of its [vlan-port]. *)
Definition port_of (elem : Element) : option string :=
  match field_of "vlan-port" elem with
  | Some (Some port_raw) => str_split_on ":" port_raw !! 1%nat
  | _ => None
  end.

(** A word: not empty, no whitespace in it. *)
Definition is_word (w : string) : bool :=
  negb (String.eqb w "") && str_all (fun c => negb (py_isspace c)) w.

(** The characters of a string. *)
Definition chars (s : string) : list ascii := list_ascii_of_string s.

(** Whether a node can be filed by the node flattener and by the lister. *)
Definition named (e : Element) : Prop := is_Some (attrib e !! "name").

Definition flattenable (elem : Element) : Prop :=
  Forall (fun e => has_tag "instance" e = false → named e) (iter elem).

(** Whether a fdb row has the three fields the grouping reads. *)
Definition fdb_complete (entry : record) : Prop :=
  is_Some (entry !! "port") ∧ is_Some (entry !! "vlan-id") ∧ is_Some (entry !! "mac").

(** A reply whose instance has a child without a name attribute. *)
Definition unnamed_doc : string :=
  "<runtime-data><instance><info>enabled</info></instance></runtime-data>".
Definition unnamed_root : Element :=
  runtime_data [instance [Elem "info" ∅ (Some "enabled") []]].

(** What the grouping stores for [fdb_repeated]. *)
Definition fdb_repeated_dict : gmap (option string) (list (option string * option string)) :=
  {[ Some "1/1/5/1" := [(Some "100", Some "00:11:22:33:44:55");
                        (Some "200", Some "66:77:88:99:aa:bb");
                        (Some "100", Some "00:11:22:33:44:55")] ]}.

(** Two rows of [show sntp server-tablev6] and one row without the
    address field. *)
Definition ntp_rows : list record := [
  {[ "server-ip-addrv6" := Some "2001:db8::1"; "priority" := Some "1" ]};
  {[ "priority" := Some "2" ]};
  {[ "server-ip-addrv6" := Some "2001:db8::2"; "priority" := Some "3" ]}
].

Definition ntp_doc : string :=
  "<runtime-data><instance><res-id name='server-ip-addrv6'>2001:db8::1</res-id>"
  +:+ "<info name='priority'>1</info></instance>"
  +:+ "<instance><info name='priority'>2</info></instance>"
  +:+ "<instance><res-id name='server-ip-addrv6'>2001:db8::2</res-id>"
  +:+ "<info name='priority'>3</info></instance></runtime-data>".

Definition ntp_root : Element :=
  runtime_data [
    instance [field "res-id" "server-ip-addrv6" (Some "2001:db8::1");
              field "info" "priority" (Some "1")];
    instance [field "info" "priority" (Some "2")];
    instance [field "res-id" "server-ip-addrv6" (Some "2001:db8::2");
              field "info" "priority" (Some "3")]
  ].

(** A device that gives one reply to every command. *)
Definition answering (reply : string) : string → string := fun _ => reply.

(** The order [get_facts] sorts the interface list by: the key of [b] is
    not before the key of [a]. *)
Definition key_le (a b : list Z * string) : Prop := key_lt b.1 a.1 = false.

(** A line of [show core1-uptime] on which [get_facts] runs out of
    words: its first word mentions [System] and there is no second word,
    or the second mentions [Up] and there are fewer than four words. *)
Definition short_uptime_line (line : string) : bool :=
  match str_split line with
  | [] => false
  | first :: rest =>
      str_contains "System" first
      && match rest with
         | [] => true
         | second :: _ => str_contains "Up" second && (length rest <? 3)%nat
         end
  end.

(** Whether a line of [admin display-config] is the one the model is read
    from. *)
Definition copyright_line (line : string) : bool :=
  str_contains "Copyright" line && str_contains "NOKIA" line.

(** The facts device without a Copyright line in its display-config
    reply: no model, a variant in the shelf reply. *)
Definition modelless_device (command : string) : string :=
  if bool_decide (command = "admin display-config") then "# TiMOS-B-6.2"
  else facts_device command.

(** *** Samples for the LLDP operations, the interface table, the
    running config and the software version *)

(** A neighbour block with every field the detail operation reads; the
    port id and the system description run over two lines. *)
Definition remote_info_full : string :=
  unlines [
    "Supported Caps        : bridge router";
    "Enabled Caps          : bridge";
    "Chassis Id Subtype    : 4 (macAddress)";
    "Chassis Id            : D0:99:D5:91:D2:B1";
    "Port Id Subtype       : 7 (local)";
    "Port Id               : 31:2F:31:2F:32";
    "                        " +:+ String DQUOTE "1/1/2" +:+ String DQUOTE "";
    "Port Description      : uplink to olt";
    "System Name           : R1";
    "System Description    : TiMOS-C-20.10.R5 both/hops";
    "   Nokia  7750 SR";
    "";
    "";
    "Age                   : 12"
  ].

Definition lldp_full_device (command : string) : string :=
  if bool_decide (command = "show port") then show_port_reply
  else if bool_decide (command = "show port nt-a:xfp:1 ethernet lldp remote-info")
       then remote_info_full
  else "".

(** What the two LLDP operations make of [remote_info_full]. *)
Definition full_neighbor_detail : gmap string string :=
  list_to_map [
    ("parent_interface", "nt-a:xfp:1");
    ("remote_chassis_id", " D0:99:D5:91:D2:B1");
    ("remote_system_name", "R1");
    ("remote_port", "1/1/2");
    ("remote_port_description", "uplink to olt");
    ("remote_system_description", "TiMOS-C-20.10.R5 both/hops Nokia 7750 SR");
    ("remote_system_capab", "bridge router");
    ("remote_system_enable_capab", "bridge")
  ].

Definition full_neighbor : gmap string string :=
  {[ "hostname" := "R1"; "port" := "1/1/2" ]}.

(** A neighbour block with a system name line only. *)
Definition lldp_name_only_device (command : string) : string :=
  if bool_decide (command = "show port") then show_port_reply
  else "System Name : R1".

(** The labels whose line [get_lldp_neighbors_detail] cannot do without. *)
Definition lldp_labels : list string :=
  ["Chassis Id"; "Port Description"; "Supported Caps"; "Enabled Caps"; "Port Id"].

(** The command [get_lldp_neighbors] sends for a port. *)
Definition remote_info_command (port : string) : string :=
  "show port " +:+ port +:+ " ethernet lldp remote-info".

(** A text that joining its words by single spaces leaves alone. *)
Definition normalised (s : string) : Prop := str_join " " (str_split s) = s.

(** A text without a double quote. *)
Definition unquoted (s : string) : bool :=
  str_all (fun c => negb (Ascii.eqb c DQUOTE)) s.

(** The keys of a neighbour of [get_lldp_neighbors_detail]. *)
Definition detail_keys : list string := [
  "parent_interface"; "remote_chassis_id"; "remote_system_name"; "remote_port";
  "remote_port_description"; "remote_system_description"; "remote_system_capab";
  "remote_system_enable_capab"
].

(** *** Interfaces *)










(** *** The running config *)

(** The test of [get_config] on a line. *)
Definition blank (line : string) : Prop := str_strip line = "".

(** The loop of [get_config] that joins the lines it keeps. *)
Definition terminated (lines : list string) : string :=
  foldl (fun acc line => acc +:+ line +:+ String LF "") "" lines.

Definition config_reply : string :=
  unlines ["configure system id olt1"; ""; "   "; "configure vlan id 10"; "exit"].

Definition config_device : string → string := answering config_reply.

(** *** The software version *)

(** The words [convert_software_version_xml_to_dict] makes of a line. *)
Definition version_words (line : string) : list string :=
  str_split (str_replace "name=" ""
               (str_replace "<" " " (str_replace ">" " " line))).

(** A text without an angle bracket. *)
Definition bracket_free (w : string) : bool :=
  str_all (fun c => negb (Ascii.eqb c "<") && negb (Ascii.eqb c ">")) w.

Definition version_reply : string :=
  unlines ["<runtime-data>";
           "<hierarchy name='etsi'>";
           "<info name='isam-release' type='Sw::ReleaseName'>L6GPAA62.607</info>";
           "<info name='other' type='Sw::ReleaseName'>none</info>";
           "</hierarchy>";
           "</runtime-data>"].

(** A reply whose first line with [info] in it has one word. *)
Definition version_reply_short : string :=
  unlines ["<runtime-data>"; "info"; "</runtime-data>"].

End Samples.

(** * Properties *)

(** ** Texts *)

Section TextFacts.
Implicit Types (s x y : string) (n : nat).

Lemma app_cons c x y : String c x +:+ y = String c (x +:+ y).
Proof. reflexivity. Qed.

Lemma app_nil_l x : "" +:+ x = x.
Proof. reflexivity. Qed.

Lemma app_empty_r x : x +:+ "" = x.
Proof. induction x as [|c x IH]; [done|]. by rewrite app_cons, IH. Qed.

Lemma str_app_assoc x y z : (x +:+ y) +:+ z = x +:+ (y +:+ z).
Proof. induction x as [|c x IH]; [done|]. by rewrite !app_cons, IH. Qed.

Lemma str_length_app x y : String.length (x +:+ y) = String.length x + String.length y.
Proof. induction x as [|c x IH]; [done|]. rewrite app_cons. cbn. by rewrite IH. Qed.

Lemma str_take_drop n s : str_take n s +:+ str_drop n s = s.
Proof.
  revert s. induction n as [|n IH]; intros [|c s]; try done.
  cbn [str_take str_drop]. by rewrite app_cons, IH.
Qed.

Lemma str_take_length n s : String.length (str_take n s) = n `min` String.length s.
Proof.
  revert s. induction n as [|n IH]; intros [|c s]; try done.
  cbn [str_take String.length]. by rewrite IH.
Qed.

Lemma str_drop_length n s : String.length (str_drop n s) = String.length s - n.
Proof.
  revert s. induction n as [|n IH]; intros [|c s]; try done.
  cbn [str_drop String.length]. by rewrite IH.
Qed.

Lemma str_take_all n s : String.length s ≤ n → str_take n s = s.
Proof.
  revert s. induction n as [|n IH]; intros [|c s] H; try done.
  - cbn in H. lia.
  - cbn [str_take]. f_equal. apply IH. cbn in H. lia.
Qed.

Lemma str_drop_add n m s : str_drop (n + m) s = str_drop m (str_drop n s).
Proof.
  revert s. induction n as [|n IH]; intros s; [done|].
  destruct s as [|c s]; [by destruct m|]. apply IH.
Qed.

Lemma str_take_add n m s :
  str_take (n + m) s = str_take n s +:+ str_take m (str_drop n s).
Proof.
  revert s. induction n as [|n IH]; intros s; [done|].
  destruct s as [|c s]; [by destruct m|].
  cbn [Nat.add str_take str_drop]. by rewrite app_cons, IH.
Qed.

Lemma str_take_app n x y : n ≤ String.length x → str_take n (x +:+ y) = str_take n x.
Proof.
  revert x. induction n as [|n IH]; intros [|c x] H; try done.
  - cbn in H. lia.
  - rewrite app_cons. cbn [str_take]. f_equal. apply IH. cbn in H. lia.
Qed.

Lemma str_drop_app x y : str_drop (String.length x) (x +:+ y) = y.
Proof. induction x as [|c x IH]; [by destruct y|]. by rewrite app_cons. Qed.

Lemma rev_app_app x y pre :
  String.rev_app (x +:+ y) pre = String.rev_app y (String.rev_app x pre).
Proof.
  revert pre. induction x as [|c x IH]; intros pre; [done|].
  rewrite app_cons. cbn [String.rev_app]. apply IH.
Qed.

Lemma rev_app_length x pre :
  String.length (String.rev_app x pre) = String.length x + String.length pre.
Proof.
  revert pre. induction x as [|c x IH]; intros pre; [done|].
  cbn [String.rev_app]. rewrite IH. cbn. lia.
Qed.

Lemma rev_app_rev_app (a b c : string) :
  String.rev_app (String.rev_app a b) c = String.rev_app b (a +:+ c).
Proof.
  revert b c. induction a as [|x a IH]; intros b c; [done|].
  cbn [String.rev_app]. by rewrite IH.
Qed.

Lemma str_rev_involutive (w : string) : str_rev (str_rev w) = w.
Proof.
  unfold str_rev, String.rev. rewrite rev_app_rev_app. cbn [String.rev_app].
  apply app_empty_r.
Qed.

Lemma rev_app_alt x pre : String.rev_app x pre = String.rev_app x "" +:+ pre.
Proof.
  revert pre. induction x as [|c x IH]; intros pre; [done|].
  cbn [String.rev_app]. rewrite (IH (String c pre)), (IH (String c "")).
  by rewrite str_app_assoc.
Qed.

(** The text a position has moved over is the last part of what stands
    before it. *)
Lemma str_take_rev_app x pre :
  str_take (String.length x) (String.rev_app x pre) = str_rev x.
Proof.
  rewrite rev_app_alt. unfold str_rev, String.rev.
  rewrite str_take_app by (rewrite rev_app_length; cbn; lia).
  apply str_take_all. rewrite rev_app_length. cbn. lia.
Qed.

Lemma strip_prefix_spec l s s' :
  strip_prefix l s = Some s' → s = l +:+ s'.
Proof.
  revert s. induction l as [|a l IH]; intros s H.
  - cbn in H. by simplify_eq.
  - destruct s as [|b s]; [done|]. cbn [strip_prefix] in H.
    destruct (Ascii.eqb_spec a b) as [->|]; [|done].
    rewrite app_cons. f_equal. by apply IH.
Qed.

Lemma strip_prefix_app l s : strip_prefix l (l +:+ s) = Some s.
Proof.
  induction l as [|a l IH]; [by destruct s|].
  rewrite app_cons. cbn [strip_prefix]. by rewrite Ascii.eqb_refl.
Qed.

Lemma strip_prefix_take l s :
  is_Some (strip_prefix l s) ↔ str_take (String.length l) s = l.
Proof.
  split.
  - intros [s' H]. apply strip_prefix_spec in H as ->.
    rewrite str_take_app by done. by apply str_take_all.
  - intros H. rewrite <- (str_take_drop (String.length l) s), H.
    rewrite strip_prefix_app. by eexists.
Qed.

Lemma str_all_app (p : ascii → bool) (a b : string) :
  str_all p (a +:+ b) = str_all p a && str_all p b.
Proof.
  induction a as [|c a IH]; [done|].
  rewrite app_cons. cbn [str_all]. rewrite IH. by destruct (p c).
Qed.

End TextFacts.

(** ** The matcher as a list of choices *)

Module MatcherFacts.
Import Re.

Lemma first_some_app {A R} (k : A → option R) l1 l2 :
  first_some k (l1 ++ l2)
  = match first_some k l1 with
    | Some y => Some y
    | None => first_some k l2
    end.
Proof.
  induction l1 as [|x l1 IH]; [done|]. cbn [app first_some].
  by destruct (k x).
Qed.

Lemma first_some_fmap {A B R} (f : A → B) (k : B → option R) l :
  first_some k (f <$> l) = first_some (fun x => k (f x)) l.
Proof.
  induction l as [|x l IH]; [done|]. cbn [fmap list_fmap first_some].
  by rewrite <- IH.
Qed.

Lemma first_some_bind {A B R} (f : A → list B) (k : B → option R) l :
  first_some k (l ≫= f) = first_some (fun x => first_some k (f x)) l.
Proof.
  induction l as [|x l IH]; [done|].
  cbn [mbind list_bind first_some]. rewrite first_some_app, <- IH. done.
Qed.

Lemma first_some_ext {A R} (k k' : A → option R) l :
  (∀ x, x ∈ l → k x = k' x) → first_some k l = first_some k' l.
Proof.
  induction l as [|x l IH]; intros H; [done|]. cbn [first_some].
  rewrite (H x) by left. destruct (k' x); [done|].
  apply IH. intros y Hy. apply H. by right.
Qed.

(** Every choice stays inside the text. *)
Lemma rep_ends_bound fl cl least s n :
  n ∈ rep_ends fl cl least s → n ≤ String.length s.
Proof.
  revert least n. induction s as [|c s IH]; intros least n Hn.
  - cbn in Hn. destruct least; [|by apply elem_of_nil in Hn].
    apply list_elem_of_singleton in Hn as ->. cbn. lia.
  - cbn [rep_ends] in Hn.
    assert (n ∈ match least with O => [0] | S _ => [] end → n ≤ String.length (String c s))
      as Hstop.
    { destruct least; intros H; [|by apply elem_of_nil in H].
      apply list_elem_of_singleton in H as ->. lia. }
    destruct (class_test fl cl c); [|by apply Hstop].
    apply elem_of_app in Hn as [Hn|Hn]; [|by apply Hstop].
    apply list_elem_of_fmap in Hn as (m & -> & Hm). apply IH in Hm. cbn. lia.
Qed.

Lemma ends_bound fl r s caps n c :
  (n, c) ∈ ends fl r s caps → n ≤ String.length s.
Proof.
  revert s caps n c.
  induction r as [l|cl|cl least|r1 IH1 r2 IH2|r1 IH1 r2 IH2|g r1 IH1| | | | |];
    intros s caps n c Hn; cbn [ends] in Hn; try (by apply elem_of_nil in Hn).
  - destruct (strip_prefix l s) as [s'|] eqn:Hl; [|by apply elem_of_nil in Hn].
    apply list_elem_of_singleton in Hn. simplify_eq.
    apply strip_prefix_spec in Hl as ->. rewrite str_length_app. lia.
  - destruct s as [|a s]; [by apply elem_of_nil in Hn|].
    destruct (class_test fl cl a); [|by apply elem_of_nil in Hn].
    apply list_elem_of_singleton in Hn. simplify_eq. cbn. lia.
  - apply list_elem_of_fmap in Hn as (m & ? & Hm). simplify_eq.
    by eapply rep_ends_bound.
  - apply list_elem_of_bind in Hn as ([n1 c1] & Hn & H1).
    apply list_elem_of_fmap in Hn as ([n2 c2] & ? & H2). simplify_eq. cbn in *.
    apply IH1 in H1. apply IH2 in H2. rewrite str_drop_length in H2. lia.
  - apply elem_of_app in Hn as [Hn|Hn]; [by eapply IH1|by eapply IH2].
  - apply list_elem_of_fmap in Hn as ([n1 c1] & ? & H1). simplify_eq. cbn.
    by eapply IH1.
Qed.

Lemma rep_spec {R} fl cl least pre s caps (k : mstate → option R) :
  rep fl cl least pre s caps k
  = first_some (fun n => k (MState (String.rev_app (str_take n s) pre)
                                   (str_drop n s) caps))
               (rep_ends fl cl least s).
Proof.
  revert least pre. induction s as [|c s IH]; intros least pre.
  - cbn [rep rep_ends].
    destruct least; cbn [first_some str_take str_drop String.rev_app];
      [by destruct (k _)|done].
  - cbn [rep rep_ends].
    destruct (class_test fl cl c).
    + rewrite first_some_app, first_some_fmap, IH.
      cbn [str_take str_drop String.rev_app].
      destruct (first_some _ _); [done|].
      destruct least; cbn [first_some str_take str_drop String.rev_app];
        [by destruct (k _)|done].
    + destruct least; cbn [first_some str_take str_drop String.rev_app];
        [by destruct (k _)|done].
Qed.

(** What [rmatch] does with a pattern without anchors and look-around:
    it hands the continuation the choices of [ends] in their order, and
    returns the first answer. *)
Lemma rmatch_ends {R} fl r :
  plain r = true →
  ∀ pre s caps (k : mstate → option R),
    rmatch fl r (MState pre s caps) k
    = first_some (fun x => k (MState (String.rev_app (str_take x.1 s) pre)
                                     (str_drop x.1 s) x.2))
                 (ends fl r s caps).
Proof.
  revert R.
  induction r as [l|cl|cl least|r1 IH1 r2 IH2|r1 IH1 r2 IH2|g r1 IH1| | | | |];
    intros R Hplain pre s caps k; try done; cbn [plain] in Hplain.
  - cbn [rmatch ends m_rest m_pre m_caps].
    destruct (strip_prefix l s) as [s'|] eqn:Hl; [|done].
    cbn [first_some fst snd]. apply strip_prefix_spec in Hl as ->.
    rewrite str_drop_app, str_take_app, str_take_all by done.
    unfold pass. by destruct (k _).
  - cbn [rmatch ends m_rest m_pre m_caps].
    destruct s as [|a s]; [done|].
    destruct (class_test fl cl a); [|done].
    cbn [first_some fst snd str_take str_drop String.rev_app]. by destruct (k _).
  - cbn [rmatch ends m_rest m_pre m_caps]. rewrite rep_spec, first_some_fmap. done.
  - apply andb_prop in Hplain as [H1 H2].
    cbn [rmatch ends]. rewrite (IH1 _ H1), first_some_bind.
    apply first_some_ext. intros [n1 c1] Hx. cbn [fst snd].
    rewrite (IH2 _ H2), first_some_fmap.
    apply first_some_ext. intros [n2 c2] Hy. cbn [fst snd].
    by rewrite str_drop_add, str_take_add, rev_app_app.
  - apply andb_prop in Hplain as [H1 H2].
    cbn [rmatch ends]. by rewrite (IH1 _ H1), (IH2 _ H2), first_some_app.
  - cbn [rmatch ends]. rewrite (IH1 _ Hplain), first_some_fmap.
    apply first_some_ext. intros [n1 c1] Hx. cbn [fst snd m_pre m_rest m_caps].
    do 3 f_equal. unfold between. cbn [m_pre].
    apply ends_bound in Hx.
    rewrite rev_app_length, str_take_length.
    replace (n1 `min` String.length s + String.length pre - String.length pre)
      with (String.length (str_take n1 s))
      by (rewrite str_take_length; lia).
    by rewrite str_take_rev_app, str_rev_involutive.
Qed.

End MatcherFacts.

(** ** The escape filter *)

Module EscapeFilterFacts.
Import Re EscapeFilter.

(** The lead group looks at one character and hands the position after
    it to the rest of the pattern. *)
Lemma rmatch_lead {R : Type} fl pre a s caps (k : mstate → option R) :
  rmatch fl lead (MState pre (String a s) caps) k =
  if lead_char a
  then k (MState (String a pre) s
            ((1%nat, between (MState pre (String a s) caps)
                             (MState (String a pre) s caps)) :: caps))
  else None.
Proof.
  unfold lead, lead_char.
  cbn [rmatch alt m_rest m_pre m_caps strip_prefix pass String.rev_app
       class_test space existsb item_test].
  destruct (Ascii.eqb_spec "-" a) as [<-|_]; [by destruct (k _)|].
  destruct (Ascii.eqb_spec "\" a) as [<-|_]; [by destruct (k _)|].
  destruct (Ascii.eqb_spec "/" a) as [<-|_]; [by destruct (k _)|].
  cbn [orb].
  destruct (py_isspace a) eqn:Hsp; cbn [orb].
  - destruct (k _) eqn:Hk; [done|].
    destruct (Ascii.eqb_spec "|" a) as [<-|_]; [by rewrite Hk|done].
  - by destruct (Ascii.eqb_spec "|" a) as [<-|_].
Qed.

Lemma rmatch_lead_nil {R : Type} fl pre caps (k : mstate → option R) :
  rmatch fl lead (MState pre "" caps) k = None.
Proof. reflexivity. Qed.

(** A code of the catalog after the lead group needs a lead character
    with [ESC] right behind it. *)
Lemma match_at_unguarded fl t pre a s :
  (∀ s', s = String ESC s' → lead_char a = false) →
  match_at fl (Seq lead (Seq chr27 t)) pre (String a s) = None.
Proof.
  intros Hg. unfold match_at. cbn [rmatch]. rewrite rmatch_lead.
  destruct (lead_char a) eqn:Ha; [|done].
  unfold chr27. destruct s as [|b s]; [done|].
  cbn [rmatch m_rest strip_prefix].
  destruct (Ascii.eqb_spec ESC b) as [<-|_]; [|done].
  discriminate (Hg s eq_refl).
Qed.

Lemma delete_go_guarded fl t s pre :
  esc_guarded s = true →
  delete_go fl (Seq lead (Seq chr27 t)) 0 pre s = s.
Proof.
  revert pre. induction s as [|a s IH]; intros pre Hg; [done|].
  cbn [delete_go].
  rewrite match_at_unguarded.
  - f_equal. apply IH. destruct s as [|b s]; [done|].
    cbn [esc_guarded] in Hg. by apply andb_prop in Hg as [_ ?].
  - intros s' ->. cbn [esc_guarded] in Hg.
    apply andb_prop in Hg as [Hg _].
    rewrite Ascii.eqb_refl, andb_true_r in Hg.
    by apply negb_true_iff.
Qed.

Lemma code_set_shape : Forall (fun c => ∃ t, c = Seq chr27 t) code_set.
Proof. unfold code_set. repeat constructor; eexists; reflexivity. Qed.

Lemma passes_guarded cs s :
  Forall (fun c => ∃ t, c = Seq chr27 t) cs →
  esc_guarded s = true →
  fold_left (fun output ansi_esc_code =>
               sub_delete (Seq lead ansi_esc_code) output) cs s = s.
Proof.
  intros Hcs Hg. induction Hcs as [|c cs [t ->] _ IH]; [done|].
  cbn [fold_left]. unfold sub_delete at 2.
  by rewrite delete_go_guarded.
Qed.

(** Text in which no lead character stands before an [ESC] passes the
    filter unchanged. *)
Lemma strip_guarded s :
  esc_guarded s = true → _strip_ansi_escape_codes s = s.
Proof. apply passes_guarded, code_set_shape. Qed.

Lemma delete_go_miss fl r pre a s :
  match_at fl r pre (String a s) = None →
  delete_go fl r 0 pre (String a s) = String a (delete_go fl r 0 (String a pre) s).
Proof. intros H. cbn [delete_go]. by rewrite H. Qed.

Lemma esc_code_guarded t :
  esc_guarded t = true →
  esc_guarded (String ESC (String "[" (String "K" t))) = true.
Proof. intros Ht. destruct t as [|b t]; [done|]. cbn [esc_guarded] in *. done. Qed.

(** A pass for a code that does not continue with [[K] leaves
    [c ESC [K t] alone. *)
Lemma pass_miss tail c t :
  lead_char c = true → esc_guarded t = true →
  (∀ pre caps k, rmatch (R:=mobj) no_flags tail
      (MState pre (String "[" (String "K" t)) caps) k = None) →
  sub_delete (Seq lead (Seq chr27 tail))
             (String c (String ESC (String "[" (String "K" t))))
  = String c (String ESC (String "[" (String "K" t))).
Proof.
  intros Hc Ht Htail. unfold sub_delete. rewrite delete_go_miss.
  - f_equal. apply delete_go_guarded. by apply esc_code_guarded.
  - unfold match_at. cbn [rmatch]. rewrite rmatch_lead, Hc.
    unfold chr27. cbn [rmatch m_rest m_pre m_caps strip_prefix].
    rewrite Ascii.eqb_refl. apply Htail.
Qed.

Lemma pass_hit c t :
  lead_char c = true → esc_guarded t = true →
  sub_delete (Seq lead code_erase_start_line)
             (String c (String ESC (String "[" (String "K" t)))) = t.
Proof.
  intros Hc Ht. unfold sub_delete, code_erase_start_line.
  cbn [delete_go]. unfold match_at. cbn [rmatch]. rewrite rmatch_lead, Hc.
  unfold chr27. cbn [rmatch m_rest m_pre m_caps strip_prefix pass String.rev_app].
  rewrite !Ascii.eqb_refl. unfold span_len. cbn [mo_end m_rest String.length].
  replace (S (S (S (S (String.length t)))) - String.length t) with 4 by lia.
  by apply delete_go_guarded.
Qed.

(** C4, as stated, fails: filtering [nested_codes] leaves a dash before
    an erase-line code, which a second run of the filter deletes. *)
Lemma strip_not_idempotent :
  _strip_ansi_escape_codes (_strip_ansi_escape_codes nested_codes)
  ≠ _strip_ansi_escape_codes nested_codes.
Proof. vm_compute. discriminate. Qed.

(** C5 fails on the code: the erase-line code [ESC[K], which the
    docstring lists among the codes that are filtered, is kept when it
    stands after a letter, and when it stands after a dash the dash is
    deleted with it; deleting every catalogued sequence, as the claim has
    it, gives [abcd] and [ab-cd]. *)
Theorem strip_differs_from_catalog_deletion :
  _strip_ansi_escape_codes after_letter = after_letter
  ∧ catalog_deleted after_letter = "abcd"
  ∧ _strip_ansi_escape_codes after_dash = "abcd"
  ∧ catalog_deleted after_dash = "ab-cd".
Proof. repeat split; vm_compute; reflexivity. Qed.

(** Text in which no lead character (dash, backslash, slash, bar or
    whitespace) stands directly before an ESC is returned unchanged,
    whatever escape sequences it holds; and an erase-line code with a lead
    character before it is deleted together with that character. *)
Lemma strip_needs_lead (c : ascii) (t : string) :
  esc_guarded t = true →
  lead_char c = true →
  _strip_ansi_escape_codes t = t
  ∧ _strip_ansi_escape_codes
      (String c (String ESC (String "[" (String "K" t)))) = t.
Proof.
  intros Ht Hc. split; [by apply strip_guarded|].
  unfold _strip_ansi_escape_codes.
  rewrite <- (take_drop 5 code_set), fold_left_app.
  assert (Forall (fun c => ∃ t, c = Seq chr27 t) (drop 5 code_set)) as Hrest
    by apply Forall_drop, code_set_shape.
  set (rest := drop 5 code_set) in *.
  cbn [take code_set fold_left].
  unfold code_position_cursor at 1.
  rewrite pass_miss; [|done..|by intros; cbn; destruct t].
  unfold code_show_cursor. rewrite pass_miss; [|done..].
  unfold code_erase_line. rewrite pass_miss; [|done..].
  unfold code_enable_scroll at 1.
  rewrite pass_miss; [|done..|by intros; cbn; destruct t].
  rewrite pass_hit by done.
  by apply passes_guarded.
Qed.

Lemma strip_needs_lead_witness :
  esc_guarded "cd" = true ∧ lead_char "-" = true
  ∧ _strip_ansi_escape_codes "cd" = "cd"
  ∧ _strip_ansi_escape_codes
      (String "-" (String ESC (String "[" (String "K" "cd")))) = "cd".
Proof.
  split; [reflexivity|]. split; [reflexivity|].
  apply (strip_needs_lead "-" "cd"); reflexivity.
Defined.

End EscapeFilterFacts.

(** ** The runs of the escape filter *)

Module EscapeFilterRuns.
Import Re EscapeFilter MatcherFacts EscapeFilterFacts.

Lemma rep_ends_zero fl cl s : 0 ∈ rep_ends fl cl 0 s.
Proof.
  destruct s as [|c s]; cbn [rep_ends]; [by left|].
  destruct (class_test fl cl c); [|by left].
  apply elem_of_app. right. by left.
Qed.

Lemma rep_ends_stop fl cl least s n :
  n ∈ match least with O => [0] | S _ => [] end → n ∈ rep_ends fl cl least s.
Proof.
  destruct least; intros H; [|by apply elem_of_nil in H].
  apply list_elem_of_singleton in H as ->. apply rep_ends_zero.
Qed.

(** A choice depends on the characters it takes, and on them only. *)
Lemma rep_ends_agree fl cl least s s' n :
  n ∈ rep_ends fl cl least s → str_take n s = str_take n s' →
  n ∈ rep_ends fl cl least s'.
Proof.
  revert least s' n. induction s as [|c s IH]; intros least s' n Hn Heq.
  - cbn [rep_ends] in Hn. by apply rep_ends_stop.
  - cbn [rep_ends] in Hn.
    destruct (class_test fl cl c) eqn:Hc; [|by apply rep_ends_stop].
    apply elem_of_app in Hn as [Hn|Hn]; [|by apply rep_ends_stop].
    apply list_elem_of_fmap in Hn as (m & -> & Hm).
    cbn [str_take] in Heq. destruct s' as [|c' s']; [done|].
    cbn [str_take] in Heq. simplify_eq.
    cbn [rep_ends]. rewrite Hc. apply elem_of_app. left.
    apply list_elem_of_fmap. exists m. split; [done|]. by eapply IH.
Qed.

Lemma str_take_take_eq n m s s' :
  n ≤ m → str_take m s = str_take m s' → str_take n s = str_take n s'.
Proof.
  revert m s s'. induction n as [|n IH]; intros m s s' Hle Heq; [by destruct s, s'|].
  destruct m as [|m]; [lia|].
  destruct s as [|c s], s' as [|c' s']; try done.
  cbn [str_take] in *. simplify_eq. f_equal. apply (IH m); [lia|done].
Qed.

Lemma str_take_drop_eq n m s s' :
  str_take (n + m) s = str_take (n + m) s' →
  str_take m (str_drop n s) = str_take m (str_drop n s').
Proof.
  revert s s'. induction n as [|n IH]; intros s s' Heq; [done|].
  destruct s as [|c s], s' as [|c' s']; cbn [Nat.add str_take str_drop] in *.
  - done.
  - done.
  - done.
  - simplify_eq. by apply IH.
Qed.

Lemma ends_agree fl r s s' caps n c :
  (n, c) ∈ ends fl r s caps → str_take n s = str_take n s' →
  (n, c) ∈ ends fl r s' caps.
Proof.
  revert s s' caps n c.
  induction r as [l|cl|cl least|r1 IH1 r2 IH2|r1 IH1 r2 IH2|g r1 IH1| | | | |];
    intros s s' caps n c Hn Heq; cbn [ends] in *; try (by apply elem_of_nil in Hn).
  - destruct (strip_prefix l s) as [s0|] eqn:Hl; [|by apply elem_of_nil in Hn].
    apply list_elem_of_singleton in Hn. simplify_eq.
    assert (is_Some (strip_prefix l s')) as [s1 ->]; [|by left].
    apply strip_prefix_take. rewrite <- Heq. apply strip_prefix_take. by eexists.
  - destruct s as [|a s]; [by apply elem_of_nil in Hn|].
    destruct (class_test fl cl a) eqn:Ha; [|by apply elem_of_nil in Hn].
    apply list_elem_of_singleton in Hn. simplify_eq.
    destruct s' as [|a' s']; [done|]. cbn [str_take] in Heq. simplify_eq.
    rewrite Ha. by left.
  - apply list_elem_of_fmap in Hn as (m & ? & Hm). simplify_eq.
    apply list_elem_of_fmap. exists m. split; [done|]. by eapply rep_ends_agree.
  - apply list_elem_of_bind in Hn as ([n1 c1] & Hn & H1).
    apply list_elem_of_fmap in Hn as ([n2 c2] & ? & H2). simplify_eq. cbn [fst snd] in *.
    apply list_elem_of_bind. exists (n1, c1). split.
    + apply list_elem_of_fmap. exists (n2, c2). split; [done|]. cbn [fst snd].
      eapply IH2; [exact H2|]. by apply str_take_drop_eq.
    + eapply IH1; [exact H1|]. eapply str_take_take_eq; [|exact Heq]. lia.
  - apply elem_of_app in Hn as [Hn|Hn]; apply elem_of_app;
      [left; by eapply IH1|right; by eapply IH2].
  - apply list_elem_of_fmap in Hn as ([n1 c1] & ? & H1). simplify_eq. cbn [fst snd] in *.
    apply list_elem_of_fmap. exists (n1, c1). split; [cbn; by rewrite Heq|].
    by eapply IH1.
Qed.

(** The number of characters a choice takes does not depend on the
    groups captured before. *)
Lemma ends_caps fl r s caps caps' n c :
  (n, c) ∈ ends fl r s caps → ∃ c', (n, c') ∈ ends fl r s caps'.
Proof.
  revert s caps caps' n c.
  induction r as [l|cl|cl least|r1 IH1 r2 IH2|r1 IH1 r2 IH2|g r1 IH1| | | | |];
    intros s caps caps' n c Hn; cbn [ends] in *; try (by apply elem_of_nil in Hn).
  - destruct (strip_prefix l s); [|by apply elem_of_nil in Hn].
    apply list_elem_of_singleton in Hn. simplify_eq. eexists. by left.
  - destruct s as [|a s]; [by apply elem_of_nil in Hn|].
    destruct (class_test fl cl a); [|by apply elem_of_nil in Hn].
    apply list_elem_of_singleton in Hn. simplify_eq. eexists. by left.
  - apply list_elem_of_fmap in Hn as (m & ? & Hm). simplify_eq.
    eexists. apply list_elem_of_fmap. by exists m.
  - apply list_elem_of_bind in Hn as ([n1 c1] & Hn & H1).
    apply list_elem_of_fmap in Hn as ([n2 c2] & ? & H2). simplify_eq. cbn [fst snd] in *.
    destruct (IH1 _ _ caps' _ _ H1) as [c1' H1'].
    destruct (IH2 _ _ c1' _ _ H2) as [c2' H2'].
    exists c2'. apply list_elem_of_bind. exists (n1, c1'). split; [|done].
    apply list_elem_of_fmap. by exists (n2, c2').
  - apply elem_of_app in Hn as [Hn|Hn].
    + destruct (IH1 _ _ caps' _ _ Hn) as [c' H']. exists c'. apply elem_of_app. by left.
    + destruct (IH2 _ _ caps' _ _ Hn) as [c' H']. exists c'. apply elem_of_app. by right.
  - apply list_elem_of_fmap in Hn as ([n1 c1] & ? & H1). simplify_eq. cbn [fst snd] in *.
    destruct (IH1 _ _ caps' _ _ H1) as [c1' H1'].
    eexists. apply list_elem_of_fmap. by exists (n1, c1').
Qed.

(** *** Body characters, letters and lead characters *)

Lemma body_not_final c : body_char c = true → final_char c = false.
Proof. destruct c as [[] [] [] [] [] [] [] []]; vm_compute; congruence. Qed.

Lemma body_not_lead c : body_char c = true → lead_char c = false.
Proof. destruct c as [[] [] [] [] [] [] [] []]; vm_compute; congruence. Qed.

Lemma final_not_lead c : final_char c = true → lead_char c = false.
Proof. destruct c as [[] [] [] [] [] [] [] []]; vm_compute; congruence. Qed.

Lemma esc_not_lead : lead_char ESC = false.
Proof. reflexivity. Qed.

Lemma shape_app b t :
  str_all body_char b = true → shape t = true → shape (b +:+ t) = true.
Proof.
  induction b as [|c b IH]; intros Hb Ht; [done|].
  cbn [str_all] in Hb. apply andb_prop in Hb as [Hc Hb].
  rewrite app_cons. cbn [shape].
  destruct (b +:+ t) eqn:Hbt.
  - destruct b; [|done]. rewrite app_nil_l in Hbt. by subst.
  - rewrite Hc. cbn [andb]. by apply IH.
Qed.

Lemma shape_nolead x :
  shape x = true → str_all (fun c => negb (lead_char c)) x = true.
Proof.
  induction x as [|c x IH]; [done|]. cbn [shape str_all].
  destruct x as [|d x].
  - intros Hc. by rewrite (final_not_lead c Hc).
  - intros H. apply andb_prop in H as [Hc Hx].
    rewrite (body_not_lead c Hc). cbn. by apply IH.
Qed.

(** Only one prefix of a text has the shape. *)
Lemma shape_unique s n m :
  n ≤ String.length s → m ≤ String.length s →
  shape (str_take n s) = true → shape (str_take m s) = true → n = m.
Proof.
  revert n m. induction s as [|c s IH]; intros n m Hn Hm Sn Sm.
  - by destruct n, m.
  - destruct n as [|n]; [done|]. destruct m as [|m]; [done|].
    cbn [str_take shape String.length] in *.
    destruct n as [|n], m as [|m]; [done| | |].
    + destruct s as [|d s]; [cbn in Hm; lia|].
      cbn [str_take] in *. apply andb_prop in Sm as [Sm _].
      by rewrite (body_not_final c Sm) in Sn.
    + destruct s as [|d s]; [cbn in Hn; lia|].
      cbn [str_take] in *. apply andb_prop in Sn as [Sn _].
      by rewrite (body_not_final c Sn) in Sm.
    + destruct s as [|d s]; [cbn in Hn; lia|].
      cbn [str_take] in Sn, Sm.
      apply andb_prop in Sn as [_ Sn]. apply andb_prop in Sm as [_ Sm].
      f_equal. apply IH; [lia|lia|done|done].
Qed.

Lemma class_ok_test fl cl a :
  class_ok cl = true → class_test fl cl a = true → body_char a = true.
Proof.
  destruct cl as [|items]; [done|]. cbn [class_ok class_test].
  induction items as [|i items IH]; [done|].
  cbn [forallb existsb]. intros Hok Ht.
  apply andb_prop in Hok as [Hi Hok]. apply orb_prop in Ht as [Ht|Ht]; [|by apply IH].
  clear IH Hok. destruct i as [b|lo hi| |]; cbn [item_ok item_test] in Hi, Ht; try done.
  - apply Ascii.eqb_eq in Ht. by subst.
  - unfold body_char, py_isdigit, in_range in *.
    apply andb_prop in Hi as [H1 H2]. apply andb_prop in Ht as [H3 H4].
    apply N.leb_le in H1, H2, H3, H4.
    assert ((code "0" <=? code a)%N = true) as -> by (apply N.leb_le; lia).
    assert ((code a <=? code "9")%N = true) as -> by (apply N.leb_le; lia).
    done.
  - unfold body_char. by rewrite Ht.
Qed.

Lemma rep_ends_body fl cl least s n :
  class_ok cl = true → n ∈ rep_ends fl cl least s →
  str_all body_char (str_take n s) = true.
Proof.
  intros Hok. revert least n. induction s as [|c s IH]; intros least n Hn.
  - by destruct n.
  - cbn [rep_ends] in Hn.
    assert (n ∈ match least with O => [0] | S _ => [] end →
            str_all body_char (str_take n (String c s)) = true) as Hstop.
    { destruct least; intros H; [|by apply elem_of_nil in H].
      by apply list_elem_of_singleton in H as ->. }
    destruct (class_test fl cl c) eqn:Hc; [|by apply Hstop].
    apply elem_of_app in Hn as [Hn|Hn]; [|by apply Hstop].
    apply list_elem_of_fmap in Hn as (m & -> & Hm).
    cbn [str_take str_all]. rewrite (class_ok_test fl cl c Hok Hc). cbn.
    by eapply IH.
Qed.

Lemma bodyish_ends fl r s caps n c :
  bodyish r = true → (n, c) ∈ ends fl r s caps →
  str_all body_char (str_take n s) = true.
Proof.
  revert s caps n c.
  induction r as [l|cl|cl least|r1 IH1 r2 IH2|r1 IH1 r2 IH2|g r1 IH1| | | | |];
    intros s caps n c Hb Hn; cbn [ends bodyish] in *; try done.
  - destruct (strip_prefix l s) as [s0|] eqn:Hl; [|by apply elem_of_nil in Hn].
    apply list_elem_of_singleton in Hn. simplify_eq.
    assert (str_take (String.length l) s = l) as -> by (apply strip_prefix_take; by eexists).
    done.
  - destruct s as [|a s]; [by apply elem_of_nil in Hn|].
    destruct (class_test fl cl a) eqn:Ha; [|by apply elem_of_nil in Hn].
    apply list_elem_of_singleton in Hn. simplify_eq.
    cbn [str_take str_all]. by rewrite (class_ok_test fl cl a Hb Ha).
  - apply list_elem_of_fmap in Hn as (m & ? & Hm). simplify_eq.
    by eapply rep_ends_body.
  - apply andb_prop in Hb as [Hb1 Hb2].
    apply list_elem_of_bind in Hn as ([n1 c1] & Hn & H1).
    apply list_elem_of_fmap in Hn as ([n2 c2] & ? & H2). simplify_eq. cbn [fst snd] in *.
    rewrite str_take_add, str_all_app.
    by rewrite (IH1 _ _ _ _ Hb1 H1), (IH2 _ _ _ _ Hb2 H2).
  - apply andb_prop in Hb as [Hb1 Hb2].
    apply elem_of_app in Hn as [Hn|Hn]; [by eapply IH1|by eapply IH2].
  - apply list_elem_of_fmap in Hn as ([n1 c1] & ? & H1). simplify_eq. cbn [fst snd] in *.
    by eapply IH1.
Qed.

Lemma closing_ends fl r s caps n c :
  closing r = true → (n, c) ∈ ends fl r s caps →
  shape (str_take n s) = true.
Proof.
  revert s caps n c.
  induction r as [l|cl|cl least|r1 IH1 r2 IH2|r1 IH1 r2 IH2|g r1 IH1| | | | |];
    intros s caps n c Hb Hn; cbn [ends closing] in *; try done.
  - destruct (strip_prefix l s) as [s0|] eqn:Hl; [|by apply elem_of_nil in Hn].
    apply list_elem_of_singleton in Hn. simplify_eq.
    assert (str_take (String.length l) s = l) as -> by (apply strip_prefix_take; by eexists).
    done.
  - apply andb_prop in Hb as [Hb1 Hb2].
    apply list_elem_of_bind in Hn as ([n1 c1] & Hn & H1).
    apply list_elem_of_fmap in Hn as ([n2 c2] & ? & H2). simplify_eq. cbn [fst snd] in *.
    rewrite str_take_add. apply shape_app; [by eapply bodyish_ends|by eapply IH2].
  - apply andb_prop in Hb as [Hb1 Hb2].
    apply elem_of_app in Hn as [Hn|Hn]; [by eapply IH1|by eapply IH2].
  - apply list_elem_of_fmap in Hn as ([n1 c1] & ? & H1). simplify_eq. cbn [fst snd] in *.
    by eapply IH1.
Qed.

(** Every code of the catalog is [ESC] followed by a pattern that takes
    body characters and then one letter. *)
Lemma code_set_closing :
  Forall (fun r => ∃ t, r = Seq chr27 t ∧ plain t = true ∧ closing t = true) code_set.
Proof.
  unfold code_set.
  repeat (apply Forall_cons; split;
            [eexists; split; [reflexivity|split; reflexivity]|]).
  by apply Forall_nil.
Qed.

Lemma first_some_total {A R} (k : A → R) (l : list A) :
  first_some (fun x => Some (k x)) l = k <$> head l.
Proof. by destruct l. Qed.

(** A substitution of the filter matches at a position exactly when a
    lead character stands there, [ESC] behind it, and the code's pattern
    has a choice on what follows; the match takes the two characters and
    the first choice. *)
Lemma match_at_code t pre s m :
  plain t = true →
  match_at no_flags (Seq lead (Seq chr27 t)) pre s = Some m →
  ∃ a u n c caps,
    s = String a (String ESC u) ∧ lead_char a = true
    ∧ (n, c) ∈ ends no_flags t u caps
    ∧ span_len s m = S (S n).
Proof.
  intros Hplain. unfold match_at. cbn [rmatch].
  destruct s as [|a s]; [by rewrite rmatch_lead_nil|].
  rewrite rmatch_lead. destruct (lead_char a) eqn:Ha; [|done].
  unfold chr27. cbn [rmatch m_rest m_pre m_caps].
  destruct s as [|e u]; [done|]. cbn [strip_prefix].
  destruct (Ascii.eqb_spec ESC e) as [<-|]; [|done].
  rewrite (rmatch_ends _ _ Hplain), first_some_total.
  destruct (ends no_flags t u _) as [|[n c] l] eqn:Hends; [done|].
  cbn [head fmap option_fmap option_map fst snd]. intros [= <-].
  exists a, u, n, c. eexists. split; [done|]. split; [done|].
  split; [rewrite Hends; by left|].
  assert (n ≤ String.length u) as Hn.
  { eapply ends_bound. rewrite Hends. by left. }
  unfold span_len. cbn [mo_end m_rest String.length].
  rewrite str_drop_length. lia.
Qed.

Lemma match_at_code_some t pre a u n c caps :
  plain t = true → lead_char a = true →
  (n, c) ∈ ends no_flags t u caps →
  is_Some (match_at no_flags (Seq lead (Seq chr27 t)) pre (String a (String ESC u))).
Proof.
  intros Hplain Ha Hn. unfold match_at. cbn [rmatch].
  rewrite rmatch_lead, Ha.
  unfold chr27. cbn [rmatch m_rest m_pre m_caps strip_prefix].
  rewrite Ascii.eqb_refl.
  rewrite (rmatch_ends _ _ Hplain), first_some_total.
  match goal with
  | |- context [ends no_flags t u ?caps'] =>
      destruct (ends_caps _ _ _ _ caps' _ _ Hn) as [c' Hn'];
      destruct (ends no_flags t u caps') as [|x l] eqn:Hends
  end.
  - by apply elem_of_nil in Hn'.
  - by eexists.
Qed.

(** A code matches a text, all of it: the text is [ESC] and then what
    the rest of the pattern takes to the end. *)
Lemma matches_all_ends t w :
  plain t = true →
  matches_all (Seq chr27 t) w = true →
  ∃ w' c, w = String ESC w' ∧ (String.length w', c) ∈ ends no_flags t w' [].
Proof.
  intros Hplain. unfold matches_all, match_at, chr27.
  cbn [rmatch m_rest m_pre m_caps].
  destruct w as [|e w']; [done|]. cbn [strip_prefix].
  destruct (Ascii.eqb_spec ESC e) as [<-|]; [|done].
  rewrite (rmatch_ends _ _ Hplain), first_some_total.
  destruct (ends no_flags t w' []) as [|[n c] l] eqn:Hends; [done|].
  cbn [head fmap option_fmap option_map fst snd mo_end m_rest].
  intros Hrest. apply String.eqb_eq in Hrest.
  assert (n ≤ String.length w') as Hn.
  { eapply ends_bound. rewrite Hends. by left. }
  assert (String.length (str_drop n w') = 0) as Hlen by (by rewrite Hrest).
  rewrite str_drop_length in Hlen.
  exists w', c. split; [done|]. replace (String.length w') with n by lia.
  rewrite Hends. by left.
Qed.

Lemma ends_matches_all t w' n c caps :
  plain t = true → closing t = true → shape w' = true →
  (n, c) ∈ ends no_flags t w' caps →
  matches_all (Seq chr27 t) (String ESC w') = true.
Proof.
  intros Hplain Hclosing Hshape Hn. unfold matches_all, match_at, chr27.
  cbn [rmatch m_rest m_pre m_caps strip_prefix]. rewrite Ascii.eqb_refl.
  rewrite (rmatch_ends _ _ Hplain), first_some_total.
  destruct (ends_caps _ _ _ _ [] _ _ Hn) as [c' Hn'].
  assert (∃ n0 c0 l, ends no_flags t w' [] = (n0, c0) :: l) as (n0 & c0 & l & Hends).
  { destruct (ends no_flags t w' []) as [|[n0 c0] l]; [by apply elem_of_nil in Hn'|].
    by eexists _, _, _. }
  assert ((n0, c0) ∈ ends no_flags t w' []) as H0 by (rewrite Hends; by left).
  rewrite Hends.
  cbn [head fmap option_fmap option_map fst snd mo_end m_rest].
  assert (n0 = String.length w') as ->.
  { apply (shape_unique w').
    - by eapply ends_bound.
    - done.
    - by eapply closing_ends.
    - by rewrite str_take_all. }
  rewrite <- (app_empty_r w') at 2. by rewrite str_drop_app.
Qed.

Lemma catalogued_shape w :
  catalogued w = true → ∃ w', w = String ESC w' ∧ shape w' = true.
Proof.
  unfold catalogued. intros H. apply existsb_exists in H as (r & Hr & Hall).
  apply list_elem_of_In in Hr.
  destruct (proj1 (Forall_forall _ _) code_set_closing r Hr) as (t & -> & Hplain & Hclosing).
  apply matches_all_ends in Hall as (w' & c & -> & Hn); [|done].
  exists w'. split; [done|].
  rewrite <- (str_take_all (String.length w') w') by done.
  by eapply closing_ends.
Qed.

(** A pass over characters it is told to pass over, and over characters
    that are no lead characters. *)
Lemma delete_go_skip fl r x pre y :
  delete_go fl r (String.length x) pre (x +:+ y)
  = delete_go fl r 0 (String.rev_app x pre) y.
Proof.
  revert pre. induction x as [|a x IH]; intros pre.
  - rewrite app_nil_l. by destruct y.
  - rewrite app_cons. cbn [String.length delete_go String.rev_app]. apply IH.
Qed.

Lemma delete_go_inert t x pre y :
  str_all (fun c => negb (lead_char c)) x = true →
  delete_go no_flags (Seq lead (Seq chr27 t)) 0 pre (x +:+ y)
  = x +:+ delete_go no_flags (Seq lead (Seq chr27 t)) 0 (String.rev_app x pre) y.
Proof.
  revert pre. induction x as [|a x IH]; intros pre Hx; [done|].
  cbn [str_all] in Hx. apply andb_prop in Hx as [Ha Hx].
  rewrite !app_cons, delete_go_miss.
  - cbn [String.rev_app]. by rewrite IH.
  - apply match_at_unguarded. intros _ _. by apply negb_true_iff.
Qed.

(** As long as no lead character comes, the text with the occurrences
    and the text without them are the same. *)
Lemma nolead_prefix ps :
  forallb occurrence ps = true →
  ∀ q n,
    str_all (fun c => negb (lead_char c)) (str_take n (q +:+ render ps)) = true →
    str_take n (q +:+ render ps) = str_take n (q +:+ residue ps).
Proof.
  induction ps as [|p ps IH]; intros Hps q n Hn; [done|].
  cbn [forallb] in Hps. apply andb_prop in Hps as [Hp Hps].
  revert n Hn. induction q as [|b q IHq]; intros n Hn.
  - rewrite !app_nil_l in *. destruct p as [t|c w]; cbn [render residue foldr] in *.
    + by apply IH.
    + destruct n as [|n]; [by destruct (residue ps)|].
      cbn [str_take str_all] in Hn. cbn [occurrence] in Hp.
      apply andb_prop in Hp as [Hc _]. by rewrite Hc in Hn.
  - rewrite !app_cons in *. destruct n as [|n]; [done|].
    cbn [str_take str_all] in *. apply andb_prop in Hn as [_ Hn].
    f_equal. by apply IHq.
Qed.

Section Pass.
Variable t : regex.
Hypothesis t_plain : plain t = true.
Hypothesis t_closing : closing t = true.

(** Inside a piece of text the pass finds what it would find in the text
    without the occurrences. *)
Lemma match_at_transfer ps a x pre pre' :
  forallb occurrence ps = true →
  match_at no_flags (Seq lead (Seq chr27 t)) pre' (String a (x +:+ residue ps)) = None →
  match_at no_flags (Seq lead (Seq chr27 t)) pre (String a (x +:+ render ps)) = None.
Proof.
  intros Hps Hres.
  destruct (match_at no_flags _ pre (String a (x +:+ render ps))) as [m|] eqn:Hm; [|done].
  exfalso.
  apply match_at_code in Hm as (a0 & u & n & c & caps & Heq & Ha & Hn & _); [|done].
  injection Heq as <- Hu.
  pose proof (closing_ends _ _ _ _ _ _ t_closing Hn) as Hshape.
  assert (str_take (S n) (x +:+ render ps) = str_take (S n) (x +:+ residue ps)) as Htake.
  { apply nolead_prefix; [done|]. rewrite Hu. cbn [str_take str_all].
    rewrite esc_not_lead. cbn. by apply shape_nolead. }
  rewrite Hu in Htake. cbn [str_take] in Htake.
  destruct (x +:+ residue ps) as [|e v]; [done|].
  cbn [str_take] in Htake. injection Htake as <- Htake.
  assert (is_Some (match_at no_flags (Seq lead (Seq chr27 t)) pre'
                     (String a (String ESC v)))) as [m' Hm'].
  { eapply match_at_code_some; [done|done|]. by eapply ends_agree. }
  by rewrite Hm' in Hres.
Qed.

Lemma search_from_none fl r pre a s :
  search_from fl r pre (String a s) = None →
  match_at fl r pre (String a s) = None ∧ search_from fl r (String a pre) s = None.
Proof. cbn [search_from]. by destruct (match_at fl r pre (String a s)). Qed.

(** One pass of the filter takes out the occurrences of its code and
    leaves the rest. *)
Lemma pass_parts ps :
  forallb occurrence ps = true →
  ∀ pre pre',
    search_from no_flags (Seq lead (Seq chr27 t)) pre' (residue ps) = None →
    delete_go no_flags (Seq lead (Seq chr27 t)) 0 pre (render ps)
    = render (filter (fun p => hit (Seq chr27 t) p = false) ps).
Proof.
  induction ps as [|p ps IH]; intros Hps pre pre' Hres; [done|].
  pose proof Hps as Hall.
  cbn [forallb] in Hps. apply andb_prop in Hps as [Hp Hps].
  destruct p as [x|c w].
  - rewrite filter_cons_True by done. cbn [render residue foldr] in *.
    fold (render ps) (residue ps) in *.
    fold (render (filter (fun p => hit (Seq chr27 t) p = false) ps)).
    revert pre pre' Hres. induction x as [|a x IHx]; intros pre pre' Hres.
    + rewrite !app_nil_l in *. by eapply IH.
    + rewrite !app_cons in *. apply search_from_none in Hres as [Hhere Hres].
      rewrite delete_go_miss by (by eapply match_at_transfer).
      f_equal. by eapply IHx.
  - cbn [occurrence] in Hp. apply andb_prop in Hp as [Hc Hw].
    apply catalogued_shape in Hw as (w' & -> & Hshape).
    cbn [render residue foldr] in *. fold (render ps) (residue ps) in *.
    destruct (hit (Seq chr27 t) (Code c (String ESC w'))) eqn:Hhit;
      pose proof Hhit as Hm0; cbn [hit] in Hm0.
    + rewrite filter_cons_False by (by rewrite Hhit).
      apply matches_all_ends in Hm0 as (w0 & c0 & [= <-] & Hn); [|done].
      assert (is_Some (match_at no_flags (Seq lead (Seq chr27 t)) pre
                         (String c (String ESC (w' +:+ render ps))))) as [m Hm].
      { eapply match_at_code_some; [done|done|].
        eapply ends_agree; [exact Hn|]. by rewrite str_take_app. }
      pose proof Hm as Hm'.
      apply match_at_code in Hm' as (a0 & u & n & c1 & caps & Heq & _ & Hn1 & Hspan);
        [|done].
      injection Heq as <- <-.
      assert (n = String.length w') as ->.
      { apply (shape_unique (w' +:+ render ps)).
        - by eapply ends_bound.
        - rewrite str_length_app. lia.
        - by eapply closing_ends.
        - by rewrite str_take_app, str_take_all. }
      rewrite app_cons. cbn [delete_go]. rewrite Hm, Hspan.
      rewrite delete_go_skip. by eapply IH.
    + rewrite filter_cons_True by done.
      cbn [render foldr]. fold (render (filter (fun p => hit (Seq chr27 t) p = false) ps)).
      assert (match_at no_flags (Seq lead (Seq chr27 t)) pre
                (String c (String ESC w' +:+ render ps)) = None) as Hm.
      { destruct (match_at _ _ _ _) as [m|] eqn:Hm; [|done]. exfalso.
        rewrite app_cons in Hm.
        apply match_at_code in Hm as (a0 & u & n & c1 & caps & Heq & _ & Hn1 & _);
          [|done].
        injection Heq as <- <-.
        assert (n = String.length w') as ->.
        { apply (shape_unique (w' +:+ render ps)).
          - by eapply ends_bound.
          - rewrite str_length_app. lia.
          - by eapply closing_ends.
          - by rewrite str_take_app, str_take_all. }
        assert (matches_all (Seq chr27 t) (String ESC w') = true) as Hyes.
        { eapply ends_matches_all; [done..|].
          eapply ends_agree; [exact Hn1|]. by rewrite str_take_app. }
        by rewrite Hyes in Hm0. }
      rewrite delete_go_miss by done. f_equal.
      rewrite delete_go_inert.
      * f_equal. by eapply IH.
      * cbn [str_all]. rewrite esc_not_lead. cbn. by apply shape_nolead.
Qed.

End Pass.

Lemma residue_filter r ps :
  residue (filter (fun p => hit r p = false) ps) = residue ps.
Proof.
  induction ps as [|p ps IH]; [done|].
  destruct p as [x|c w].
  - rewrite filter_cons_True by done. cbn [residue foldr].
    fold (residue ps) (residue (filter (fun p => hit r p = false) ps)). by rewrite IH.
  - destruct (hit r (Code c w)) eqn:Hhit.
    + rewrite filter_cons_False by (by rewrite Hhit). done.
    + rewrite filter_cons_True by done. done.
Qed.

Lemma occurrence_filter (P : part → Prop) `{∀ p, Decision (P p)} ps :
  forallb occurrence ps = true → forallb occurrence (filter P ps) = true.
Proof.
  induction ps as [|p ps IH]; [done|]. cbn [forallb].
  intros Hps. apply andb_prop in Hps as [Hp Hps].
  destruct (decide (P p)).
  - rewrite filter_cons_True by done. cbn [forallb]. by rewrite Hp, IH.
  - rewrite filter_cons_False by done. by apply IH.
Qed.

Lemma render_texts ps :
  Forall (fun p => ∃ x, p = Text x) ps → render ps = residue ps.
Proof.
  induction 1 as [|p ps [x ->] _ IH]; [done|].
  cbn [render residue foldr]. fold (render ps) (residue ps). by rewrite IH.
Qed.

(** The passes one after the other: what is left are pieces of the
    input that no pass takes out, and the text without the occurrences is
    the same. *)
Lemma passes_parts cs :
  Forall (fun r => ∃ t, r = Seq chr27 t ∧ plain t = true ∧ closing t = true) cs →
  ∀ ps,
    forallb occurrence ps = true →
    Forall (fun r => search no_flags (Seq lead r) (residue ps) = None) cs →
    ∃ ps',
      fold_left (fun output ansi_esc_code =>
                   sub_delete (Seq lead ansi_esc_code) output) cs (render ps)
      = render ps'
      ∧ residue ps' = residue ps
      ∧ Forall (fun p => p ∈ ps ∧ Forall (fun r => hit r p = false) cs) ps'.
Proof.
  induction 1 as [|r cs (t & -> & Hplain & Hclosing) _ IH]; intros ps Hps Hfree.
  - exists ps. split; [done|]. split; [done|].
    apply Forall_forall. intros p Hp. split; [done|constructor].
  - apply Forall_cons in Hfree as [Hr Hfree]. cbn [fold_left].
    unfold sub_delete at 2. unfold search in Hr.
    rewrite (pass_parts t Hplain Hclosing ps Hps "" "" Hr).
    destruct (IH (filter (fun p => hit (Seq chr27 t) p = false) ps)) as (ps' & Hfold & Hres & Hall).
    + by apply occurrence_filter.
    + by rewrite residue_filter.
    + exists ps'. split; [done|]. split; [by rewrite Hres, residue_filter|].
      eapply Forall_impl; [exact Hall|]. intros p [Hp Hhits].
      apply list_elem_of_filter in Hp as [Hhit Hp].
      split; [done|]. by constructor.
Qed.

Lemma occurrence_free_spec t :
  occurrence_free t = true ↔
  Forall (fun r => search no_flags (Seq lead r) t = None) code_set.
Proof.
  unfold occurrence_free. rewrite forallb_forall, Forall_forall.
  split; intros H r Hr.
  - apply list_elem_of_In in Hr. specialize (H r Hr). by destruct (search _ _ _).
  - apply list_elem_of_In in Hr. by rewrite (H r Hr).
Qed.

(** The filter takes out exactly the occurrences put into a text that
    holds none. *)
Lemma strip_parts ps :
  forallb occurrence ps = true → occurrence_free (residue ps) = true →
  _strip_ansi_escape_codes (render ps) = residue ps.
Proof.
  intros Hps Hfree. apply occurrence_free_spec in Hfree.
  destruct (passes_parts code_set code_set_closing ps Hps Hfree)
    as (ps' & Hfold & Hres & Hall).
  unfold _strip_ansi_escape_codes. rewrite Hfold, <- Hres.
  apply render_texts. eapply Forall_impl; [exact Hall|].
  intros [x|c w] [Hp Hhits]; [by eexists|]. exfalso.
  assert (occurrence (Code c w) = true) as Hocc.
  { apply (proj1 (forallb_forall _ _) Hps). by apply list_elem_of_In. }
  cbn [occurrence] in Hocc. apply andb_prop in Hocc as [_ Hcat].
  unfold catalogued in Hcat. apply existsb_exists in Hcat as (r & Hr & Hyes).
  apply list_elem_of_In in Hr.
  pose proof (proj1 (Forall_forall _ _) Hhits r Hr) as Hno. cbn [hit] in Hno.
  by rewrite Hyes in Hno.
Qed.

(** *** Texts the filter leaves alone *)

Lemma delete_go_quiet fl r pre s :
  search_from fl r pre s = None → delete_go fl r 0 pre s = s.
Proof.
  revert pre. induction s as [|a s IH]; intros pre Hs; [done|].
  apply search_from_none in Hs as [Hhere Hs].
  rewrite delete_go_miss by done. f_equal. by apply IH.
Qed.

Lemma delete_go_length fl r skip pre s :
  String.length (delete_go fl r skip pre s) ≤ String.length s.
Proof.
  revert skip pre. induction s as [|a s IH]; intros skip pre; [done|].
  cbn [delete_go String.length]. destruct skip as [|n].
  - destruct (match_at fl r pre (String a s)) as [m|].
    + destruct (span_len (String a s) m).
      * cbn [String.length]. specialize (IH 0 (String a pre)). lia.
      * specialize (IH n (String a pre)). lia.
    + cbn [String.length]. specialize (IH 0 (String a pre)). lia.
  - specialize (IH n (String a pre)). lia.
Qed.

(** A pass that finds a match gives a shorter text. *)
Lemma delete_go_shorter t pre s :
  plain t = true →
  search_from no_flags (Seq lead (Seq chr27 t)) pre s ≠ None →
  String.length (delete_go no_flags (Seq lead (Seq chr27 t)) 0 pre s) < String.length s.
Proof.
  intros Hplain. revert pre. induction s as [|a s IH]; intros pre Hs.
  - exfalso. apply Hs. cbn [search_from]. unfold match_at. cbn [rmatch].
    by rewrite rmatch_lead_nil.
  - cbn [search_from] in Hs. cbn [delete_go].
    destruct (match_at no_flags _ pre (String a s)) as [m|] eqn:Hm.
    + apply match_at_code in Hm as (_ & _ & n & _ & _ & _ & _ & _ & ->); [|done].
      pose proof (delete_go_length no_flags (Seq lead (Seq chr27 t)) (S n)
                    (String a pre) s).
      cbn [String.length]. lia.
    + cbn [String.length]. specialize (IH (String a pre) Hs). lia.
Qed.

Lemma passes_length cs s :
  String.length (fold_left (fun output ansi_esc_code =>
                              sub_delete (Seq lead ansi_esc_code) output) cs s)
  ≤ String.length s.
Proof.
  revert s. induction cs as [|r cs IH]; intros s; [done|].
  cbn [fold_left]. etrans; [apply IH|]. apply delete_go_length.
Qed.

(** The filter leaves a text as it is exactly when none of its
    substitutions matches in it. *)
Lemma passes_fixed cs s :
  Forall (fun r => ∃ t, r = Seq chr27 t ∧ plain t = true ∧ closing t = true) cs →
  fold_left (fun output ansi_esc_code =>
               sub_delete (Seq lead ansi_esc_code) output) cs s = s
  ↔ Forall (fun r => search no_flags (Seq lead r) s = None) cs.
Proof.
  induction 1 as [|r cs (t & -> & Hplain & Hclosing) _ IH]; [by split|].
  cbn [fold_left]. rewrite Forall_cons.
  destruct (search no_flags (Seq lead (Seq chr27 t)) s) as [m|] eqn:Hs.
  - split; [|by intros [? _]]. intros Heq. exfalso.
    pose proof (passes_length cs (sub_delete (Seq lead (Seq chr27 t)) s)) as Hle.
    rewrite Heq in Hle.
    pose proof (delete_go_shorter t "" s Hplain) as Hlt.
    unfold search in Hs. rewrite Hs in Hlt. unfold sub_delete in Hle.
    specialize (Hlt ltac:(done)). lia.
  - unfold sub_delete at 2. unfold search in Hs. rewrite (delete_go_quiet _ _ _ _ Hs).
    rewrite IH. split; [by intros ?|by intros [_ ?]].
Qed.

Lemma strip_fixed s :
  _strip_ansi_escape_codes s = s ↔ occurrence_free s = true.
Proof.
  rewrite occurrence_free_spec. apply passes_fixed, code_set_closing.
Qed.

(** C4, amended: applying the filter twice gives the same text as
    applying it once exactly when no substitution of the filter matches in
    the once-filtered text. That is so for every input made of a text in
    which no substitution matches, with occurrences (a lead character
    followed by a catalogued sequence) put between its pieces: the first
    run takes out exactly the occurrences, and the second run changes
    nothing. *)
Theorem strip_idempotent (s : string) (ps : list part) :
  (_strip_ansi_escape_codes (_strip_ansi_escape_codes s) = _strip_ansi_escape_codes s
   ↔ occurrence_free (_strip_ansi_escape_codes s) = true)
  ∧ (forallb occurrence ps = true →
     occurrence_free (residue ps) = true →
     _strip_ansi_escape_codes (render ps) = residue ps
     ∧ _strip_ansi_escape_codes (_strip_ansi_escape_codes (render ps))
       = _strip_ansi_escape_codes (render ps)).
Proof.
  split; [apply strip_fixed|]. intros Hps Hfree.
  rewrite (strip_parts ps Hps Hfree). split; [done|]. by apply strip_fixed.
Qed.

Lemma strip_idempotent_witness :
  forallb occurrence spliced = true
  ∧ occurrence_free (residue spliced) = true
  ∧ _strip_ansi_escape_codes (render spliced) = residue spliced
  ∧ _strip_ansi_escape_codes (_strip_ansi_escape_codes (render spliced))
    = _strip_ansi_escape_codes (render spliced).
Proof.
  assert (forallb occurrence spliced = true) as H1 by (vm_compute; reflexivity).
  assert (occurrence_free (residue spliced) = true) as H2 by (vm_compute; reflexivity).
  split; [exact H1|]. split; [exact H2|].
  exact (proj2 (strip_idempotent "" spliced) H1 H2).
Defined.

End EscapeFilterRuns.

(** ** Outcomes and loops *)

Section Outcome.
Context {A S : Type}.
Implicit Types (body : S → A → outcome S) (xs : list A).

Lemma bind_ret {B C} (m : outcome B) (f : B → outcome C) c :
  m ≫= f = Ret c → ∃ b, m = Ret b ∧ f b = Ret c.
Proof. destruct m as [b|e]; [by exists b|done]. Qed.

Lemma for_each_app body xs ys s :
  for_each body (xs ++ ys) s = for_each body xs s ≫= for_each body ys.
Proof.
  revert s. induction xs as [|x xs IH]; intros s; [done|].
  cbn [for_each app]. destruct (body s x) as [s'|e]; [apply IH|done].
Qed.

Lemma for_each_snoc body xs x s :
  for_each body (xs ++ [x]) s = for_each body xs s ≫= fun s' => body s' x.
Proof.
  rewrite for_each_app. destruct (for_each body xs s) as [s'|e]; [|done].
  cbn. by destruct (body s' x).
Qed.

(** A loop that returns has kept every invariant its body keeps, and its
    body has returned on every element. *)
Lemma for_each_ret (I : S → Prop) (Q : A → Prop) body xs s s' :
  I s →
  (∀ s x s', x ∈ xs → I s → body s x = Ret s' → I s' ∧ Q x) →
  for_each body xs s = Ret s' →
  I s' ∧ Forall Q xs.
Proof.
  revert s. induction xs as [|x xs IH]; intros s Hs Hbody Hret.
  - cbn in Hret. by simplify_eq.
  - cbn [for_each] in Hret. apply bind_ret in Hret as (s1 & H1 & Hret).
    destruct (Hbody s x s1) as [Hs1 Hx]; [left|done..|].
    destruct (IH s1) as [? ?]; [done| |done|].
    + intros ???? ; apply Hbody. by right.
    + split; [done|]. by constructor.
Qed.

(** A loop whose body returns on every element returns. *)
Lemma for_each_total (I : S → Prop) body xs s :
  I s →
  (∀ s x, x ∈ xs → I s → ∃ s', body s x = Ret s' ∧ I s') →
  ∃ s', for_each body xs s = Ret s' ∧ I s'.
Proof.
  revert s. induction xs as [|x xs IH]; intros s Hs Hbody; [by exists s|].
  destruct (Hbody s x) as (s1 & H1 & Hs1); [left|done|].
  cbn [for_each]. rewrite H1. cbn. apply IH; [done|].
  intros ????. apply Hbody; [by right|done].
Qed.

(** A loop that collects one result per element. *)
Lemma for_each_collect {B} (f : A → outcome B) xs (acc rs : list B) :
  for_each (fun acc x => r ← f x; Ret (acc ++ [r])) xs acc = Ret rs →
  ∃ rs', rs = acc ++ rs' ∧ Forall2 (fun x r => f x = Ret r) xs rs'.
Proof.
  revert acc. induction xs as [|x xs IH]; intros acc Hret.
  - cbn in Hret. simplify_eq. exists []. by rewrite app_nil_r.
  - cbn [for_each] in Hret. apply bind_ret in Hret as (acc' & H1 & Hret).
    apply bind_ret in H1 as (r & Hr & H1). cbn in H1. simplify_eq.
    apply IH in Hret as (rs' & -> & Hall). exists (r :: rs').
    split; [by rewrite <- app_assoc|by constructor].
Qed.

Lemma for_each_collect_total {B} (f : A → outcome B) xs (acc : list B) :
  Forall (fun x => ∃ r, f x = Ret r) xs →
  ∃ rs, for_each (fun acc x => r ← f x; Ret (acc ++ [r])) xs acc = Ret rs.
Proof.
  intros Hall. revert acc. induction Hall as [|x xs [r Hr] _ IH]; intros acc.
  - by exists acc.
  - cbn [for_each]. rewrite Hr. cbn. apply IH.
Qed.

End Outcome.

(** A loop that files each element it does not skip under a key: a key
    ends up with the value of the last element filed under it. *)
Section Filing.
Context {A V : Type}.
Variables (skip : A → bool) (key : A → option string) (val : A → V).
Variable body : gmap string V → A → outcome (gmap string V).
Hypothesis body_spec : ∀ d x,
  body d x = if skip x then Ret d
             else match key x with
                  | Some k => Ret (<[k := val x]> d)
                  | None => Raise KeyError
                  end.

Lemma filing_last xs d k :
  for_each body xs ∅ = Ret d →
  d !! k = val <$> last (filter (fun x => skip x = false ∧ key x = Some k) xs).
Proof.
  revert d. induction xs as [|x xs IH] using rev_ind; intros d Hret.
  - cbn in Hret. by simplify_eq.
  - rewrite for_each_snoc in Hret. apply bind_ret in Hret as (d' & Hd' & Hx).
    rewrite body_spec in Hx. rewrite filter_app.
    destruct (skip x) eqn:Hskip.
    + simplify_eq.
      rewrite filter_cons_False, filter_nil, app_nil_r
        by (intros [? ?]; congruence).
      by apply IH.
    + destruct (key x) as [k'|] eqn:Hk; [|done]. simplify_eq.
      destruct (decide (k' = k)) as [->|Hne].
      * rewrite lookup_insert_eq, filter_cons_True, filter_nil by done.
        by rewrite last_snoc.
      * rewrite lookup_insert_ne, filter_cons_False, filter_nil, app_nil_r
          by (try intros [? ?]; congruence).
        by apply IH.
Qed.

Lemma filing_keys xs d x :
  for_each body xs ∅ = Ret d → x ∈ xs → skip x = false → is_Some (key x).
Proof.
  intros Hret Hx Hskip.
  apply (for_each_ret (fun _ => True) (fun x => skip x = false → is_Some (key x)))
    in Hret as [_ Hall]; [|done|].
  - by apply (proj1 (Forall_forall _ _) Hall x).
  - intros d0 y d1 _ _ Hy. split; [done|]. intros Hs.
    rewrite body_spec, Hs in Hy. by destruct (key y).
Qed.

Lemma filing_total xs :
  Forall (fun x => skip x = false → is_Some (key x)) xs →
  ∃ d, for_each body xs ∅ = Ret d.
Proof.
  intros Hall.
  destruct (for_each_total (fun _ => True) body xs ∅) as (d & Hd & _); [done| |by exists d].
  intros d x Hx _. rewrite body_spec.
  destruct (skip x) eqn:Hs; [by eexists|].
  destruct (proj1 (Forall_forall _ _) Hall x Hx Hs) as [k ->]. by eexists.
Qed.

End Filing.

(** ** The keyed grouper *)

Module GrouperFacts.
Import Etree NokiaOltDriver Samples.

Lemma convert_list_to_dict_snoc (data : list record) r key :
  _convert_list_to_dict (data ++ [r]) key =
  match r !! key with
  | Some k => <[k := r]> (_convert_list_to_dict data key)
  | None => _convert_list_to_dict data key
  end.
Proof. unfold _convert_list_to_dict. by rewrite foldl_snoc. Qed.

Lemma convert_list_to_dict_last (data : list record) key k :
  _convert_list_to_dict data key !! k
  = last (filter (fun r : record => r !! key = Some k) data).
Proof.
  induction data as [|r data IH] using rev_ind; [done|].
  rewrite convert_list_to_dict_snoc, filter_app.
  destruct (r !! key) as [k'|] eqn:Hr.
  - destruct (decide (k' = k)) as [->|Hne].
    + rewrite lookup_insert_eq, filter_cons_True, filter_nil by done.
      by rewrite last_snoc.
    + rewrite lookup_insert_ne, filter_cons_False, filter_nil by congruence.
      by rewrite app_nil_r.
  - rewrite filter_cons_False, filter_nil by congruence.
    by rewrite app_nil_r.
Qed.

(** C8: [_convert_list_to_dict] maps each key to the last record whose key
    field holds it, so a key is present exactly when some record holds
    it; the records without the key field add nothing (the function is
    total: no exception); and each entry's record holds the entry's key in
    its key field. *)
Theorem convert_list_to_dict_last_wins (data : list record) (key : string)
    (k : option string) :
  _convert_list_to_dict data key !! k
    = last (filter (fun r : record => r !! key = Some k) data)
  ∧ _convert_list_to_dict (filter (fun r : record => is_Some (r !! key)) data) key
    = _convert_list_to_dict data key
  ∧ ∀ r, _convert_list_to_dict data key !! k = Some r → r !! key = Some k.
Proof.
  split; [apply convert_list_to_dict_last|]. split.
  - induction data as [|r data IH] using rev_ind; [done|].
    rewrite filter_app, convert_list_to_dict_snoc.
    destruct (r !! key) as [k'|] eqn:Hr.
    + rewrite filter_cons_True, filter_nil by (by rewrite Hr).
      by rewrite convert_list_to_dict_snoc, Hr, IH.
    + rewrite filter_cons_False, filter_nil, app_nil_r; [done|].
      rewrite Hr. by intros [? ?].
  - intros r. rewrite convert_list_to_dict_last. intros Hl.
    apply last_Some_elem_of, list_elem_of_filter in Hl. tauto.
Qed.

(** C3 fails on the code: with three rows for one port, the first row
    repeated after a row with another MAC, the grouping stores the
    repeated (vlan-id, mac) pair twice. *)
Theorem group_fdb_stores_pair_twice :
  ∃ new_dict,
    group_fdb fdb_repeated = Ret new_dict
    ∧ new_dict !! Some "1/1/5/1"
      = Some [(Some "100", Some "00:11:22:33:44:55");
              (Some "200", Some "66:77:88:99:aa:bb");
              (Some "100", Some "00:11:22:33:44:55")].
Proof. eexists. split; [vm_compute; reflexivity|]. vm_compute. reflexivity. Qed.

(** The scan does coalesce a row that comes again right away: the test
    against the stored MACs is there. *)
Lemma group_fdb_coalesces_adjacent :
  ∃ new_dict,
    group_fdb [fdb_row "1/1/5/1" "100" "00:11:22:33:44:55";
               fdb_row "1/1/5/1" "100" "00:11:22:33:44:55"] = Ret new_dict
    ∧ new_dict !! Some "1/1/5/1"
      = Some [(Some "100", Some "00:11:22:33:44:55")].
Proof. eexists. split; [vm_compute; reflexivity|]. vm_compute. reflexivity. Qed.

End GrouperFacts.

(** ** The node flattener and the record lister *)

Module TreeFacts.
Import Etree NokiaOltDriver Samples.

Lemma flatten_last (elem : Element) (d : record) (k : string) :
  _convert_xml_elem_to_dict elem = Ret d →
  d !! k = text <$> last (filter (fun e => has_tag "instance" e = false
                                            ∧ field_key e = Some k) (iter elem)).
Proof.
  apply filing_last. intros data e. unfold field_key.
  destruct (has_tag "instance" e); [done|].
  unfold getitem. by destruct (attrib e !! "name").
Qed.

Lemma flatten_keys (elem : Element) (d : record) (e : Element) :
  _convert_xml_elem_to_dict elem = Ret d →
  e ∈ iter elem → has_tag "instance" e = false → is_Some (field_key e).
Proof.
  apply (filing_keys (has_tag "instance") field_key text). intros data x.
  unfold field_key. destruct (has_tag "instance" x); [done|].
  unfold getitem. by destruct (attrib x !! "name").
Qed.

(** C9, as stated, fails: the field the device names [association type]
    is filed under [association_type], so a lookup by the name attribute
    finds nothing. *)
Lemma flatten_loses_spaced_name :
  attrib association_type !! "name" = Some "association type"
  ∧ ∃ d : record,
      _convert_xml_elem_to_dict association_type = Ret d
      ∧ d !! "association type" = None
      ∧ d !! "association_type" = Some (Some "static").
Proof.
  split; [vm_compute; reflexivity|]. eexists.
  split; [vm_compute; reflexivity|]. split; vm_compute; reflexivity.
Qed.

(** C9, amended: when flattening a node returns, every node [e] in it
    other than an instance node has a name attribute, and looking up that
    name with its spaces replaced by underscores finds the key present,
    holding verbatim the text of the last node (in document order) filed
    under that key, which is [e] itself unless a later node shares the
    key; a node without text gives [None] under a key that is present. *)
Theorem flatten_round_trip (elem : Element) (d : record) (e : Element) :
  _convert_xml_elem_to_dict elem = Ret d →
  e ∈ iter elem →
  has_tag "instance" e = false →
  ∃ name e',
    attrib e !! "name" = Some name
    ∧ last (filter (fun x => has_tag "instance" x = false
                             ∧ field_key x = field_key e) (iter elem)) = Some e'
    ∧ d !! str_replace " " "_" name = Some (text e').
Proof.
  intros Hd He Htag.
  destruct (flatten_keys elem d e Hd He Htag) as [k Hk].
  unfold field_key in Hk.
  destruct (attrib e !! "name") as [name|] eqn:Hname; [|done].
  cbn in Hk. simplify_eq.
  pose proof (flatten_last elem d (str_replace " " "_" name) Hd) as Hl.
  assert (field_key e = Some (str_replace " " "_" name)) as Hfk
    by (unfold field_key; by rewrite Hname).
  rewrite Hfk.
  destruct (last (filter _ (iter elem))) as [e'|] eqn:Hlast.
  - by exists name, e'.
  - apply last_None in Hlast.
    destruct (filter_nil_not_elem_of _ _ e Hlast); done.
Qed.

Lemma flatten_round_trip_witness :
  _convert_xml_elem_to_dict slot_instance = Ret slot_record
  ∧ oper_status ∈ iter slot_instance
  ∧ has_tag "instance" oper_status = false
  ∧ ∃ name e',
      attrib oper_status !! "name" = Some name
      ∧ last (filter (fun x => has_tag "instance" x = false
                               ∧ field_key x = field_key oper_status)
                     (iter slot_instance)) = Some e'
      ∧ slot_record !! str_replace " " "_" name = Some (text e').
Proof.
  assert (_convert_xml_elem_to_dict slot_instance = Ret slot_record) as Hd
    by (vm_compute; reflexivity).
  assert (oper_status ∈ iter slot_instance) as He.
  { cbn. apply elem_of_cons. right. apply elem_of_cons. right.
    apply elem_of_cons. by left. }
  split; [done|]. split; [done|]. split; [done|].
  by apply (flatten_round_trip slot_instance slot_record oper_status).
Defined.

(** *** The record lister *)

Lemma instance_fields_last (i : Element) (r : record) (k : string) :
  instance_fields i = Ret r →
  r !! k = text <$> last (filter (fun c => attrib c !! "name" = Some k)
                                 (children i)).
Proof.
  intros Hr.
  rewrite (list_filter_iff _ (fun c => (fun _ => false) c = false
                                        ∧ attrib c !! "name" = Some k))
    by (intros c; split; [done|by intros [_ ?]]).
  revert Hr. apply filing_last. intros data c.
  unfold getitem. by destruct (attrib c !! "name").
Qed.

Lemma instance_fields_total (i : Element) :
  Forall (fun c => is_Some (attrib c !! "name")) (children i) →
  ∃ r, instance_fields i = Ret r.
Proof.
  intros Hall.
  apply (filing_total (fun _ => false) (fun c => attrib c !! "name") text).
  - intros data c. unfold getitem. by destruct (attrib c !! "name").
  - eapply Forall_impl; [done|]. by intros.
Qed.

(** C7, as stated, fails: an instance node below another element is a
    node of the document at some depth, but the lister, which looks at
    the children of the root only, returns no record for it. *)
Lemma lister_misses_nested_instance :
  length (findall_deep "instance" nested_root) = 1
  ∧ convert_xml_to_list (parses_to nested_doc nested_root) nested_doc
    = Ret (Some []).
Proof. split; vm_compute; reflexivity. Qed.

(** C7, amended: for a non-empty reply whose sanitized text parses to a
    tree in which every child of every instance node directly under the
    root has a name attribute, [convert_xml_to_list] returns exactly one
    record per instance node directly under the root, in document order,
    each mapping a name attribute to the text of the last child of that
    instance with that name; with no instance node directly under the
    root the list is empty, and nothing is raised. *)
Theorem lister_direct_instances (fromstring : string → outcome Element)
    (xml_data : string) (root : Element) :
  xml_data ≠ "" →
  fromstring (sanitize xml_data) = Ret root →
  Forall (fun i => Forall (fun c => is_Some (attrib c !! "name")) (children i))
         (findall_children "instance" root) →
  ∃ records : list record,
    convert_xml_to_list fromstring xml_data = Ret (Some records)
    ∧ length records = length (findall_children "instance" root)
    ∧ Forall2 (fun i (r : record) =>
                 ∀ k, r !! k = text <$> last (filter (fun c => attrib c !! "name" = Some k)
                                                    (children i)))
              (findall_children "instance" root) records.
Proof.
  intros Hdata Hroot Hnamed. unfold convert_xml_to_list.
  destruct xml_data as [|c0 rest]; [done|]. rewrite Hroot. cbn.
  unfold root_instances.
  destruct (for_each_collect_total instance_fields
              (findall_children "instance" root) []) as [rs Hrs].
  { eapply Forall_impl; [done|]. intros i Hi. by apply instance_fields_total. }
  rewrite Hrs. cbn. exists rs. split; [done|].
  apply for_each_collect in Hrs as (rs' & -> & Hall). cbn [app].
  split; [symmetry; by eapply Forall2_length|].
  eapply Forall2_impl; [done|]. intros i r Hr k. by apply instance_fields_last.
Qed.

Lemma lister_direct_instances_witness :
  slot_doc ≠ ""
  ∧ parses_to slot_doc slot_root (sanitize slot_doc) = Ret slot_root
  ∧ Forall (fun i => Forall (fun c => is_Some (attrib c !! "name")) (children i))
           (findall_children "instance" slot_root)
  ∧ ∃ records : list record,
      convert_xml_to_list (parses_to slot_doc slot_root) slot_doc
        = Ret (Some records)
      ∧ length records = length (findall_children "instance" slot_root)
      ∧ Forall2 (fun i (r : record) =>
                   ∀ k, r !! k = text <$> last (filter (fun c => attrib c !! "name" = Some k)
                                                      (children i)))
                (findall_children "instance" slot_root) records.
Proof.
  assert (slot_doc ≠ "") as H1 by done.
  assert (parses_to slot_doc slot_root (sanitize slot_doc) = Ret slot_root) as H2
    by (vm_compute; reflexivity).
  assert (Forall (fun i => Forall (fun c => is_Some (attrib c !! "name")) (children i))
                 (findall_children "instance" slot_root)) as H3.
  { cbn. repeat constructor; by eexists. }
  split; [done|]. split; [done|]. split; [done|].
  by apply (lister_direct_instances (parses_to slot_doc slot_root) slot_doc slot_root).
Defined.

End TreeFacts.

(** ** get_vlans *)

Module VlanFacts.
Import Etree NokiaOltDriver Samples.

Lemma vlan_names_ids (o : Element) (v0 : gmap Z vlan) (z : Z) :
  vlan_names o = Ret v0 → is_Some (v0 !! z) → z ∈ named_ids o.
Proof.
  intros Hret. revert z.
  apply (for_each_ret (fun v : gmap Z vlan => ∀ z, is_Some (v !! z) → z ∈ named_ids o)
           (fun _ => True)) in Hret as [H _]; [done| |].
  - intros z [? Hz]. by rewrite lookup_empty in Hz.
  - intros v e v' He Hv Hbody. split; [|done].
    apply bind_ret in Hbody as (d & Hd & Hbody).
    apply bind_ret in Hbody as (id & Hid & Hbody).
    apply bind_ret in Hbody as (pk & Hpk & Hbody).
    destruct (v !! pk) eqn:Hlook; [by simplify_eq|].
    apply bind_ret in Hbody as (name & _ & Hbody). cbn in Hbody. simplify_eq.
    intros z. destruct (decide (z = pk)) as [->|Hne].
    + intros _. apply list_elem_of_omap. exists e. split; [done|].
      unfold vlan_id_of. rewrite Hd. unfold getitem in Hid.
      destruct (d !! "id"); [|done]. simplify_eq. by rewrite Hpk.
    + rewrite lookup_insert_ne by done. apply Hv.
Qed.

Lemma vlan_tagging_ret (v v' : gmap Z vlan) (e : Element) :
  vlan_tagging v e = Ret v' →
  (∀ z, is_Some (v' !! z) → is_Some (v !! z))
  ∧ (appends e = true →
     ∃ z, vlan_id_of "vlan-id" e = Some z ∧ is_Some (v !! z)).
Proof.
  intros Hbody. unfold vlan_tagging in Hbody.
  apply bind_ret in Hbody as (d & Hd & Hbody).
  apply bind_ret in Hbody as (id & Hid & Hbody).
  apply bind_ret in Hbody as (z0 & Hz0 & Hbody).
  apply bind_ret in Hbody as (port_raw & _ & Hbody).
  apply bind_ret in Hbody as (port_s & _ & Hbody).
  apply bind_ret in Hbody as (port & _ & Hbody).
  apply bind_ret in Hbody as (mode & Hmode & Hbody).
  apply bind_ret in Hbody as (mode_s & Hmode_s & Hbody).
  assert (appends e = transmits mode_s) as Happ.
  { unfold appends. rewrite Hd. unfold getitem in Hmode.
    destruct (d !! "transmit-mode"); [|done]. simplify_eq.
    destruct mode; [|done]. cbn in Hmode_s. by simplify_eq. }
  assert (vlan_id_of "vlan-id" e = Some z0) as Hvid.
  { unfold vlan_id_of. rewrite Hd. unfold getitem in Hid.
    destruct (d !! "vlan-id"); [|done]. simplify_eq. by rewrite Hz0. }
  rewrite Happ. destruct (transmits mode_s).
  - apply bind_ret in Hbody as (entry & Hentry & Hbody). cbn in Hbody.
    simplify_eq. unfold getitem in Hentry.
    destruct (v !! z0) eqn:Hlook; [|done]. split.
    + intros z. destruct (decide (z = z0)) as [->|Hne]; [by rewrite Hlook|].
      by rewrite lookup_insert_ne.
    + intros _. exists z0. by rewrite Hlook.
  - simplify_eq. split; [done|]. done.
Qed.

Lemma merge_vlans_appends_named (o t : Element) (vlans : gmap Z vlan)
    (e : Element) :
  merge_vlans o t = Ret vlans →
  e ∈ findall_deep "instance" t →
  appends e = true →
  ∃ z, vlan_id_of "vlan-id" e = Some z ∧ z ∈ named_ids o.
Proof.
  intros Hret He Happ.
  apply bind_ret in Hret as (v0 & Hv0 & Hret).
  apply (for_each_ret (fun v : gmap Z vlan => ∀ z, is_Some (v !! z) → z ∈ named_ids o)
           (fun e => appends e = true →
                     ∃ z, vlan_id_of "vlan-id" e = Some z ∧ z ∈ named_ids o))
    in Hret as [_ Hall].
  - by apply (proj1 (Forall_forall _ _) Hall e He).
  - intros z. by apply vlan_names_ids.
  - intros v x v' _ Hv Hbody. apply vlan_tagging_ret in Hbody as [Hdom Hx].
    split; [by intros z Hz; apply Hv, Hdom|].
    intros Hax. destruct (Hx Hax) as (z & Hz & Hin). exists z. split; [done|].
    by apply Hv.
Qed.

(** C10, as stated, fails: VLAN 20 of the tagging reply is not an id of
    the vlan-name reply, yet [get_vlans] returns, because the row's
    transmit mode makes it append nothing. *)
Lemma get_vlans_returns_with_unnamed_id :
  (∃ vlans, get_vlans vlan_parser (vlan_device (tagging_doc "20" "double-tagged"))
            = Ret vlans)
  ∧ vlan_parser (tagging_doc "20" "double-tagged") = Ret vlan_20_double_tagged
  ∧ vlan_parser vlan_10_doc = Ret vlan_10
  ∧ tagging_row "20" "double-tagged"
      ∈ findall_deep "instance" vlan_20_double_tagged
  ∧ vlan_id_of "vlan-id" (tagging_row "20" "double-tagged") = Some 20%Z
  ∧ 20%Z ∉ named_ids vlan_10.
Proof.
  split; [eexists; vm_compute; reflexivity|].
  split; [vm_compute; reflexivity|]. split; [vm_compute; reflexivity|].
  split; [cbn; apply list_elem_of_singleton; reflexivity|].
  split; [vm_compute; reflexivity|].
  assert (named_ids vlan_10 = [10%Z]) as -> by (vm_compute; reflexivity).
  intros Hin. apply list_elem_of_singleton in Hin. discriminate.
Qed.

(** C10, amended: when [get_vlans] returns, every instance of the parsed
    tagging reply whose transmit mode mentions [single-tagged] or
    [untagged] holds a vlan-id that is an id of the parsed vlan-name reply
    (an instance with another transmit mode may hold any vlan-id); and
    there are replies, with such an instance for a VLAN the vlan-name
    reply lacks, on which the append raises [KeyError]. *)
Theorem get_vlans_appends_named_only (fromstring : string → outcome Element)
    (send_command : string → string) (o t : Element) (vlans : gmap Z vlan)
    (e : Element) :
  fromstring (_send_command send_command "show vlan name" true) = Ret o →
  fromstring (_send_command send_command "show vlan residential-bridge extensive" true)
    = Ret t →
  get_vlans fromstring send_command = Ret vlans →
  e ∈ findall_deep "instance" t →
  appends e = true →
  (∃ z, vlan_id_of "vlan-id" e = Some z ∧ z ∈ named_ids o)
  ∧ get_vlans vlan_parser (vlan_device (tagging_doc "20" "untagged"))
    = Raise KeyError.
Proof.
  intros Ho Ht Hret He Happ. split; [|vm_compute; reflexivity].
  unfold get_vlans in Hret. cbn zeta in Hret. rewrite Ho, Ht in Hret.
  by apply (merge_vlans_appends_named o t vlans e).
Qed.

Lemma get_vlans_appends_named_only_witness :
  vlan_parser (_send_command (vlan_device (tagging_doc "10" "untagged"))
                             "show vlan name" true) = Ret vlan_10
  ∧ vlan_parser (_send_command (vlan_device (tagging_doc "10" "untagged"))
                               "show vlan residential-bridge extensive" true)
    = Ret vlan_10_untagged
  ∧ get_vlans vlan_parser (vlan_device (tagging_doc "10" "untagged"))
    = Ret {[ 10%Z := Vlan (Some "mgmt") ["1/1/1/16/29/1/2"] ]}
  ∧ tagging_row "10" "untagged" ∈ findall_deep "instance" vlan_10_untagged
  ∧ appends (tagging_row "10" "untagged") = true
  ∧ (∃ z, vlan_id_of "vlan-id" (tagging_row "10" "untagged") = Some z
          ∧ z ∈ named_ids vlan_10)
  ∧ get_vlans vlan_parser (vlan_device (tagging_doc "20" "untagged"))
    = Raise KeyError.
Proof.
  assert (vlan_parser (_send_command (vlan_device (tagging_doc "10" "untagged"))
                                     "show vlan name" true) = Ret vlan_10) as H1
    by (vm_compute; reflexivity).
  assert (vlan_parser (_send_command (vlan_device (tagging_doc "10" "untagged"))
                         "show vlan residential-bridge extensive" true)
          = Ret vlan_10_untagged) as H2 by (vm_compute; reflexivity).
  assert (get_vlans vlan_parser (vlan_device (tagging_doc "10" "untagged"))
          = Ret {[ 10%Z := Vlan (Some "mgmt") ["1/1/1/16/29/1/2"] ]}) as H3
    by (vm_compute; reflexivity).
  assert (tagging_row "10" "untagged" ∈ findall_deep "instance" vlan_10_untagged)
    as H4 by (cbn; apply list_elem_of_singleton; reflexivity).
  assert (appends (tagging_row "10" "untagged") = true) as H5
    by (vm_compute; reflexivity).
  split; [done|]. split; [done|]. split; [done|]. split; [done|]. split; [done|].
  exact (get_vlans_appends_named_only _ _ _ _ _ _ H1 H2 H3 H4 H5).
Defined.

End VlanFacts.

(** ** get_facts *)

Module FactsFacts.
Import Etree NokiaOltDriver Samples.

Lemma not_supplies key elems e :
  supplies key elems = false → e ∈ elems → supplied key e = false.
Proof.
  unfold supplies. induction elems as [|x xs IH]; intros Hs He.
  - by apply elem_of_nil in He.
  - cbn in Hs. apply orb_false_iff in Hs as [Hx Hxs].
    apply elem_of_cons in He as [->|He]; [done|by apply IH].
Qed.

Lemma not_supplied key e d :
  supplied key e = false → _convert_xml_elem_to_dict e = Ret d → d !! key = None.
Proof.
  unfold supplied. intros Hs Hd. rewrite Hd in Hs.
  apply bool_decide_eq_false in Hs. by apply eq_None_not_Some.
Qed.

(** Once a node with a description has been met, the defaults are in
    place, and later nodes write the same defaults again. *)
Lemma facts_hostname_defaults elems (f f1 : gmap string pyval) :
  for_each (fun facts elem =>
              dummy_data ← _convert_xml_elem_to_dict elem;
              match dummy_data !! "description" with
              | Some hostname =>
                  Ret (<["interface_list" := VList []]>
                      (<["fqdn" := VStr "Unknown"]>
                      (<["serial_number" := VStr ""]>
                      (<["os_version" := VStr ""]>
                      (<["uptime" := VStr ""]>
                      (<["vendor" := VStr "Nokia"]>
                      (<["hostname" := of_text hostname]> facts)))))))
              | None => Ret facts
              end) elems f = Ret f1 →
  has_defaults f ∨ supplies "description" elems = true →
  has_defaults f1.
Proof.
  revert f. induction elems as [|x xs IH]; intros f Hret Hf.
  - cbn in Hret. simplify_eq. by destruct Hf.
  - cbn [for_each] in Hret. apply bind_ret in Hret as (f' & Hx & Hret).
    apply bind_ret in Hx as (d & Hd & Hx).
    apply (IH f' Hret).
    destruct (d !! "description") as [hn|] eqn:Hdesc.
    + left. simplify_eq. unfold has_defaults. by simplify_map_eq.
    + simplify_eq. destruct Hf as [Hf|Hs]; [by left|right].
      unfold supplies in Hs. cbn in Hs. unfold supplied at 1 in Hs.
      rewrite Hd, Hdesc in Hs. rewrite bool_decide_eq_false_2 in Hs; [done|].
      by intros [? ?].
Qed.

Lemma facts_os_ret o (f f' : gmap string pyval) :
  facts_os o f = Ret f' →
  (∀ k, k ≠ "os_version" → f' !! k = f !! k)
  ∧ (supplies "isam-feature-group" (findall_deep_named "hierarchy" "ansi" o) = false
     → f' = f).
Proof.
  intros Hret. split.
  - apply (for_each_ret (fun g : gmap string pyval =>
                           ∀ k, k ≠ "os_version" → g !! k = f !! k)
             (fun _ => True)) in Hret as [H _]; [done|done|].
    intros g x g' _ Hg Hbody. split; [|done].
    apply bind_ret in Hbody as (d & _ & Hbody).
    destruct (d !! "isam-feature-group"); simplify_eq; [|done].
    intros k Hk. rewrite lookup_insert_ne by done. by apply Hg.
  - intros Hs.
    apply (for_each_ret (fun g : gmap string pyval => g = f) (fun _ => True))
      in Hret as [H _]; [done|done|].
    intros g x g' Hx -> Hbody. split; [|done].
    apply bind_ret in Hbody as (d & Hd & Hbody).
    rewrite (not_supplied _ x d) in Hbody; [by simplify_eq| |done].
    by eapply not_supplies.
Qed.

Lemma facts_shelf_ret s (f f' : gmap string pyval) :
  facts_shelf s f = Ret f' →
  (∀ k, k ≠ "serial_number" → k ≠ "model" → f' !! k = f !! k)
  ∧ (supplies "serial-no" (findall_deep_named "hierarchy" "shelf" s) = false
     → f' !! "serial_number" = f !! "serial_number").
Proof.
  intros Hret. split.
  - apply (for_each_ret (fun g : gmap string pyval =>
                           ∀ k, k ≠ "serial_number" → k ≠ "model" → g !! k = f !! k)
             (fun _ => True)) in Hret as [H _]; [done|done|].
    intros g x g' _ Hg Hbody. split; [|done].
    apply bind_ret in Hbody as (d & _ & Hbody).
    intros k Hk1 Hk2. rewrite <- (Hg k) by done.
    destruct (d !! "variant").
    + apply bind_ret in Hbody as (m & _ & Hbody).
      destruct m; simplify_eq. rewrite lookup_insert_ne by done.
      destruct (d !! "serial-no"); [by rewrite lookup_insert_ne|done].
    + cbn zeta in Hbody. simplify_eq.
      destruct (d !! "serial-no"); [by rewrite lookup_insert_ne|done].
  - intros Hs.
    apply (for_each_ret (fun g : gmap string pyval =>
                           g !! "serial_number" = f !! "serial_number")
             (fun _ => True)) in Hret as [H _]; [done|done|].
    intros g x g' Hx Hg Hbody. split; [|done].
    apply bind_ret in Hbody as (d & Hd & Hbody).
    rewrite (not_supplied "serial-no" x d) in Hbody; [| by eapply not_supplies |done].
    rewrite <- Hg. destruct (d !! "variant").
    + apply bind_ret in Hbody as (m & _ & Hbody).
      destruct m; simplify_eq. by rewrite lookup_insert_ne.
    + cbn zeta in Hbody. by simplify_eq.
Qed.

Lemma facts_uptime_ret up (f f' : gmap string pyval) :
  facts_uptime up f = Ret f' →
  (∀ k, k ≠ "uptime" → f' !! k = f !! k)
  ∧ (forallb (fun line => negb (uptime_line line)) (str_splitlines up) = true
     → f' = f).
Proof.
  intros Hret. split.
  - apply (for_each_ret (fun g : gmap string pyval =>
                           ∀ k, k ≠ "uptime" → g !! k = f !! k)
             (fun _ => True)) in Hret as [H _]; [done|done|].
    intros g x g' _ Hg Hbody. split; [|done]. cbn zeta in Hbody.
    destruct (str_split x) as [|first rest]; [by simplify_eq|].
    destruct (str_contains "System" first); [|by simplify_eq].
    apply bind_ret in Hbody as (second & _ & Hbody).
    destruct (str_contains "Up" second); [|by simplify_eq].
    apply bind_ret in Hbody as (tail & _ & Hbody). cbn in Hbody. simplify_eq.
    intros k Hk. rewrite lookup_insert_ne by done. by apply Hg.
  - intros Hlines.
    apply (for_each_ret (fun g : gmap string pyval => g = f) (fun _ => True))
      in Hret as [H _]; [done|done|].
    intros g x g' Hx -> Hbody. split; [|done].
    assert (uptime_line x = false) as Hline.
    { apply negb_true_iff.
      by apply (proj1 (forallb_forall _ _) Hlines), list_elem_of_In. }
    unfold uptime_line in Hline. cbn zeta in Hbody.
    destruct (str_split x) as [|first rest] eqn:Hsplit; [by simplify_eq|].
    destruct (str_contains "System" first); [|by simplify_eq].
    apply bind_ret in Hbody as (second & Hsecond & Hbody).
    destruct rest as [|second' rest]; [done|].
    cbn in Hsecond. simplify_eq. cbn in Hline. rewrite Hline in Hbody.
    by simplify_eq.
Qed.

Lemma facts_ports_none p port_list :
  facts_ports p = Ret port_list →
  supplies "ont-idx" (findall_deep "instance" p) = false →
  port_list = [].
Proof.
  intros Hret Hs.
  apply (for_each_ret (fun l : list (option string) => l = []) (fun _ => True))
    in Hret as [H _]; [done|done|].
  intros l x l' Hx -> Hbody. split; [|done].
  apply bind_ret in Hbody as (d & Hd & Hbody).
  rewrite (not_supplied "ont-idx" x d) in Hbody; [by simplify_eq| |done].
  by eapply not_supplies.
Qed.

(** C6 fails on the code: on a device whose isam-detail reply has an
    isam node without a description, [get_facts] returns the model, the
    serial number and the interface list only; [uptime], [os_version],
    [fqdn], [vendor] and [hostname] are not in the result, although no
    reply supplied them and the loop is headed "create default dict". *)
Theorem get_facts_without_description :
  facts_parser (_send_command undescribed_device "show equipment isam detail" true)
    = Ret isam_bare_root
  ∧ supplies "description" (findall_deep_named "hierarchy" "isam" isam_bare_root)
    = false
  ∧ get_facts facts_parser undescribed_device = Ret undescribed_facts
  ∧ undescribed_facts !! "uptime" = None
  ∧ undescribed_facts !! "os_version" = None
  ∧ undescribed_facts !! "fqdn" = None
  ∧ undescribed_facts !! "vendor" = None
  ∧ undescribed_facts !! "hostname" = None
  ∧ undescribed_facts !! "interface_list" = Some (VList []).
Proof. repeat split; vm_compute; reflexivity. Qed.

(** X30: with a description the defaults are written: when some isam
    node of the isam-detail reply supplies a description and [get_facts]
    returns, the returned mapping holds
    [vendor] and [fqdn] with their fixed values, and each of [os_version],
    [serial_number], [uptime] and [interface_list] that no reply supplied
    with its default: empty string, empty string, empty string, empty
    list. *)
Lemma get_facts_defaults (fromstring : string → outcome Element)
    (send_command : string → string) (h o s p : Element)
    (facts : gmap string pyval) :
  fromstring (_send_command send_command "show equipment isam detail" true) = Ret h →
  fromstring (_send_command send_command "show software-mngt version ansi" true) = Ret o →
  fromstring (_send_command send_command "show equipment shelf 1/1 detail" true) = Ret s →
  fromstring (_send_command send_command "show equipment ont interface" true) = Ret p →
  get_facts fromstring send_command = Ret facts →
  supplies "description" (findall_deep_named "hierarchy" "isam" h) = true →
  facts !! "vendor" = Some (VStr "Nokia")
  ∧ facts !! "fqdn" = Some (VStr "Unknown")
  ∧ (supplies "isam-feature-group" (findall_deep_named "hierarchy" "ansi" o) = false
     → facts !! "os_version" = Some (VStr ""))
  ∧ (supplies "serial-no" (findall_deep_named "hierarchy" "shelf" s) = false
     → facts !! "serial_number" = Some (VStr ""))
  ∧ (forallb (fun line => negb (uptime_line line))
             (str_splitlines (_send_command send_command "show core1-uptime" false))
     = true
     → facts !! "uptime" = Some (VStr ""))
  ∧ (supplies "ont-idx" (findall_deep "instance" p) = false
     → facts !! "interface_list" = Some (VList [])).
Proof.
  intros Hh Ho Hs Hp Hret Hdesc. unfold get_facts in Hret. cbn zeta in Hret.
  apply bind_ret in Hret as (dm & _ & Hret).
  rewrite Hh, Ho, Hs, Hp in Hret. cbn [mbind outcome_bind] in Hret.
  unfold merge_facts in Hret.
  apply bind_ret in Hret as (f1 & H1 & Hret).
  apply bind_ret in Hret as (f2 & H2 & Hret).
  apply bind_ret in Hret as (f3 & H3 & Hret).
  apply bind_ret in Hret as (f4 & H4 & Hret).
  apply bind_ret in Hret as (pl & H5 & Hret).
  apply bind_ret in Hret as (sorted & H6 & Hret). cbn in Hret. simplify_eq.
  apply facts_hostname_defaults in H1; [|by right].
  destruct H1 as (Hvendor & Huptime & Hos & Hserial & Hfqdn & _).
  apply facts_os_ret in H2 as [H2 H2'].
  apply facts_shelf_ret in H3 as [H3 H3'].
  apply facts_uptime_ret in H4 as [H4 H4'].
  repeat split.
  - by rewrite lookup_insert_ne, H4, H3, H2.
  - by rewrite lookup_insert_ne, H4, H3, H2.
  - intros Hno. rewrite lookup_insert_ne, H4, H3 by done. by rewrite (H2' Hno).
  - intros Hno. rewrite lookup_insert_ne, H4 by done. by rewrite (H3' Hno), H2.
  - intros Hno. rewrite lookup_insert_ne by done.
    by rewrite (H4' Hno), H3, H2.
  - intros Hno. rewrite lookup_insert_eq.
    rewrite (facts_ports_none p pl H5 Hno) in H6. cbn in H6. by simplify_eq.
Qed.

Lemma get_facts_defaults_witness :
  facts_parser (_send_command facts_device "show equipment isam detail" true)
    = Ret isam_root
  ∧ facts_parser (_send_command facts_device "show software-mngt version ansi" true)
    = Ret empty_root
  ∧ facts_parser (_send_command facts_device "show equipment shelf 1/1 detail" true)
    = Ret shelf_root
  ∧ facts_parser (_send_command facts_device "show equipment ont interface" true)
    = Ret empty_root
  ∧ get_facts facts_parser facts_device = Ret olt1_facts
  ∧ supplies "description" (findall_deep_named "hierarchy" "isam" isam_root) = true
  ∧ olt1_facts !! "vendor" = Some (VStr "Nokia")
  ∧ olt1_facts !! "fqdn" = Some (VStr "Unknown")
  ∧ (supplies "isam-feature-group"
       (findall_deep_named "hierarchy" "ansi" empty_root) = false
     → olt1_facts !! "os_version" = Some (VStr ""))
  ∧ (supplies "serial-no" (findall_deep_named "hierarchy" "shelf" shelf_root) = false
     → olt1_facts !! "serial_number" = Some (VStr ""))
  ∧ (forallb (fun line => negb (uptime_line line))
             (str_splitlines (_send_command facts_device "show core1-uptime" false))
     = true
     → olt1_facts !! "uptime" = Some (VStr ""))
  ∧ (supplies "ont-idx" (findall_deep "instance" empty_root) = false
     → olt1_facts !! "interface_list" = Some (VList [])).
Proof.
  assert (facts_parser (_send_command facts_device "show equipment isam detail" true)
          = Ret isam_root) as H1 by (vm_compute; reflexivity).
  assert (facts_parser (_send_command facts_device "show software-mngt version ansi" true)
          = Ret empty_root) as H2 by (vm_compute; reflexivity).
  assert (facts_parser (_send_command facts_device "show equipment shelf 1/1 detail" true)
          = Ret shelf_root) as H3 by (vm_compute; reflexivity).
  assert (facts_parser (_send_command facts_device "show equipment ont interface" true)
          = Ret empty_root) as H4 by (vm_compute; reflexivity).
  assert (get_facts facts_parser facts_device = Ret olt1_facts) as H5
    by (vm_compute; reflexivity).
  assert (supplies "description" (findall_deep_named "hierarchy" "isam" isam_root)
          = true) as H6 by (vm_compute; reflexivity).
  split; [done|]. split; [done|]. split; [done|]. split; [done|].
  split; [done|]. split; [done|].
  exact (get_facts_defaults facts_parser facts_device _ _ _ _ _ H1 H2 H3 H4 H5 H6).
Defined.

End FactsFacts.

(** ** Replies without data *)

Module ReplyFacts.
Import Etree NokiaOltDriver Samples.

(** [get_ntp_servers] has no test of the reply: on an empty reply the
    lister hands it [None], and the loop over it raises. *)
Lemma get_ntp_servers_empty_reply (fromstring : string → outcome Element)
    (send_command : string → string) :
  _send_command send_command "show sntp server-tablev6 " true = "" →
  get_ntp_servers fromstring send_command = Raise TypeError.
Proof. intros H. unfold get_ntp_servers. cbn zeta. by rewrite H. Qed.

(** [get_facts] parses its replies as they come. *)
Lemma get_facts_parse_error (fromstring : string → outcome Element)
    (send_command : string → string) (dm : option string) (e : exn) :
  make_device_model (_send_command send_command "admin display-config" false) = Ret dm →
  fromstring (_send_command send_command "show equipment isam detail" true) = Raise e →
  get_facts fromstring send_command = Raise e.
Proof. intros Hm Hh. unfold get_facts. cbn zeta. by rewrite Hm, Hh. Qed.

(** C2, as stated, fails: a guarded operation raises the parse error of a
    reply that is not a tree, and [get_ntp_servers] and [get_facts] raise
    on a device that answers nothing. *)
Lemma replies_that_raise :
  get_equipment_slot strict_parser garbled_device "olt-1" = Raise ParseError
  ∧ get_ntp_servers strict_parser silent_device = Raise TypeError
  ∧ get_facts strict_parser silent_device = Raise ParseError.
Proof. repeat split; vm_compute; reflexivity. Qed.

(** The shape shared by the table operations: the message on an empty
    reply, the parser's error on a reply that is not a tree. *)
Lemma keyed_table_guard (fromstring : string → outcome Element)
    (send_command : string → string) (command key msg : string) (e : exn) :
  (_send_command send_command command true = "" →
   keyed_table fromstring send_command command key msg = Ret (NoData msg))
  ∧ (_send_command send_command command true ≠ "" →
     fromstring (sanitize (_send_command send_command command true)) = Raise e →
     keyed_table fromstring send_command command key msg = Raise e).
Proof.
  split.
  - intros H. unfold keyed_table. cbn zeta. by rewrite H.
  - intros Hne Hparse. unfold keyed_table, convert_xml_to_list. cbn zeta.
    destruct (_send_command send_command command true) as [|c rest]; [done|].
    by rewrite Hparse.
Qed.

(** [get_software_mgmt_version_etsi] reads the lines of its reply and
    hands them to no parser: all it can raise is the [IndexError] of a
    line with too few words. *)
Lemma version_raises_index_error (send_command : string → string)
    (hostname : string) (e : exn) :
  get_software_mgmt_version_etsi send_command hostname = Raise e → e = IndexError.
Proof.
  unfold get_software_mgmt_version_etsi, convert_software_version_xml_to_dict.
  cbn zeta.
  destruct (_send_command send_command "show software-mngt version etsi" true)
    as [|c data]; [done|].
  generalize (str_splitlines (String c data)) as ls.
  induction ls as [|l ls IH]; lazy beta iota fix; [done|].
  destruct (str_contains "info" l); [|exact IH].
  cbn zeta. unfold list_item.
  destruct (reverse _ !! 1%nat); cbn; [done|]. by intros [= <-].
Qed.

(** C2, amended: each of the eighteen table operations built on
    [keyed_table], and likewise [get_vlan_bridge_port_fdb], returns its
    no-data message, and raises nothing, when the reply to its command is
    empty; when the reply is not empty and its sanitized text fails to
    parse as a tree, the parser's error is raised to the caller.
    [get_software_mgmt_version_etsi] returns its message on an empty reply
    too; it hands its reply to no parser, and the only exception it raises
    is [IndexError]. *)
Theorem guarded_reply (fromstring : string → outcome Element)
    (send_command : string → string) (hostname : string) (e : exn) :
  Forall (fun op : string * outcome (reply (gmap (option string) record)) =>
            (_send_command send_command op.1 true = "" →
             op.2 = Ret (NoData (no_data hostname))
             ∨ op.2 = Ret (NoData (no_data_for hostname op.1)))
            ∧ (_send_command send_command op.1 true ≠ "" →
               fromstring (sanitize (_send_command send_command op.1 true)) = Raise e →
               op.2 = Raise e))
         (table_operations fromstring send_command hostname)
  ∧ (_send_command send_command "show vlan bridge-port-fdb" true = "" →
     get_vlan_bridge_port_fdb fromstring send_command hostname
     = Ret (NoData (no_data_for hostname "show vlan bridge-port-fdb")))
  ∧ (_send_command send_command "show vlan bridge-port-fdb" true ≠ "" →
     fromstring (sanitize (_send_command send_command "show vlan bridge-port-fdb" true))
       = Raise e →
     get_vlan_bridge_port_fdb fromstring send_command hostname = Raise e)
  ∧ (_send_command send_command "show software-mngt version etsi" true = "" →
     get_software_mgmt_version_etsi send_command hostname
     = Ret (NoData (no_data_for hostname "show software-mngt version etsi")))
  ∧ (∀ e', get_software_mgmt_version_etsi send_command hostname = Raise e' →
           e' = IndexError).
Proof.
  split; [|split; [|split; [|split]]].
  - unfold table_operations.
    repeat (apply Forall_cons; split); [..|by apply Forall_nil]; cbn [fst snd];
      (split; [intros H; first [left; by apply keyed_table_guard
                               |right; by apply keyed_table_guard]
              |by apply keyed_table_guard]).
  - intros H. unfold get_vlan_bridge_port_fdb. cbn zeta. by rewrite H.
  - intros Hne Hparse. unfold get_vlan_bridge_port_fdb, convert_xml_to_list.
    cbn zeta.
    destruct (_send_command send_command "show vlan bridge-port-fdb" true)
      as [|c rest]; [done|].
    by rewrite Hparse.
  - intros H. unfold get_software_mgmt_version_etsi. cbn zeta. by rewrite H.
  - intros e'. apply version_raises_index_error.
Qed.

Lemma guarded_reply_witness :
  Forall (fun op : string * outcome (reply (gmap (option string) record)) =>
            (_send_command garbled_device op.1 true = "" →
             op.2 = Ret (NoData (no_data "olt-1"))
             ∨ op.2 = Ret (NoData (no_data_for "olt-1" op.1)))
            ∧ (_send_command garbled_device op.1 true ≠ "" →
               strict_parser (sanitize (_send_command garbled_device op.1 true))
                 = Raise ParseError →
               op.2 = Raise ParseError))
         (table_operations strict_parser garbled_device "olt-1")
  ∧ (_send_command garbled_device "show vlan bridge-port-fdb" true = "" →
     get_vlan_bridge_port_fdb strict_parser garbled_device "olt-1"
     = Ret (NoData (no_data_for "olt-1" "show vlan bridge-port-fdb")))
  ∧ (_send_command garbled_device "show vlan bridge-port-fdb" true ≠ "" →
     strict_parser (sanitize (_send_command garbled_device "show vlan bridge-port-fdb" true))
       = Raise ParseError →
     get_vlan_bridge_port_fdb strict_parser garbled_device "olt-1" = Raise ParseError)
  ∧ (_send_command garbled_device "show software-mngt version etsi" true = "" →
     get_software_mgmt_version_etsi garbled_device "olt-1"
     = Ret (NoData (no_data_for "olt-1" "show software-mngt version etsi")))
  ∧ (∀ e', get_software_mgmt_version_etsi garbled_device "olt-1" = Raise e' →
           e' = IndexError).
Proof. exact (guarded_reply strict_parser garbled_device "olt-1" ParseError). Defined.

End ReplyFacts.

(** ** get_lldp_neighbors_detail *)

Module LldpFacts.
Import Re Etree NokiaOltDriver Samples.

Lemma str_contains_false l c s :
  str_contains l (String c s) = false →
  strip_prefix l (String c s) = None ∧ str_contains l s = false.
Proof. cbn [str_contains]. by destruct (strip_prefix l (String c s)). Qed.

(** A pattern that starts a line with a literal finds nothing in a text
    that does not hold the literal. *)
Lemma search_from_absent fl l r pre s :
  str_contains l s = false →
  search_from fl (Seq Bol (Seq (Lit l) r)) pre s = None.
Proof.
  revert pre. induction s as [|c s IH]; intros pre Habs.
  - cbn [search_from]. unfold match_at. cbn [rmatch m_rest].
    destruct (at_bol fl _); [|done].
    destruct l; [done|done].
  - apply str_contains_false in Habs as [Hpre Hrest].
    cbn [search_from]. unfold match_at. cbn [rmatch m_rest].
    rewrite Hpre. destruct (at_bol fl _); by apply IH.
Qed.

(** Any neighbour block with a system name line and no text [Chassis Id]
    makes the loop body raise. *)
Lemma lldp_detail_without_chassis (lldp : gmap string (list (gmap string string)))
    (port lldp_data : string) :
  findall1 MULTILINE REMOTE_HOST_REGEX lldp_data ≠ [] →
  str_contains "Chassis Id" lldp_data = false →
  lldp_detail lldp port lldp_data = Raise AttributeError.
Proof.
  intros Hhost Habs. unfold lldp_detail.
  destruct (findall1 MULTILINE REMOTE_HOST_REGEX lldp_data) as [|rh rest]; [done|].
  cbn zeta. unfold search, REMOTE_CHASSIS_REGEX. cbn [seq].
  by rewrite search_from_absent.
Qed.

(** C1 fails on the code: for a port whose neighbour block has a
    [System Name] line and a [Port Id] line but no [Chassis Id] line,
    [get_lldp_neighbors_detail] raises [AttributeError] ([.group(1)] on the
    [None] that the chassis search returns) and returns no entry. *)
Theorem get_lldp_neighbors_detail_raises :
  lldp_ports show_port_reply = ["nt-a:xfp:1"]
  ∧ findall1 MULTILINE REMOTE_HOST_REGEX remote_info_reply = ["R1"]
  ∧ str_contains "Port Id" remote_info_reply = true
  ∧ str_contains "Chassis Id" remote_info_reply = false
  ∧ get_lldp_neighbors_detail lldp_device = Raise AttributeError.
Proof. repeat split; vm_compute; reflexivity. Qed.

End LldpFacts.

(** * Further properties of the code *)

(** ** The escape filter only deletes *)

Module EscapeFilterMore.
Import Re EscapeFilter Samples.

Lemma delete_go_sublist fl r skip pre s :
  chars (delete_go fl r skip pre s) `sublist_of` chars s.
Proof.
  revert skip pre. induction s as [|c s IH]; intros skip pre; [done|].
  cbn [delete_go]. destruct skip as [|n].
  - destruct (match_at fl r pre (String c s)) as [m|].
    + destruct (span_len (String c s) m).
      * apply sublist_skip, IH.
      * apply sublist_cons, IH.
    + apply sublist_skip, IH.
  - apply sublist_cons, IH.
Qed.

Lemma chars_length s : length (chars s) = String.length s.
Proof. induction s as [|c s IH]; [done|]. cbn. by rewrite <- IH. Qed.

(** X1: the escape filter only deletes characters: its output is a
    subsequence of its input, so it is never longer than the input. *)
Theorem strip_only_deletes (s : string) :
  chars (_strip_ansi_escape_codes s) `sublist_of` chars s
  ∧ String.length (_strip_ansi_escape_codes s) ≤ String.length s.
Proof.
  assert (chars (_strip_ansi_escape_codes s) `sublist_of` chars s) as Hsub.
  { unfold _strip_ansi_escape_codes. generalize code_set. intros cs.
    revert s. induction cs as [|c cs IH]; intros s; [done|].
    cbn [fold_left]. etrans; [apply IH|]. apply delete_go_sublist. }
  split; [done|]. rewrite <- !chars_length. by apply sublist_length.
Qed.

Lemma esc_free_guarded s : ESC ∉ chars s → esc_guarded s = true.
Proof.
  induction s as [|a s IH]; intros Hfree; [done|].
  cbn [esc_guarded]. destruct s as [|b s]; [done|].
  cbn [chars list_ascii_of_string] in Hfree.
  apply andb_true_intro. split.
  - apply negb_true_iff, andb_false_iff. right.
    apply Ascii.eqb_neq. intros <-. apply Hfree. right. by left.
  - apply IH. intros Hin. apply Hfree. by right.
Qed.

(** X2: a text without any ESC character passes the filter unchanged,
    whatever dashes, slashes, bars and whitespace it holds. *)
Theorem strip_plain_text (s : string) :
  ESC ∉ chars s → _strip_ansi_escape_codes s = s.
Proof. intros Hfree. by apply EscapeFilterFacts.strip_guarded, esc_free_guarded. Qed.

Lemma strip_plain_text_witness :
  (ESC ∉ chars "a - b | c / d")
  ∧ _strip_ansi_escape_codes "a - b | c / d" = "a - b | c / d".
Proof.
  assert (ESC ∉ chars "a - b | c / d") as H.
  { cbn. intros Hin. repeat (apply elem_of_cons in Hin as [Hin|Hin]; [discriminate|]).
    by apply elem_of_nil in Hin. }
  split; [done|]. by apply (strip_plain_text "a - b | c / d").
Defined.

End EscapeFilterMore.

(** ** When flattening and listing return *)

Section FilingRaise.
Context {A V : Type}.
Variables (skip : A → bool) (key : A → option string) (val : A → V).
Variable body : gmap string V → A → outcome (gmap string V).
Hypothesis body_spec : ∀ d x,
  body d x = if skip x then Ret d
             else match key x with
                  | Some k => Ret (<[k := val x]> d)
                  | None => Raise KeyError
                  end.

Lemma filing_raise xs d e :
  for_each body xs d = Raise e → e = KeyError.
Proof.
  revert d. induction xs as [|x xs IH]; intros d Hraise; [done|].
  cbn [for_each] in Hraise. rewrite body_spec in Hraise.
  destruct (skip x); [by eapply IH|].
  destruct (key x); [by eapply IH|]. cbn in Hraise. by simplify_eq.
Qed.

End FilingRaise.

Module TreeMore.
Import Etree NokiaOltDriver Samples.

Lemma flatten_body_spec (data : record) (e : Element) :
  (if has_tag "instance" e then Ret data
   else (name ← getitem (attrib e) "name";
         let key_name := str_replace " " "_" name in
         Ret (<[key_name := text e]> data)))
  = if has_tag "instance" e then Ret data
    else match field_key e with
         | Some k => Ret (<[k := text e]> data)
         | None => Raise KeyError
         end.
Proof.
  unfold field_key. destruct (has_tag "instance" e); [done|].
  unfold getitem. by destruct (attrib e !! "name").
Qed.

Lemma field_key_named e : is_Some (field_key e) ↔ named e.
Proof.
  unfold field_key, named. destruct (attrib e !! "name"); cbn; [done|].
  split; by intros [? ?].
Qed.

(** X3: the node flattener returns exactly when every node of the element
    other than an instance node has a name attribute; otherwise it raises
    [KeyError], and nothing else. *)
Theorem flatten_returns_iff_named (elem : Element) :
  (flattenable elem → ∃ d, _convert_xml_elem_to_dict elem = Ret d)
  ∧ (¬ flattenable elem → _convert_xml_elem_to_dict elem = Raise KeyError).
Proof.
  split.
  - intros Hall.
    apply (filing_total (has_tag "instance") field_key text);
      [apply flatten_body_spec|].
    eapply Forall_impl; [exact Hall|]. intros e He Htag.
    by apply field_key_named, He.
  - intros Hnot.
    destruct (_convert_xml_elem_to_dict elem) as [d|e] eqn:Hd.
    + destruct Hnot. apply Forall_forall. intros e He Htag.
      apply field_key_named.
      by apply (TreeFacts.flatten_keys elem d e).
    + f_equal.
      by apply (filing_raise (has_tag "instance") field_key text _
                  flatten_body_spec (iter elem) ∅ e).
Qed.

Lemma for_each_collect_raise {A B} (f : A → outcome B) xs (acc : list B) e :
  for_each (fun acc x => r ← f x; Ret (acc ++ [r])) xs acc = Raise e →
  ∃ x, x ∈ xs ∧ f x = Raise e.
Proof.
  revert acc. induction xs as [|x xs IH]; intros acc Hraise; [done|].
  cbn [for_each] in Hraise. destruct (f x) as [r|e'] eqn:Hx.
  - cbn in Hraise. apply IH in Hraise as (y & Hy & Hfy).
    exists y. split; [by right|done].
  - cbn in Hraise. simplify_eq. exists x. split; [by left|done].
Qed.

Lemma instance_fields_spec (data : record) (c : Element) :
  (name ← getitem (attrib c) "name"; Ret (<[name := text c]> data))
  = if (fun _ : Element => false) c then Ret data
    else match attrib c !! "name" with
         | Some k => Ret (<[k := text c]> data)
         | None => Raise KeyError
         end.
Proof. unfold getitem. by destruct (attrib c !! "name"). Qed.

(** X4: when the reply is not empty and parses, but some child of an
    instance node directly under the root has no name attribute, the record
    lister raises [KeyError]: it skips no child. *)
Theorem lister_key_error (fromstring : string → outcome Element)
    (xml_data : string) (root : Element) :
  xml_data ≠ "" →
  fromstring (sanitize xml_data) = Ret root →
  ¬ Forall (fun i => Forall named (children i)) (findall_children "instance" root) →
  convert_xml_to_list fromstring xml_data = Raise KeyError.
Proof.
  intros Hdata Hroot Hnot. unfold convert_xml_to_list.
  destruct xml_data as [|c0 rest]; [done|]. rewrite Hroot. cbn.
  destruct (root_instances root) as [rs|e] eqn:Hrs; cbn.
  - destruct Hnot. unfold root_instances in Hrs.
    apply for_each_collect in Hrs as (rs' & _ & Hall).
    apply (Forall2_Forall_l _ _ _ _ Hall).
    apply Forall_forall. intros r _ i Hi.
    apply Forall_forall. intros c Hc.
    by apply (filing_keys (fun _ => false) (fun c => attrib c !! "name") text _
                (fun d c => instance_fields_spec d c) (children i) r c).
  - f_equal. unfold root_instances in Hrs.
    apply for_each_collect_raise in Hrs as (i & _ & Hi).
    by apply (filing_raise (fun _ => false) (fun c => attrib c !! "name") text _
                (fun d c => instance_fields_spec d c) (children i) ∅ e).
Qed.

Lemma lister_key_error_witness :
  unnamed_doc ≠ ""
  ∧ parses_to unnamed_doc unnamed_root (sanitize unnamed_doc) = Ret unnamed_root
  ∧ ¬ Forall (fun i => Forall named (children i))
             (findall_children "instance" unnamed_root)
  ∧ convert_xml_to_list (parses_to unnamed_doc unnamed_root) unnamed_doc
    = Raise KeyError.
Proof.
  assert (unnamed_doc ≠ "") as H1 by done.
  assert (parses_to unnamed_doc unnamed_root (sanitize unnamed_doc) = Ret unnamed_root)
    as H2 by (vm_compute; reflexivity).
  assert (¬ Forall (fun i => Forall named (children i))
                   (findall_children "instance" unnamed_root)) as H3.
  { cbn. intros Hall. apply Forall_cons in Hall as [Hi _].
    apply Forall_cons in Hi as [[x Hx] _]. cbn in Hx.
    by rewrite lookup_empty in Hx. }
  split; [done|]. split; [done|]. split; [done|].
  exact (lister_key_error _ _ _ H1 H2 H3).
Defined.

End TreeMore.

(** ** More on grouping *)

Module GrouperMore.
Import Etree NokiaOltDriver Samples.

Lemma for_each_raise_only {A S} (P : exn → Prop) (body : S → A → outcome S) xs s e :
  (∀ s x e, body s x = Raise e → P e) →
  for_each body xs s = Raise e → P e.
Proof.
  intros Hbody. revert s. induction xs as [|x xs IH]; intros s Hraise; [done|].
  cbn [for_each] in Hraise. destruct (body s x) as [s'|e'] eqn:Hx.
  - by eapply IH.
  - cbn in Hraise. simplify_eq. by eapply Hbody.
Qed.

Lemma fdb_entry_ret (d d' : gmap (option string) (list (option string * option string)))
    (entry : record) :
  fdb_entry d entry = Ret d' →
  ∃ port vlan mac,
    entry !! "port" = Some port ∧ entry !! "vlan-id" = Some vlan
    ∧ entry !! "mac" = Some mac
    ∧ (d' = d ∨ d' = <[port := default [] (d !! port) ++ [(vlan, mac)]]> d).
Proof.
  unfold fdb_entry, getitem. intros Hret.
  destruct (entry !! "port") as [port|]; [|done].
  destruct (entry !! "vlan-id") as [vlan|]; [|done].
  destruct (entry !! "mac") as [mac|]; [|done]. cbn in Hret.
  exists port, vlan, mac. repeat split; try done.
  destruct (d !! port) as [l|] eqn:Hl.
  - destruct (other_mac l mac).
    + rewrite lookup_insert_eq in Hret. simplify_eq. by right.
    + rewrite Hl in Hret. simplify_eq. by left.
  - rewrite Hl in Hret. simplify_eq. by right.
Qed.

(** X5: what the fdb grouping stores comes from the rows: when it returns,
    the list of a port is never empty, and each (vlan-id, mac) pair in it
    is that of some row of the reply for that very port. *)
Theorem group_fdb_sound (data : list record)
    (d : gmap (option string) (list (option string * option string)))
    (port : option string) (l : list (option string * option string)) :
  group_fdb data = Ret d →
  d !! port = Some l →
  l ≠ []
  ∧ ∀ vlan mac, (vlan, mac) ∈ l →
      ∃ entry, entry ∈ data ∧ entry !! "port" = Some port
               ∧ entry !! "vlan-id" = Some vlan ∧ entry !! "mac" = Some mac.
Proof.
  intros Hret. revert port l.
  apply (for_each_ret
           (fun d : gmap (option string) (list (option string * option string)) =>
              ∀ port l, d !! port = Some l →
                l ≠ []
                ∧ ∀ vlan mac, (vlan, mac) ∈ l →
                    ∃ entry, entry ∈ data ∧ entry !! "port" = Some port
                             ∧ entry !! "vlan-id" = Some vlan
                             ∧ entry !! "mac" = Some mac)
           (fun _ => True)) in Hret as [H _]; [done| |].
  - intros port l Hl. by rewrite lookup_empty in Hl.
  - intros d0 entry d1 Hin Hd0 Hbody. split; [|done].
    apply fdb_entry_ret in Hbody as (p & v & m & Hp & Hv & Hm & [->| ->]); [done|].
    intros port l. destruct (decide (port = p)) as [->|Hne].
    + rewrite lookup_insert_eq. intros [= <-]. split; [by destruct (default _ _)|].
      intros vlan mac Hpair. apply elem_of_app in Hpair as [Hold|Hnew].
      * destruct (d0 !! p) as [l0|] eqn:Hl0; [|by apply elem_of_nil in Hold].
        by apply (Hd0 p l0).
      * apply list_elem_of_singleton in Hnew. simplify_eq. by exists entry.
    + rewrite lookup_insert_ne by done. apply Hd0.
Qed.

Lemma group_fdb_sound_witness :
  group_fdb fdb_repeated = Ret fdb_repeated_dict
  ∧ fdb_repeated_dict !! Some "1/1/5/1"
    = Some [(Some "100", Some "00:11:22:33:44:55");
            (Some "200", Some "66:77:88:99:aa:bb");
            (Some "100", Some "00:11:22:33:44:55")]
  ∧ [(Some "100", Some "00:11:22:33:44:55");
     (Some "200", Some "66:77:88:99:aa:bb");
     (Some "100", Some "00:11:22:33:44:55")] ≠ []
  ∧ ∀ vlan mac,
      (vlan, mac) ∈ [(Some "100", Some "00:11:22:33:44:55");
                     (Some "200", Some "66:77:88:99:aa:bb");
                     (Some "100", Some "00:11:22:33:44:55")] →
      ∃ entry, entry ∈ fdb_repeated ∧ entry !! "port" = Some (Some "1/1/5/1")
               ∧ entry !! "vlan-id" = Some vlan ∧ entry !! "mac" = Some mac.
Proof.
  assert (group_fdb fdb_repeated = Ret fdb_repeated_dict) as H1
    by (vm_compute; reflexivity).
  assert (fdb_repeated_dict !! Some "1/1/5/1"
          = Some [(Some "100", Some "00:11:22:33:44:55");
                  (Some "200", Some "66:77:88:99:aa:bb");
                  (Some "100", Some "00:11:22:33:44:55")]) as H2
    by (vm_compute; reflexivity).
  split; [done|]. split; [done|].
  exact (group_fdb_sound _ _ _ _ H1 H2).
Defined.

(** X6: the fdb grouping returns exactly when every row has a port, a
    vlan-id and a mac field; a row that lacks one makes it raise
    [KeyError], and it raises nothing else. *)
Theorem group_fdb_returns_iff_complete (data : list record) :
  (Forall fdb_complete data → ∃ d, group_fdb data = Ret d)
  ∧ (¬ Forall fdb_complete data → group_fdb data = Raise KeyError).
Proof.
  split.
  - intros Hall.
    destruct (for_each_total (fun _ => True) fdb_entry data ∅) as (d & Hd & _);
      [done| |by exists d].
    intros d entry Hin _.
    destruct (proj1 (Forall_forall _ _) Hall entry Hin)
      as ([p Hp] & [v Hv] & [m Hm]).
    unfold fdb_entry, getitem. rewrite Hp, Hv, Hm. cbn.
    destruct (match d !! p with Some _ => _ | None => _ end !! p); by eexists.
  - intros Hnot. destruct (group_fdb data) as [d|e] eqn:Hd.
    + destruct Hnot.
      apply (for_each_ret (fun _ => True) fdb_complete) in Hd as [_ H]; [done|done|].
      intros d0 entry d1 _ _ Hbody. split; [done|].
      apply fdb_entry_ret in Hbody as (p & v & m & Hp & Hv & Hm & _).
      unfold fdb_complete. by rewrite Hp, Hv, Hm.
    + f_equal.
      apply (for_each_raise_only (fun e => e = KeyError) fdb_entry data ∅ e);
        [|exact Hd].
      intros d0 entry e0. unfold fdb_entry, getitem.
      destruct (entry !! "port") as [p|]; [|by intros [= <-]].
      destruct (entry !! "vlan-id") as [v|]; [|by intros [= <-]].
      destruct (entry !! "mac") as [m|]; [|by intros [= <-]]. cbn.
      by destruct (match d0 !! p with Some _ => _ | None => _ end !! p).
Qed.

Lemma other_mac_all_same (l : list (option string * option string)) mac :
  Forall (fun pair => pair.2 = mac) l → other_mac l mac = false.
Proof.
  induction 1 as [|pair l Hpair _ IH]; [done|].
  cbn [other_mac]. by rewrite bool_decide_eq_false_2 by (by intros ?).
Qed.

(** X7: a row is dropped when every pair stored for its port has the
    row's MAC, whatever its vlan-id: the same MAC seen on another VLAN of
    the port is not recorded. *)
Theorem fdb_entry_same_mac_dropped
    (d : gmap (option string) (list (option string * option string)))
    (entry : record) (port vlan mac : option string)
    (l : list (option string * option string)) :
  entry !! "port" = Some port →
  entry !! "vlan-id" = Some vlan →
  entry !! "mac" = Some mac →
  d !! port = Some l →
  Forall (fun pair => pair.2 = mac) l →
  fdb_entry d entry = Ret d.
Proof.
  intros Hp Hv Hm Hl Hsame. unfold fdb_entry, getitem.
  rewrite Hp, Hv, Hm. cbn. rewrite Hl, (other_mac_all_same l mac Hsame).
  by rewrite Hl.
Qed.

Lemma fdb_entry_same_mac_dropped_witness :
  fdb_row "1/1/5/1" "200" "00:11:22:33:44:55" !! "port" = Some (Some "1/1/5/1")
  ∧ fdb_row "1/1/5/1" "200" "00:11:22:33:44:55" !! "vlan-id" = Some (Some "200")
  ∧ fdb_row "1/1/5/1" "200" "00:11:22:33:44:55" !! "mac"
    = Some (Some "00:11:22:33:44:55")
  ∧ ({[ Some "1/1/5/1" := [(Some "100", Some "00:11:22:33:44:55")] ]}
       : gmap (option string) (list (option string * option string)))
      !! Some "1/1/5/1" = Some [(Some "100", Some "00:11:22:33:44:55")]
  ∧ Forall (fun pair : option string * option string =>
              pair.2 = Some "00:11:22:33:44:55")
           [(Some "100", Some "00:11:22:33:44:55")]
  ∧ fdb_entry {[ Some "1/1/5/1" := [(Some "100", Some "00:11:22:33:44:55")] ]}
              (fdb_row "1/1/5/1" "200" "00:11:22:33:44:55")
    = Ret {[ Some "1/1/5/1" := [(Some "100", Some "00:11:22:33:44:55")] ]}.
Proof.
  assert (fdb_row "1/1/5/1" "200" "00:11:22:33:44:55" !! "port"
          = Some (Some "1/1/5/1")) as H1 by (vm_compute; reflexivity).
  assert (fdb_row "1/1/5/1" "200" "00:11:22:33:44:55" !! "vlan-id"
          = Some (Some "200")) as H2 by (vm_compute; reflexivity).
  assert (fdb_row "1/1/5/1" "200" "00:11:22:33:44:55" !! "mac"
          = Some (Some "00:11:22:33:44:55")) as H3 by (vm_compute; reflexivity).
  assert (({[ Some "1/1/5/1" := [(Some "100", Some "00:11:22:33:44:55")] ]}
             : gmap (option string) (list (option string * option string)))
            !! Some "1/1/5/1" = Some [(Some "100", Some "00:11:22:33:44:55")]) as H4
    by (vm_compute; reflexivity).
  assert (Forall (fun pair : option string * option string =>
                    pair.2 = Some "00:11:22:33:44:55")
                 [(Some "100", Some "00:11:22:33:44:55")]) as H5
    by (by repeat constructor).
  split; [done|]. split; [done|]. split; [done|]. split; [done|]. split; [done|].
  exact (fdb_entry_same_mac_dropped _ _ _ _ _ _ H1 H2 H3 H4 H5).
Defined.

Lemma ntp_fold (data : list record) :
  foldl ntp_record ∅ data
  = match omap (fun r : record => r !! "server-ip-addrv6") data with
    | [] => ∅
    | vs => {[ "server-ip-addrv6" := vs ]}
    end.
Proof.
  induction data as [|r data IH] using rev_ind; [done|].
  rewrite foldl_snoc, omap_app, IH. unfold ntp_record. cbn [omap list_omap].
  destruct (r !! "server-ip-addrv6") as [v|]; cbn [app].
  - destruct (omap _ data) as [|v0 vs].
    + by rewrite lookup_empty, insert_empty.
    + rewrite lookup_singleton_eq, insert_singleton_eq. done.
  - by rewrite app_nil_r.
Qed.

(** X8: when the lister returns the records of the reply, [get_ntp_servers]
    returns the texts of their [server-ip-addrv6] fields in document order
    under that one key, and an empty mapping when no record has the
    field; no other field of the reply appears. *)
Theorem get_ntp_servers_addresses (fromstring : string → outcome Element)
    (send_command : string → string) (data : list record) :
  convert_xml_to_list fromstring
    (_send_command send_command "show sntp server-tablev6 " true) = Ret (Some data) →
  get_ntp_servers fromstring send_command
  = Ret (match omap (fun r : record => r !! "server-ip-addrv6") data with
         | [] => ∅
         | vs => {[ "server-ip-addrv6" := vs ]}
         end).
Proof.
  intros Hdata. unfold get_ntp_servers. cbn zeta. rewrite Hdata. cbn.
  by rewrite ntp_fold.
Qed.

Lemma get_ntp_servers_addresses_witness :
  convert_xml_to_list (parses_to ntp_doc ntp_root)
    (_send_command (answering ntp_doc) "show sntp server-tablev6 " true)
  = Ret (Some ntp_rows)
  ∧ get_ntp_servers (parses_to ntp_doc ntp_root) (answering ntp_doc)
    = Ret {[ "server-ip-addrv6" := [Some "2001:db8::1"; Some "2001:db8::2"] ]}.
Proof.
  assert (convert_xml_to_list (parses_to ntp_doc ntp_root)
            (_send_command (answering ntp_doc) "show sntp server-tablev6 " true)
          = Ret (Some ntp_rows)) as H1 by (vm_compute; reflexivity).
  split; [done|].
  exact (get_ntp_servers_addresses _ _ _ H1).
Defined.

(** X9: of the optional arguments given to the driver, exactly those
    whose key is one of the fourteen Netmiko argument names are handed on,
    each with its value unchanged; any other key is left out. *)
Theorem netmiko_optional_args_lookup {V : Type} (optional_args : gmap string V)
    (k : string) :
  netmiko_optional_args optional_args !! k
  = if decide (k ∈ netmiko_argument_map) then optional_args !! k else None.
Proof.
  unfold netmiko_optional_args. generalize netmiko_argument_map. intros keys.
  induction keys as [|k' keys IH] using rev_ind.
  - cbn. rewrite lookup_empty. by rewrite decide_False by apply not_elem_of_nil.
  - rewrite foldl_snoc.
    destruct (decide (k = k')) as [->|Hne].
    + rewrite decide_True by (apply elem_of_app; right; by left).
      destruct (optional_args !! k') as [v|] eqn:Hv.
      * by rewrite lookup_insert_eq.
      * rewrite IH. by destruct (decide _).
    + assert (k ∈ keys ++ [k'] ↔ k ∈ keys) as Hiff.
      { rewrite elem_of_app, list_elem_of_singleton.
        split; [intros [?|?]; [done|congruence]|by left]. }
      destruct (optional_args !! k') as [v|];
        [rewrite lookup_insert_ne by done|]; rewrite IH;
        destruct (decide (k ∈ keys)), (decide (k ∈ keys ++ [k'])); tauto.
Qed.

(** X10: [cli] maps each command of its list to the device's reply to
    that command, and holds no other key. *)
Theorem cli_lookup (send_command : string → string) (commands : list string)
    (c : string) :
  cli send_command commands !! c
  = if decide (c ∈ commands) then Some (_send_command send_command c false)
    else None.
Proof.
  unfold cli. induction commands as [|c' cs IH] using rev_ind.
  - cbn. rewrite lookup_empty. by rewrite decide_False by apply not_elem_of_nil.
  - rewrite foldl_snoc. destruct (decide (c = c')) as [->|Hne].
    + rewrite lookup_insert_eq.
      by rewrite decide_True by (apply elem_of_app; right; by left).
    + rewrite lookup_insert_ne, IH by done.
      assert (c ∈ cs ++ [c'] ↔ c ∈ cs) as Hiff.
      { rewrite elem_of_app, list_elem_of_singleton.
        split; [intros [?|?]; [done|congruence]|by left]. }
      destruct (decide (c ∈ cs)), (decide (c ∈ cs ++ [c'])); tauto.
Qed.

(** X11: a guarded table operation, on a non-empty reply that parses and
    whose instances directly under the root have named children only,
    returns data: one record per such instance, in document order, and
    under each key the last of these records whose key field holds it. *)
Theorem keyed_table_data (fromstring : string → outcome Element)
    (send_command : string → string) (command key msg : string) (root : Element)
    (k : option string) :
  _send_command send_command command true ≠ "" →
  fromstring (sanitize (_send_command send_command command true)) = Ret root →
  Forall (fun i => Forall named (children i)) (findall_children "instance" root) →
  ∃ (records : list record) (d : gmap (option string) record),
    keyed_table fromstring send_command command key msg = Ret (Data d)
    ∧ Forall2 (fun i r => instance_fields i = Ret r)
              (findall_children "instance" root) records
    ∧ d !! k = last (filter (fun r : record => r !! key = Some k) records).
Proof.
  intros Hne Hroot Hnamed. unfold keyed_table, convert_xml_to_list. cbn zeta.
  destruct (_send_command send_command command true) as [|c0 rest] eqn:Hreply;
    [done|].
  rewrite Hroot. cbn. unfold root_instances.
  destruct (for_each_collect_total instance_fields
              (findall_children "instance" root) []) as [rs Hrs].
  { eapply Forall_impl; [exact Hnamed|]. intros i Hi.
    by apply TreeFacts.instance_fields_total. }
  rewrite Hrs. cbn. exists rs, (_convert_list_to_dict rs key).
  split; [done|]. split.
  - by apply for_each_collect in Hrs as (rs' & -> & Hall).
  - apply GrouperFacts.convert_list_to_dict_last.
Qed.

Lemma keyed_table_data_witness :
  _send_command (answering slot_doc) "show equipment slot" true ≠ ""
  ∧ parses_to slot_doc slot_root
      (sanitize (_send_command (answering slot_doc) "show equipment slot" true))
    = Ret slot_root
  ∧ Forall (fun i => Forall named (children i))
           (findall_children "instance" slot_root)
  ∧ ∃ (records : list record) (d : gmap (option string) record),
      get_equipment_slot (parses_to slot_doc slot_root) (answering slot_doc) "olt-1"
        = Ret (Data d)
      ∧ Forall2 (fun i r => instance_fields i = Ret r)
                (findall_children "instance" slot_root) records
      ∧ d !! Some "lt:1/1/1"
        = last (filter (fun r : record => r !! "slot" = Some (Some "lt:1/1/1")) records).
Proof.
  assert (_send_command (answering slot_doc) "show equipment slot" true ≠ "")
    as H1 by done.
  assert (parses_to slot_doc slot_root
            (sanitize (_send_command (answering slot_doc) "show equipment slot" true))
          = Ret slot_root) as H2 by (vm_compute; reflexivity).
  assert (Forall (fun i => Forall named (children i))
                 (findall_children "instance" slot_root)) as H3.
  { cbn. repeat constructor; by eexists. }
  split; [done|]. split; [done|]. split; [done|].
  exact (keyed_table_data _ _ "show equipment slot" "slot"
           (no_data_for "olt-1" "show equipment slot") _ _ H1 H2 H3).
Defined.

End GrouperMore.

(** ** What get_vlans returns *)

Module VlanMore.
Import Etree NokiaOltDriver Samples.

(** The first instance with an id names the VLAN; later instances with
    the same id are passed over. *)
Lemma vlan_names_first (o : Element) (v : gmap Z vlan) (z : Z) :
  vlan_names o = Ret v →
  v !! z = (fun e => Vlan (default None (field_of "name" e)) [])
           <$> head (filter (fun e => vlan_id_of "id" e = Some z)
                            (findall_deep "instance" o)).
Proof.
  unfold vlan_names. generalize (findall_deep "instance" o). intros l Hret.
  match type of Hret with for_each ?b _ _ = _ => set (body := b) in * end.
  enough (∀ l (v0 : gmap Z vlan), for_each body l v0 = Ret v →
            v !! z = match v0 !! z with
                     | Some x => Some x
                     | None => (fun e => Vlan (default None (field_of "name" e)) [])
                               <$> head (filter (fun e => vlan_id_of "id" e = Some z) l)
                     end) as Hgen.
  { rewrite (Hgen l ∅ Hret). by rewrite lookup_empty. }
  clear l Hret. intros l. induction l as [|e l IH]; intros v0 Hret.
  - cbn in Hret. simplify_eq. by destruct (v !! z).
  - cbn [for_each] in Hret. apply bind_ret in Hret as (v1 & Hb & Hret).
    rewrite (IH v1 Hret). unfold body in Hb.
    apply bind_ret in Hb as (d & Hd & Hb).
    apply bind_ret in Hb as (id & Hid & Hb).
    apply bind_ret in Hb as (pk & Hpk & Hb).
    assert (vlan_id_of "id" e = Some pk) as Hvid.
    { unfold vlan_id_of. rewrite Hd. unfold getitem in Hid.
      destruct (d !! "id"); [|done]. simplify_eq. by rewrite Hpk. }
    destruct (v0 !! pk) as [x|] eqn:Hlook.
    + simplify_eq. destruct (decide (z = pk)) as [->|Hne]; [by rewrite Hlook|].
      rewrite filter_cons_False by (rewrite Hvid; congruence). done.
    + apply bind_ret in Hb as (name & Hname & Hb). cbn in Hb. simplify_eq.
      destruct (decide (z = pk)) as [->|Hne].
      * rewrite lookup_insert_eq, Hlook, filter_cons_True by done. cbn.
        unfold field_of. rewrite Hd. unfold getitem in Hname.
        destruct (d !! "name"); [|done]. by simplify_eq.
      * rewrite lookup_insert_ne by done.
        rewrite filter_cons_False by (rewrite Hvid; congruence). done.
Qed.

Lemma vlan_tagging_inv (v v' : gmap Z vlan) (e : Element) :
  vlan_tagging v e = Ret v' →
  ∃ z0 port,
    vlan_id_of "vlan-id" e = Some z0 ∧ port_of e = Some port
    ∧ if appends e
      then ∃ ent, v !! z0 = Some ent
                  ∧ v' = <[z0 := Vlan (vlan_name ent) (vlan_interfaces ent ++ [port])]> v
      else v' = v.
Proof.
  intros Hbody. unfold vlan_tagging in Hbody.
  apply bind_ret in Hbody as (d & Hd & Hbody).
  apply bind_ret in Hbody as (id & Hid & Hbody).
  apply bind_ret in Hbody as (z0 & Hz0 & Hbody).
  apply bind_ret in Hbody as (port_raw & Hraw & Hbody).
  apply bind_ret in Hbody as (port_s & Hs & Hbody).
  apply bind_ret in Hbody as (port & Hport & Hbody).
  apply bind_ret in Hbody as (mode & Hmode & Hbody).
  apply bind_ret in Hbody as (mode_s & Hmode_s & Hbody).
  exists z0, port. split; [|split].
  - unfold vlan_id_of. rewrite Hd. unfold getitem in Hid.
    destruct (d !! "vlan-id"); [|done]. simplify_eq. by rewrite Hz0.
  - unfold port_of, field_of. rewrite Hd. unfold getitem in Hraw.
    destruct (d !! "vlan-port"); [|done]. simplify_eq.
    destruct port_raw; [|done]. cbn in Hs. simplify_eq.
    unfold list_item in Hport.
    destruct (str_split_on ":" port_s !! 1%nat); [|done]. by simplify_eq.
  - assert (appends e = transmits mode_s) as ->.
    { unfold appends. rewrite Hd. unfold getitem in Hmode.
      destruct (d !! "transmit-mode"); [|done]. simplify_eq.
      destruct mode; [|done]. cbn in Hmode_s. by simplify_eq. }
    destruct (transmits mode_s); [|by simplify_eq].
    apply bind_ret in Hbody as (ent & Hent & Hbody). cbn in Hbody. simplify_eq.
    unfold getitem in Hent. destruct (v !! z0) as [ent'|]; [|done].
    simplify_eq. by exists ent.
Qed.

Lemma vlan_tagging_fold (l : list Element) (v0 v : gmap Z vlan) (z : Z) :
  for_each vlan_tagging l v0 = Ret v →
  v !! z = (fun ent => Vlan (vlan_name ent)
                         (vlan_interfaces ent
                          ++ omap port_of
                               (filter (fun e => appends e = true
                                                 ∧ vlan_id_of "vlan-id" e = Some z) l)))
           <$> v0 !! z.
Proof.
  revert v0. induction l as [|e l IH]; intros v0 Hret.
  - cbn in Hret. simplify_eq. destruct (v !! z) as [[n i]|]; [|done].
    cbn. by rewrite app_nil_r.
  - cbn [for_each] in Hret. apply bind_ret in Hret as (v1 & Hb & Hret).
    rewrite (IH v1 Hret).
    apply vlan_tagging_inv in Hb as (z0 & port & Hvid & Hport & Hb).
    destruct (appends e) eqn:Happ.
    + destruct Hb as (ent & Hent & ->).
      destruct (decide (z = z0)) as [->|Hne].
      * rewrite lookup_insert_eq, Hent. rewrite filter_cons_True by done. cbn.
        rewrite Hport. by rewrite <- app_assoc.
      * rewrite lookup_insert_ne by done.
        rewrite filter_cons_False by (rewrite Hvid; intros [_ ?]; congruence).
        done.
    + subst v1. rewrite filter_cons_False by (intros [? _]; congruence). done.
Qed.

(** X12: when [get_vlans] returns, VLAN [z] is in the result exactly when
    the vlan-name reply has an instance with id [z]; its name is that of
    the first such instance, and its interfaces are the ports of the
    tagging instances for [z] whose transmit mode mentions [single-tagged]
    or [untagged], in document order. The tagging reply adds no VLAN. *)
Theorem get_vlans_result (fromstring : string → outcome Element)
    (send_command : string → string) (o t : Element) (vlans : gmap Z vlan)
    (z : Z) :
  fromstring (_send_command send_command "show vlan name" true) = Ret o →
  fromstring (_send_command send_command "show vlan residential-bridge extensive" true)
    = Ret t →
  get_vlans fromstring send_command = Ret vlans →
  vlans !! z
  = (fun e => Vlan (default None (field_of "name" e))
                (omap port_of
                   (filter (fun e => appends e = true
                                     ∧ vlan_id_of "vlan-id" e = Some z)
                           (findall_deep "instance" t))))
    <$> head (filter (fun e => vlan_id_of "id" e = Some z)
                     (findall_deep "instance" o)).
Proof.
  intros Ho Ht Hret. unfold get_vlans in Hret. cbn zeta in Hret.
  rewrite Ho, Ht in Hret. cbn [mbind outcome_bind] in Hret.
  unfold merge_vlans in Hret. apply bind_ret in Hret as (v0 & Hv0 & Hret).
  rewrite (vlan_tagging_fold _ _ _ z Hret), (vlan_names_first o v0 z Hv0).
  by destruct (head _).
Qed.

Lemma get_vlans_result_witness :
  vlan_parser (_send_command (vlan_device (tagging_doc "10" "untagged"))
                             "show vlan name" true) = Ret vlan_10
  ∧ vlan_parser (_send_command (vlan_device (tagging_doc "10" "untagged"))
                               "show vlan residential-bridge extensive" true)
    = Ret vlan_10_untagged
  ∧ get_vlans vlan_parser (vlan_device (tagging_doc "10" "untagged"))
    = Ret {[ 10%Z := Vlan (Some "mgmt") ["1/1/1/16/29/1/2"] ]}
  ∧ ({[ 10%Z := Vlan (Some "mgmt") ["1/1/1/16/29/1/2"] ]} : gmap Z vlan) !! 10%Z
    = (fun e => Vlan (default None (field_of "name" e))
                  (omap port_of
                     (filter (fun e => appends e = true
                                       ∧ vlan_id_of "vlan-id" e = Some 10%Z)
                             (findall_deep "instance" vlan_10_untagged))))
      <$> head (filter (fun e => vlan_id_of "id" e = Some 10%Z)
                       (findall_deep "instance" vlan_10)).
Proof.
  assert (vlan_parser (_send_command (vlan_device (tagging_doc "10" "untagged"))
                                     "show vlan name" true) = Ret vlan_10) as H1
    by (vm_compute; reflexivity).
  assert (vlan_parser (_send_command (vlan_device (tagging_doc "10" "untagged"))
                         "show vlan residential-bridge extensive" true)
          = Ret vlan_10_untagged) as H2 by (vm_compute; reflexivity).
  assert (get_vlans vlan_parser (vlan_device (tagging_doc "10" "untagged"))
          = Ret {[ 10%Z := Vlan (Some "mgmt") ["1/1/1/16/29/1/2"] ]}) as H3
    by (vm_compute; reflexivity).
  split; [done|]. split; [done|]. split; [done|].
  exact (get_vlans_result _ _ _ _ _ 10%Z H1 H2 H3).
Defined.

End VlanMore.

(** ** The interface sort *)

Module SortFacts.
Import Etree NokiaOltDriver Samples.

Lemma key_lt_asym (a b : list Z) : key_lt a b = true → key_lt b a = false.
Proof.
  revert b. induction a as [|x a IH]; intros [|y b]; cbn; try done.
  intros H. apply orb_true_iff in H as [H|H].
  - apply Z.ltb_lt in H. apply orb_false_iff. split; [apply Z.ltb_ge; lia|].
    apply andb_false_iff. left. apply Z.eqb_neq. lia.
  - apply andb_true_iff in H as [Heq H]. apply Z.eqb_eq in Heq. subst y.
    rewrite Z.ltb_irrefl, Z.eqb_refl. cbn. by apply IH.
Qed.

Lemma insert_by_key_perm x l : insert_by_key x l ≡ₚ x :: l.
Proof.
  induction l as [|y l IH]; [done|]. cbn [insert_by_key].
  destruct (key_lt x.1 y.1); [done|]. rewrite IH. apply Permutation_swap.
Qed.

Lemma insert_by_key_hd x y l :
  key_le y x → HdRel key_le y l → HdRel key_le y (insert_by_key x l).
Proof.
  intros Hyx Hhd. destruct l as [|z l]; cbn [insert_by_key]; [by constructor|].
  destruct (key_lt x.1 z.1); constructor; [done|]. by inv Hhd.
Qed.

Lemma insert_by_key_sorted x l :
  Sorted key_le l → Sorted key_le (insert_by_key x l).
Proof.
  induction 1 as [|y l Hl IH Hhd]; cbn [insert_by_key]; [by repeat constructor|].
  destruct (key_lt x.1 y.1) eqn:Hlt.
  - constructor; [by constructor|]. constructor. by apply key_lt_asym.
  - constructor; [done|]. by apply insert_by_key_hd.
Qed.

Lemma insertion_fold (l acc : list (list Z * string)) :
  Sorted key_le acc →
  foldl (fun acc x => insert_by_key x acc) acc l ≡ₚ acc ++ l
  ∧ Sorted key_le (foldl (fun acc x => insert_by_key x acc) acc l).
Proof.
  revert acc. induction l as [|x l IH]; intros acc Hacc.
  - cbn. by rewrite app_nil_r.
  - cbn [foldl]. destruct (IH (insert_by_key x acc)) as [Hp Hs];
      [by apply insert_by_key_sorted|].
    split; [|done]. rewrite Hp, insert_by_key_perm. cbn [app].
    apply Permutation_middle.
Qed.

Lemma port_key_text p kp : port_key p = Ret kp → p = Some kp.2.
Proof.
  unfold port_key. intros H. apply bind_ret in H as (s & Hs & H).
  apply bind_ret in H as (ks & _ & H). cbn in H. simplify_eq.
  destruct p as [s'|]; cbn in Hs; by simplify_eq.
Qed.

Lemma sort_ports_ret (port_list : list (option string)) (out : list string) :
  sort_ports port_list = Ret out →
  ∃ sorted : list (list Z * string),
    out = sorted.*2
    ∧ Some <$> out ≡ₚ port_list
    ∧ Forall (fun kp => port_key (Some kp.2) = Ret kp) sorted
    ∧ Sorted key_le sorted.
Proof.
  unfold sort_ports. intros H. apply bind_ret in H as (keyed & Hkeyed & H).
  cbn in H. simplify_eq.
  apply for_each_collect in Hkeyed as (keyed' & -> & Hall). cbn [app].
  unfold sort_by_key.
  destruct (insertion_fold keyed' []) as [Hperm Hsorted]; [constructor|].
  cbn [app] in Hperm.
  exists (foldl (fun acc x => insert_by_key x acc) [] keyed').
  split; [done|]. split; [|split; [|done]].
  - rewrite Hperm.
    assert (port_list = Some <$> keyed'.*2) as ->; [|done].
    clear Hperm Hsorted. induction Hall as [|p kp ps kps Hp _ IH]; [done|].
    cbn. by rewrite (port_key_text p kp Hp), <- IH.
  - rewrite Hperm. clear Hperm Hsorted.
    induction Hall as [|p kp ps kps Hp _ IH]; constructor; [|done].
    by rewrite <- (port_key_text p kp Hp).
Qed.

(** X13: when the interface sort returns, its result is a rearrangement
    of the port texts it was given (none lost, none added, none without
    text), ordered by the lists of integers their slash-separated parts
    spell: no port's key is before the key of the port in front of it. *)
Theorem sort_ports_sorted (port_list : list (option string)) (out : list string) :
  sort_ports port_list = Ret out →
  Some <$> out ≡ₚ port_list
  ∧ ∃ sorted : list (list Z * string),
      out = sorted.*2
      ∧ Forall (fun kp => port_key (Some kp.2) = Ret kp) sorted
      ∧ Sorted key_le sorted.
Proof.
  intros H. apply sort_ports_ret in H as (sorted & -> & Hperm & Hkeys & Hsorted).
  split; [done|]. by exists sorted.
Qed.

Lemma sort_ports_sorted_witness :
  sort_ports [Some "1/1/1/10"; Some "1/1/1/2"; Some "1/1/1/1"]
    = Ret ["1/1/1/1"; "1/1/1/2"; "1/1/1/10"]
  ∧ Some <$> ["1/1/1/1"; "1/1/1/2"; "1/1/1/10"]
    ≡ₚ [Some "1/1/1/10"; Some "1/1/1/2"; Some "1/1/1/1"]
  ∧ ∃ sorted : list (list Z * string),
      ["1/1/1/1"; "1/1/1/2"; "1/1/1/10"] = sorted.*2
      ∧ Forall (fun kp => port_key (Some kp.2) = Ret kp) sorted
      ∧ Sorted key_le sorted.
Proof.
  assert (sort_ports [Some "1/1/1/10"; Some "1/1/1/2"; Some "1/1/1/1"]
          = Ret ["1/1/1/1"; "1/1/1/2"; "1/1/1/10"]) as H1
    by (vm_compute; reflexivity).
  split; [done|]. exact (sort_ports_sorted _ _ H1).
Defined.

End SortFacts.

(** ** More on get_facts *)

Module FactsMore.
Import Etree NokiaOltDriver Samples.

Lemma flatten_total (elem : Element) :
  flattenable elem → ∃ d, _convert_xml_elem_to_dict elem = Ret d.
Proof.
  intros Hall.
  apply (filing_total (has_tag "instance") field_key text);
    [apply TreeMore.flatten_body_spec|].
  eapply Forall_impl; [exact Hall|]. intros e He Htag.
  by apply TreeMore.field_key_named, He.
Qed.






Lemma facts_hostname_total h (f : gmap string pyval) :
  Forall flattenable (findall_deep_named "hierarchy" "isam" h) →
  ∃ f', facts_hostname h f = Ret f' ∧ f' !! "model" = f !! "model".
Proof.
  intros Hall.
  destruct (for_each_total (fun g : gmap string pyval => g !! "model" = f !! "model")
              (fun facts elem =>
                 dummy_data ← _convert_xml_elem_to_dict elem;
                 match dummy_data !! "description" with
                 | Some hostname =>
                     Ret (<["interface_list" := VList []]>
                         (<["fqdn" := VStr "Unknown"]>
                         (<["serial_number" := VStr ""]>
                         (<["os_version" := VStr ""]>
                         (<["uptime" := VStr ""]>
                         (<["vendor" := VStr "Nokia"]>
                         (<["hostname" := of_text hostname]> facts)))))))
                 | None => Ret facts
                 end)
              (findall_deep_named "hierarchy" "isam" h) f) as (f' & Hf' & Hm);
    [done| |by exists f'].
  intros g e He Hg.
  destruct (flatten_total e (proj1 (Forall_forall _ _) Hall e He)) as [d Hd].
  rewrite Hd. cbn. destruct (d !! "description"); eexists; (split; [done|]); [|done].
  by rewrite !lookup_insert_ne.
Qed.

Lemma facts_os_total o (f : gmap string pyval) :
  Forall flattenable (findall_deep_named "hierarchy" "ansi" o) →
  ∃ f', facts_os o f = Ret f' ∧ f' !! "model" = f !! "model".
Proof.
  intros Hall.
  destruct (for_each_total (fun g : gmap string pyval => g !! "model" = f !! "model")
              (fun facts elem =>
                 dummy_data ← _convert_xml_elem_to_dict elem;
                 match dummy_data !! "isam-feature-group" with
                 | Some os_version => Ret (<["os_version" := of_text os_version]> facts)
                 | None => Ret facts
                 end)
              (findall_deep_named "hierarchy" "ansi" o) f) as (f' & Hf' & Hm);
    [done| |by exists f'].
  intros g e He Hg.
  destruct (flatten_total e (proj1 (Forall_forall _ _) Hall e He)) as [d Hd].
  rewrite Hd. cbn. destruct (d !! "isam-feature-group"); eexists; (split; [done|]);
    [|done].
  by rewrite lookup_insert_ne.
Qed.

Lemma facts_shelf_type_error s (f : gmap string pyval) :
  f !! "model" = Some VNone →
  Forall flattenable (findall_deep_named "hierarchy" "shelf" s) →
  supplies "variant" (findall_deep_named "hierarchy" "shelf" s) = true →
  facts_shelf s f = Raise TypeError.
Proof.
  unfold facts_shelf, supplies.
  generalize (findall_deep_named "hierarchy" "shelf" s). intros l.
  revert f. induction l as [|e l IH]; intros f Hm Hall Hsup; [done|].
  apply Forall_cons in Hall as [He Hall].
  destruct (flatten_total e He) as [d Hd].
  cbn [for_each]. rewrite Hd. cbn [mbind outcome_bind]. cbn zeta.
  cbn [existsb] in Hsup. unfold supplied at 1 in Hsup. rewrite Hd in Hsup.
  destruct (d !! "variant") as [variant|] eqn:Hvar.
  - unfold getitem.
    destruct (d !! "serial-no");
      [rewrite lookup_insert_ne by done|]; by rewrite Hm.
  - rewrite bool_decide_eq_false_2 in Hsup by (by intros [? ?]).
    cbn [orb] in Hsup. cbn [mbind outcome_bind].
    apply IH; [|done|done].
    destruct (d !! "serial-no"); [by rewrite lookup_insert_ne|done].
Qed.

(** X15: when the display-config reply has no Copyright line naming NOKIA
    (so there is no model) while an element of the shelf reply supplies a
    variant, and the replies parse and their isam, ansi and shelf nodes
    can be flattened, [get_facts] raises [TypeError]: it appends the
    variant to a model that is [None]. *)
Theorem get_facts_variant_without_model (fromstring : string → outcome Element)
    (send_command : string → string) (h o s p : Element) :
  make_device_model (_send_command send_command "admin display-config" false)
    = Ret None →
  fromstring (_send_command send_command "show equipment isam detail" true) = Ret h →
  fromstring (_send_command send_command "show software-mngt version ansi" true) = Ret o →
  fromstring (_send_command send_command "show equipment shelf 1/1 detail" true) = Ret s →
  fromstring (_send_command send_command "show equipment ont interface" true) = Ret p →
  Forall flattenable (findall_deep_named "hierarchy" "isam" h) →
  Forall flattenable (findall_deep_named "hierarchy" "ansi" o) →
  Forall flattenable (findall_deep_named "hierarchy" "shelf" s) →
  supplies "variant" (findall_deep_named "hierarchy" "shelf" s) = true →
  get_facts fromstring send_command = Raise TypeError.
Proof.
  intros Hm Hh Ho Hs Hp Fh Fo Fs Hvar. unfold get_facts. cbn zeta.
  rewrite Hm, Hh, Ho, Hs, Hp. cbn [mbind outcome_bind]. unfold merge_facts.
  destruct (facts_hostname_total h {[ "model" := of_text None ]} Fh) as (f1 & -> & Hm1).
  cbn [mbind outcome_bind].
  destruct (facts_os_total o f1 Fo) as (f2 & -> & Hm2). cbn [mbind outcome_bind].
  rewrite (facts_shelf_type_error s f2); [done| |done|done].
  by rewrite Hm2, Hm1, lookup_singleton_eq.
Qed.

Lemma get_facts_variant_without_model_witness :
  make_device_model (_send_command modelless_device "admin display-config" false)
    = Ret None
  ∧ facts_parser (_send_command modelless_device "show equipment isam detail" true)
    = Ret isam_root
  ∧ facts_parser (_send_command modelless_device "show software-mngt version ansi" true)
    = Ret empty_root
  ∧ facts_parser (_send_command modelless_device "show equipment shelf 1/1 detail" true)
    = Ret shelf_root
  ∧ facts_parser (_send_command modelless_device "show equipment ont interface" true)
    = Ret empty_root
  ∧ Forall flattenable (findall_deep_named "hierarchy" "isam" isam_root)
  ∧ Forall flattenable (findall_deep_named "hierarchy" "ansi" empty_root)
  ∧ Forall flattenable (findall_deep_named "hierarchy" "shelf" shelf_root)
  ∧ supplies "variant" (findall_deep_named "hierarchy" "shelf" shelf_root) = true
  ∧ get_facts facts_parser modelless_device = Raise TypeError.
Proof.
  assert (make_device_model (_send_command modelless_device "admin display-config" false)
          = Ret None) as H1 by (vm_compute; reflexivity).
  assert (facts_parser (_send_command modelless_device "show equipment isam detail" true)
          = Ret isam_root) as H2 by (vm_compute; reflexivity).
  assert (facts_parser (_send_command modelless_device "show software-mngt version ansi" true)
          = Ret empty_root) as H3 by (vm_compute; reflexivity).
  assert (facts_parser (_send_command modelless_device "show equipment shelf 1/1 detail" true)
          = Ret shelf_root) as H4 by (vm_compute; reflexivity).
  assert (facts_parser (_send_command modelless_device "show equipment ont interface" true)
          = Ret empty_root) as H5 by (vm_compute; reflexivity).
  assert (Forall flattenable (findall_deep_named "hierarchy" "isam" isam_root)) as H6.
  { cbn. repeat constructor; intros _; by eexists. }
  assert (Forall flattenable (findall_deep_named "hierarchy" "ansi" empty_root)) as H7
    by (cbn; constructor).
  assert (Forall flattenable (findall_deep_named "hierarchy" "shelf" shelf_root)) as H8.
  { cbn. repeat constructor; intros _; by eexists. }
  assert (supplies "variant" (findall_deep_named "hierarchy" "shelf" shelf_root) = true)
    as H9 by (vm_compute; reflexivity).
  repeat (split; [done|]).
  exact (get_facts_variant_without_model _ _ _ _ _ _ H1 H2 H3 H4 H5 H6 H7 H8 H9).
Defined.

(** *** make_device_model *)

Lemma list_find_first (t1 rest : list string) :
  "NOKIA" ∉ t1 →
  list_find (fun w : string => bool_decide (w = "NOKIA")) (t1 ++ "NOKIA" :: rest)
  = Some (length t1, "NOKIA").
Proof.
  induction t1 as [|w t1 IH]; intros Hnot; [done|].
  cbn [app list_find]. rewrite decide_False.
  - rewrite IH; [done|]. intros Hin. apply Hnot. by right.
  - intros Hw. apply bool_decide_unpack in Hw. subst w. apply Hnot. by left.
Qed.

Lemma list_find_absent (ws : list string) :
  "NOKIA" ∉ ws →
  list_find (fun w : string => bool_decide (w = "NOKIA")) ws = None.
Proof.
  induction ws as [|w ws IH]; intros Hnot; [done|].
  cbn [list_find]. rewrite decide_False.
  - rewrite IH; [done|]. intros Hin. apply Hnot. by right.
  - intros Hw. apply bool_decide_unpack in Hw. subst w. apply Hnot. by left.
Qed.

(** One step of the loop of [make_device_model]. *)
Ltac model_line := cbn [app]; lazy beta iota fix.

(** X16: the device model is read from the first line of the
    display-config reply that mentions both [Copyright] and [NOKIA]: it is
    the two words that follow the first word [NOKIA] of that line, joined
    by a space; later lines are not looked at. *)
Theorem make_device_model_reads (data : string) (pre post : list string)
    (line : string) (t1 t2 : list string) (a b : string) :
  data ≠ "" →
  str_splitlines data = pre ++ line :: post →
  Forall (fun l => copyright_line l = false) pre →
  copyright_line line = true →
  str_split line = t1 ++ "NOKIA" :: a :: b :: t2 →
  "NOKIA" ∉ t1 →
  make_device_model data = Ret (Some (a +:+ " " +:+ b)).
Proof.
  intros Hdata Hlines Hpre Hline Hwords Hfirst. unfold make_device_model.
  rewrite bool_decide_eq_false_2 by done. rewrite Hlines. clear Hlines.
  unfold copyright_line in *.
  induction Hpre as [|l pre Hl _ IH]; model_line; [|rewrite Hl; exact IH].
  rewrite Hline. cbn zeta.
  rewrite Hwords, (list_find_first t1 (a :: b :: t2) Hfirst).
  unfold list_item.
  rewrite !(lookup_app_r t1) by lia.
  replace (length t1 + 1 - length t1) with 1 by lia.
  replace (length t1 + 2 - length t1) with 2 by lia. reflexivity.
Qed.

Lemma make_device_model_reads_witness :
  "# TiMOS" +:+ String LF "# Copyright (c) NOKIA 7360 ISAM FX" ≠ ""
  ∧ str_splitlines ("# TiMOS" +:+ String LF "# Copyright (c) NOKIA 7360 ISAM FX")
    = ["# TiMOS"] ++ "# Copyright (c) NOKIA 7360 ISAM FX" :: []
  ∧ Forall (fun l => copyright_line l = false) ["# TiMOS"]
  ∧ copyright_line "# Copyright (c) NOKIA 7360 ISAM FX" = true
  ∧ str_split "# Copyright (c) NOKIA 7360 ISAM FX"
    = ["#"; "Copyright"; "(c)"] ++ "NOKIA" :: "7360" :: "ISAM" :: ["FX"]
  ∧ ("NOKIA" ∉ ["#"; "Copyright"; "(c)"])
  ∧ make_device_model ("# TiMOS" +:+ String LF "# Copyright (c) NOKIA 7360 ISAM FX")
    = Ret (Some ("7360" +:+ " " +:+ "ISAM")).
Proof.
  assert ("# TiMOS" +:+ String LF "# Copyright (c) NOKIA 7360 ISAM FX" ≠ "") as H1
    by done.
  assert (str_splitlines ("# TiMOS" +:+ String LF "# Copyright (c) NOKIA 7360 ISAM FX")
          = ["# TiMOS"] ++ "# Copyright (c) NOKIA 7360 ISAM FX" :: []) as H2
    by (vm_compute; reflexivity).
  assert (Forall (fun l => copyright_line l = false) ["# TiMOS"]) as H3
    by (by repeat constructor).
  assert (copyright_line "# Copyright (c) NOKIA 7360 ISAM FX" = true) as H4
    by (vm_compute; reflexivity).
  assert (str_split "# Copyright (c) NOKIA 7360 ISAM FX"
          = ["#"; "Copyright"; "(c)"] ++ "NOKIA" :: "7360" :: "ISAM" :: ["FX"]) as H5
    by (vm_compute; reflexivity).
  assert ("NOKIA" ∉ ["#"; "Copyright"; "(c)"]) as H6.
  { intros Hin. repeat (apply elem_of_cons in Hin as [Hin|Hin]; [discriminate|]).
    by apply elem_of_nil in Hin. }
  repeat (split; [done|]).
  exact (make_device_model_reads _ _ _ _ _ _ _ _ H1 H2 H3 H4 H5 H6).
Defined.

(** X17: when the first line that mentions both [Copyright] and [NOKIA]
    has no word that is exactly [NOKIA] (the text is part of a longer
    word), [make_device_model] raises [ValueError]. *)
Theorem make_device_model_value_error (data : string) (pre post : list string)
    (line : string) :
  data ≠ "" →
  str_splitlines data = pre ++ line :: post →
  Forall (fun l => copyright_line l = false) pre →
  copyright_line line = true →
  "NOKIA" ∉ str_split line →
  make_device_model data = Raise ValueError.
Proof.
  intros Hdata Hlines Hpre Hline Hwords. unfold make_device_model.
  rewrite bool_decide_eq_false_2 by done. rewrite Hlines. clear Hlines.
  unfold copyright_line in *.
  induction Hpre as [|l pre Hl _ IH]; model_line; [|rewrite Hl; exact IH].
  rewrite Hline. cbn zeta.
  by rewrite (list_find_absent _ Hwords).
Qed.

Lemma make_device_model_value_error_witness :
  "# Copyright NOKIA-7360 ISAM" ≠ ""
  ∧ str_splitlines "# Copyright NOKIA-7360 ISAM" = [] ++ "# Copyright NOKIA-7360 ISAM" :: []
  ∧ Forall (fun l => copyright_line l = false) []
  ∧ copyright_line "# Copyright NOKIA-7360 ISAM" = true
  ∧ ("NOKIA" ∉ str_split "# Copyright NOKIA-7360 ISAM")
  ∧ make_device_model "# Copyright NOKIA-7360 ISAM" = Raise ValueError.
Proof.
  assert ("# Copyright NOKIA-7360 ISAM" ≠ "") as H1 by done.
  assert (str_splitlines "# Copyright NOKIA-7360 ISAM"
          = [] ++ "# Copyright NOKIA-7360 ISAM" :: []) as H2
    by (vm_compute; reflexivity).
  assert (Forall (fun l => copyright_line l = false) []) as H3 by constructor.
  assert (copyright_line "# Copyright NOKIA-7360 ISAM" = true) as H4
    by (vm_compute; reflexivity).
  assert ("NOKIA" ∉ str_split "# Copyright NOKIA-7360 ISAM") as H5.
  { assert (str_split "# Copyright NOKIA-7360 ISAM"
            = ["#"; "Copyright"; "NOKIA-7360"; "ISAM"]) as -> by (vm_compute; reflexivity).
    intros Hin. repeat (apply elem_of_cons in Hin as [Hin|Hin]; [discriminate|]).
    by apply elem_of_nil in Hin. }
  repeat (split; [done|]).
  exact (make_device_model_value_error _ _ _ _ H1 H2 H3 H4 H5).
Defined.

(** *** The uptime line *)

Lemma uptime_body (facts : gmap string pyval) (line : string) :
  (short_uptime_line line = false →
   ∃ facts',
     (let split_line := str_split line in
      match split_line with
      | [] => Ret facts
      | first :: _ =>
          if str_contains "System" first then
            second ← list_item split_line 1;
            if str_contains "Up" second then
              rest ← pop_front 4 split_line;
              Ret (<["uptime" := VStr (str_join " " rest)]> facts)
            else Ret facts
          else Ret facts
      end) = Ret facts')
  ∧ (short_uptime_line line = true →
     (let split_line := str_split line in
      match split_line with
      | [] => Ret facts
      | first :: _ =>
          if str_contains "System" first then
            second ← list_item split_line 1;
            if str_contains "Up" second then
              rest ← pop_front 4 split_line;
              Ret (<["uptime" := VStr (str_join " " rest)]> facts)
            else Ret facts
          else Ret facts
      end) = Raise IndexError).
Proof.
  unfold short_uptime_line. cbn zeta.
  destruct (str_split line) as [|first rest]; [split; [by eexists|done]|].
  destruct (str_contains "System" first); cbn [andb]; [|split; [by eexists|done]].
  destruct rest as [|second rest]; [split; done|].
  cbn [list_item lookup list_lookup mbind outcome_bind].
  destruct (str_contains "Up" second); cbn [andb]; [|split; [by eexists|done]].
  destruct rest as [|t3 [|t4 rest]]; cbn; split; try done; by eexists.
Qed.

(** X18: the uptime loop of [get_facts] returns exactly when no line of
    the uptime reply runs out of words (a first word mentioning [System]
    with no second word, or with a second word mentioning [Up] and fewer
    than four words in all); such a line makes it raise [IndexError], and
    it raises nothing else. *)
Theorem facts_uptime_returns_iff (uptime_output : string)
    (facts : gmap string pyval) :
  (Forall (fun line => short_uptime_line line = false)
          (str_splitlines uptime_output) →
   ∃ facts', facts_uptime uptime_output facts = Ret facts')
  ∧ (¬ Forall (fun line => short_uptime_line line = false)
              (str_splitlines uptime_output) →
     facts_uptime uptime_output facts = Raise IndexError).
Proof.
  unfold facts_uptime. generalize (str_splitlines uptime_output). intros lines.
  split.
  - intros Hall.
    match goal with |- ∃ _, for_each ?b _ _ = _ =>
      destruct (for_each_total (fun _ => True) b lines facts) as (f' & Hf' & _);
        [done| |by exists f'] end.
    intros f line Hin _.
    destruct (proj1 (uptime_body f line)
                (proj1 (Forall_forall _ _) Hall line Hin)) as [f' Hf'].
    by exists f'.
  - intros Hnot.
    match goal with |- ?loop = _ => destruct loop as [f'|e] eqn:Hloop end.
    + destruct Hnot.
      apply (for_each_ret (fun _ => True)
               (fun line => short_uptime_line line = false)) in Hloop as [_ H];
        [done|done|].
      intros f line f1 _ _ Hbody. split; [done|].
      destruct (short_uptime_line line) eqn:Hshort; [|done].
      assert (Ret f1 = Raise IndexError) as Habs; [|done].
      rewrite <- Hbody. exact (proj2 (uptime_body f line) Hshort).
    + f_equal.
      match type of Hloop with for_each ?b _ _ = _ =>
        apply (GrouperMore.for_each_raise_only (fun e => e = IndexError)
                 b lines facts e); [|exact Hloop] end.
      intros f line e0 Hbody.
      destruct (short_uptime_line line) eqn:Hshort.
      * assert (@Raise (gmap string pyval) e0 = Raise IndexError) as Heq;
          [|by simplify_eq].
        rewrite <- Hbody. exact (proj2 (uptime_body f line) Hshort).
      * destruct (proj1 (uptime_body f line) Hshort) as [f1 Hf1].
        assert (@Raise (gmap string pyval) e0 = Ret f1) as Habs; [|done].
        rewrite <- Hbody. exact Hf1.
Qed.

End FactsMore.

(** ** Words and the whitespace split *)

Module WordFacts.
Import NokiaOltDriver Samples.

Lemma rev_app_empty (a b : string) :
  String.rev_app a b = "" → a = "" ∧ b = "".
Proof.
  revert b. induction a as [|c a IH]; intros b H; [done|].
  cbn [String.rev_app] in H. by destruct (IH _ H).
Qed.

Lemma str_all_rev_app (p : ascii → bool) (a b : string) :
  str_all p (String.rev_app a b) = str_all p a && str_all p b.
Proof.
  revert b. induction a as [|c a IH]; intros b; [done|].
  cbn [String.rev_app str_all]. rewrite IH. cbn [str_all].
  destruct (p c), (str_all p a), (str_all p b); done.
Qed.

Lemma is_word_spec (w : string) :
  is_word w = true ↔ w ≠ "" ∧ str_all (fun c => negb (py_isspace c)) w = true.
Proof.
  unfold is_word. rewrite andb_true_iff, negb_true_iff, String.eqb_neq. done.
Qed.

Lemma is_word_rev (c : string) :
  c ≠ "" → str_all (fun c => negb (py_isspace c)) c = true →
  is_word (str_rev c) = true.
Proof.
  intros Hne Hall. apply is_word_spec. split.
  - intros H. by apply rev_app_empty in H as [? _].
  - unfold str_rev, String.rev. by rewrite str_all_rev_app, Hall.
Qed.

(** Every piece of the whitespace split is a word. *)
Lemma split_go_words (cur : option string) (s : string) :
  (∀ c, cur = Some c →
        c ≠ "" ∧ str_all (fun c => negb (py_isspace c)) c = true) →
  Forall (fun w => is_word w = true) (split_go cur s).
Proof.
  revert cur. induction s as [|a s IH]; intros cur Hcur.
  - cbn [split_go]. destruct cur as [c|]; cbn; [|constructor].
    destruct (Hcur c eq_refl). constructor; [by apply is_word_rev|constructor].
  - cbn [split_go]. destruct (py_isspace a) eqn:Ha.
    + apply Forall_app. split.
      * destruct cur as [c|]; cbn; [|constructor].
        destruct (Hcur c eq_refl).
        constructor; [by apply is_word_rev|constructor].
      * apply IH. intros c Hc. discriminate.
    + apply IH. intros c Hc. simplify_eq. split; [done|].
      cbn [str_all]. rewrite Ha. cbn.
      destruct cur as [c|]; cbn; [|done]. by destruct (Hcur c eq_refl).
Qed.

Lemma str_split_words (s : string) :
  Forall (fun w => is_word w = true) (str_split s).
Proof. apply split_go_words. intros c Hc. discriminate. Qed.

(** A word at the front of the text goes into the current piece. *)
Lemma split_go_word (w : string) (cur : option string) (s : string) :
  w ≠ "" → str_all (fun c => negb (py_isspace c)) w = true →
  split_go cur (w +:+ s) = split_go (Some (String.rev_app w (default "" cur))) s.
Proof.
  revert cur. induction w as [|c w IH]; intros cur Hne Hall; [done|].
  cbn [str_all] in Hall. apply andb_true_iff in Hall as [Hc Hall].
  apply negb_true_iff in Hc.
  change (String c w +:+ s) with (String c (w +:+ s)).
  cbn [split_go String.rev_app]. rewrite Hc.
  destruct w as [|d w]; [done|].
  by rewrite IH.
Qed.

(** Splitting the words joined by single spaces gives the words back. *)
Lemma split_join (ws : list string) :
  Forall (fun w => is_word w = true) ws →
  str_split (str_join " " ws) = ws.
Proof.
  unfold str_split. induction 1 as [|w ws Hw Hws IH]; [done|].
  apply is_word_spec in Hw as [Hne Hall].
  destruct ws as [|w' ws].
  - cbn [str_join]. rewrite <- (app_empty_r w) at 1.
    rewrite split_go_word by done. cbn [split_go default option_list fmap option_fmap option_map].
    by rewrite <- (str_rev_involutive w) at 2.
  - cbn [str_join] in *. rewrite split_go_word by done.
    change (" " +:+ ?x) with (String " " x).
    cbn [split_go]. change (py_isspace " ") with true. cbn match.
    rewrite IH. cbn. f_equal. apply (str_rev_involutive w).
Qed.

(** Joining the words of a text by single spaces gives a text that this
    normalisation leaves alone. *)
Lemma normal_idem (s : string) :
  str_join " " (str_split (str_join " " (str_split s))) = str_join " " (str_split s).
Proof. by rewrite split_join by apply str_split_words. Qed.

End WordFacts.

(** ** The LLDP operations *)

Module LldpMore.
Import Re Etree NokiaOltDriver Samples.

Lemma matches_go_absent fl l r skip pre s :
  str_contains l s = false →
  matches_go fl (Seq Bol (Seq (Lit l) r)) skip pre s = [].
Proof.
  revert skip pre. induction s as [|c s IH]; intros skip pre Habs; [done|].
  apply LldpFacts.str_contains_false in Habs as [Hpre Hrest].
  cbn [matches_go]. destruct skip as [|n]; [|by apply IH].
  unfold match_at. cbn [rmatch m_rest]. rewrite Hpre.
  destruct (at_bol fl _); by apply IH.
Qed.

Lemma labelled_absent fl label data :
  str_contains label data = false → search fl (labelled label) data = None.
Proof. intros. unfold search, labelled. cbn [seq]. by apply LldpFacts.search_from_absent. Qed.

Lemma chassis_absent data :
  str_contains "Chassis Id" data = false →
  search MULTILINE REMOTE_CHASSIS_REGEX data = None.
Proof.
  intros. unfold search, REMOTE_CHASSIS_REGEX. cbn [seq].
  by apply LldpFacts.search_from_absent.
Qed.

Lemma port_id_absent data :
  str_contains "Port Id" data = false →
  search MULTILINE REMOTE_PORT_REGEX data = None.
Proof.
  intros. unfold search, REMOTE_PORT_REGEX. cbn [seq].
  by apply LldpFacts.search_from_absent.
Qed.

Lemma lldp_detail_silent (lldp : gmap string (list (gmap string string))) port data :
  str_contains "System Name" data = false → lldp_detail lldp port data = Ret lldp.
Proof.
  intros Habs. unfold lldp_detail, findall1, REMOTE_HOST_REGEX, labelled.
  cbn [seq]. by rewrite matches_go_absent.
Qed.

Lemma lldp_neighbor_silent (lldp : gmap string (list (gmap string string))) port data :
  str_contains "System Name" data = false → lldp_neighbor lldp port data = Ret lldp.
Proof.
  intros Habs. unfold lldp_neighbor, REMOTE_HOST_REGEX.
  by rewrite labelled_absent.
Qed.

(** A loop raises what its body raises on the first element on which it
    does not hand its state on unchanged. *)
Lemma for_each_first_raise {A S} (body : S → A → outcome S) before x rest s e :
  (∀ p s, p ∈ before → body s p = Ret s) →
  (∀ s, body s x = Raise e) →
  for_each body (before ++ x :: rest) s = Raise e.
Proof.
  intros Hbefore Hx. induction before as [|p before IH].
  - cbn [app for_each]. by rewrite Hx.
  - cbn [app for_each]. rewrite Hbefore by left. cbn. apply IH.
    intros ???. apply Hbefore. by right.
Qed.

Lemma for_each_unchanged {A S} (body : S → A → outcome S) xs s :
  (∀ p s, p ∈ xs → body s p = Ret s) → for_each body xs s = Ret s.
Proof.
  intros Hbody. induction xs as [|p xs IH]; [done|].
  cbn [for_each]. rewrite Hbody by left. cbn. apply IH.
  intros ???. apply Hbody. by right.
Qed.

(** X19: every port [get_lldp_neighbors] and
    [get_lldp_neighbors_detail] ask the device about is a word: it is not
    empty and holds no whitespace. *)
Theorem lldp_ports_words (port_data : string) :
  Forall (fun port => is_word port = true) (lldp_ports port_data).
Proof.
  unfold lldp_ports. cbn zeta.
  induction (findall0 MULTILINE PORT_REGEX port_data) as [|line ls IH]; [constructor|].
  cbn [flat_map]. apply Forall_app. split; [|done].
  pose proof (WordFacts.str_split_words line) as Hw.
  destruct (str_split line) as [|first rest]; [constructor|].
  destruct (bool_decide _); [constructor|].
  constructor; [|constructor]. by inversion Hw.
Qed.

(** X20: when no reply to a port's remote-info command holds the text
    [System Name], both LLDP operations return the empty dict. *)
Theorem lldp_silent_ports (send_command : string → string) :
  (∀ port, port ∈ lldp_ports (_send_command send_command "show port" false) →
     str_contains "System Name"
       (_send_command send_command (remote_info_command port) false) = false) →
  get_lldp_neighbors send_command = Ret ∅
  ∧ get_lldp_neighbors_detail send_command = Ret ∅.
Proof.
  intros Hsilent. unfold get_lldp_neighbors, get_lldp_neighbors_detail. cbn zeta.
  split; apply for_each_unchanged; intros port s Hport.
  - apply lldp_neighbor_silent, Hsilent, Hport.
  - apply lldp_detail_silent, Hsilent, Hport.
Qed.

Lemma lldp_silent_ports_witness :
  get_lldp_neighbors (answering show_port_reply) = Ret ∅
  ∧ get_lldp_neighbors_detail (answering show_port_reply) = Ret ∅.
Proof.
  apply (lldp_silent_ports (answering show_port_reply)).
  intros port _. vm_compute. reflexivity.
Defined.

Lemma lldp_detail_missing_label (lldp : gmap string (list (gmap string string)))
    (port data label : string) :
  label ∈ lldp_labels →
  str_contains label data = false →
  findall1 MULTILINE REMOTE_HOST_REGEX data ≠ [] →
  lldp_detail lldp port data = Raise AttributeError.
Proof.
  intros Hin Habs Hhost. unfold lldp_detail.
  destruct (findall1 MULTILINE REMOTE_HOST_REGEX data) as [|rh more]; [done|].
  cbn zeta.
  assert (Hcase : label = "Chassis Id" ∨ label = "Port Description"
                  ∨ label = "Supported Caps" ∨ label = "Enabled Caps"
                  ∨ label = "Port Id").
  { unfold lldp_labels in Hin. rewrite !elem_of_cons in Hin.
    destruct Hin as [?|[?|[?|[?|[?|Hnil]]]]]; auto 6.
    by apply elem_of_nil in Hnil. }
  assert (Hnone : ∀ m : option mobj, m = None →
            ∀ k : string → outcome (gmap string (list (gmap string string))),
              group1 m ≫= k = Raise AttributeError) by (by intros ? ->).
  assert (Hstep : ∀ (m : option mobj)
                    (k : string → outcome (gmap string (list (gmap string string)))),
            (∀ x, k x = Raise AttributeError) →
            group1 m ≫= k = Raise AttributeError).
  { intros [m|] k Hk; [apply Hk|done]. }
  destruct Hcase as [->|[->|[->|[->| ->]]]].
  - apply Hnone. by apply chassis_absent.
  - apply Hstep. intros chassis. apply Hnone. by apply labelled_absent.
  - do 3 (apply Hstep; intros ?). apply Hnone. by apply labelled_absent.
  - do 4 (apply Hstep; intros ?). apply Hnone. by apply labelled_absent.
  - do 5 (apply Hstep; intros ?). apply Hnone. by apply port_id_absent.
Qed.

(** X21: [get_lldp_neighbors_detail] raises [AttributeError] at the
    first port whose neighbour block has a [System Name] line, as soon as
    the block lacks the text of one of the labels [Chassis Id],
    [Port Description], [Supported Caps], [Enabled Caps] or [Port Id]. *)
Theorem get_lldp_neighbors_detail_missing_label (send_command : string → string)
    (before rest : list string) (port label : string) :
  lldp_ports (_send_command send_command "show port" false) = before ++ port :: rest →
  (∀ p, p ∈ before →
     str_contains "System Name"
       (_send_command send_command (remote_info_command p) false) = false) →
  findall1 MULTILINE REMOTE_HOST_REGEX
    (_send_command send_command (remote_info_command port) false) ≠ [] →
  label ∈ lldp_labels →
  str_contains label (_send_command send_command (remote_info_command port) false) = false →
  get_lldp_neighbors_detail send_command = Raise AttributeError.
Proof.
  intros Hports Hbefore Hhost Hlabel Habs.
  unfold get_lldp_neighbors_detail. cbn zeta. rewrite Hports.
  apply for_each_first_raise.
  - intros p s Hp. by apply lldp_detail_silent, Hbefore.
  - intros s. by eapply lldp_detail_missing_label.
Qed.

Lemma get_lldp_neighbors_detail_missing_label_witness :
  get_lldp_neighbors_detail lldp_name_only_device = Raise AttributeError.
Proof.
  apply (get_lldp_neighbors_detail_missing_label lldp_name_only_device
           [] [] "nt-a:xfp:1" "Supported Caps").
  - vm_compute. reflexivity.
  - intros p Hp. by apply elem_of_nil in Hp.
  - vm_compute. discriminate.
  - vm_compute. right. right. left.
  - vm_compute. reflexivity.
Defined.

(** X22: [get_lldp_neighbors] raises [AttributeError] at the first port
    whose neighbour block has a [System Name] line when the block does
    not hold the text [Port Id]. *)
Theorem get_lldp_neighbors_missing_port_id (send_command : string → string)
    (before rest : list string) (port : string) :
  lldp_ports (_send_command send_command "show port" false) = before ++ port :: rest →
  (∀ p, p ∈ before →
     str_contains "System Name"
       (_send_command send_command (remote_info_command p) false) = false) →
  search MULTILINE REMOTE_HOST_REGEX
    (_send_command send_command (remote_info_command port) false) ≠ None →
  str_contains "Port Id" (_send_command send_command (remote_info_command port) false) = false →
  get_lldp_neighbors send_command = Raise AttributeError.
Proof.
  intros Hports Hbefore Hhost Habs.
  unfold get_lldp_neighbors. cbn zeta. rewrite Hports.
  apply for_each_first_raise.
  - intros p s Hp. by apply lldp_neighbor_silent, Hbefore.
  - intros s. unfold lldp_neighbor. fold (remote_info_command port).
    destruct (search MULTILINE REMOTE_HOST_REGEX _) as [m|]; [|done].
    cbn zeta. by rewrite port_id_absent.
Qed.

Lemma get_lldp_neighbors_missing_port_id_witness :
  get_lldp_neighbors lldp_name_only_device = Raise AttributeError.
Proof.
  apply (get_lldp_neighbors_missing_port_id lldp_name_only_device [] [] "nt-a:xfp:1").
  - vm_compute. reflexivity.
  - intros p Hp. by apply elem_of_nil in Hp.
  - vm_compute. discriminate.
  - vm_compute. reflexivity.
Defined.

Lemma replace_unquoted (s : string) :
  unquoted (str_replace (String DQUOTE "") "" s) = true.
Proof.
  unfold unquoted, str_replace. induction s as [|c s IH]; [done|].
  cbn [replace_go strip_prefix String.length Nat.sub].
  destruct (Ascii.eqb DQUOTE c) eqn:Hc.
  - exact IH.
  - cbn [str_all]. rewrite IH, Ascii.eqb_sym, Hc. done.
Qed.

(** What one pass of the loop of [get_lldp_neighbors_detail] does to the
    dict when it returns. *)
Lemma lldp_detail_ret (lldp lldp' : gmap string (list (gmap string string)))
    (port data : string) :
  lldp_detail lldp port data = Ret lldp' →
  lldp' = lldp
  ∨ ∃ n descr remote_port,
      lldp' = <[port := [n]]> lldp
      ∧ Forall (fun k => is_Some (n !! k)) detail_keys
      ∧ n !! "parent_interface" = Some port
      ∧ n !! "remote_system_description" = Some descr ∧ normalised descr
      ∧ n !! "remote_port" = Some remote_port ∧ unquoted remote_port = true.
Proof.
  unfold lldp_detail. intros Hret.
  destruct (findall1 MULTILINE REMOTE_HOST_REGEX data) as [|rh more];
    [left; by simplify_eq|].
  right. cbn zeta in Hret.
  apply bind_ret in Hret as (chassis & _ & Hret).
  apply bind_ret in Hret as (port_descr & _ & Hret).
  apply bind_ret in Hret as (sys_descr & _ & Hret).
  apply bind_ret in Hret as (sys_cap & _ & Hret).
  apply bind_ret in Hret as (sys_en_cap & _ & Hret).
  apply bind_ret in Hret as (port_text & _ & Hret).
  destruct (str_split port_text !! 1%nat) as [remote_port|]; simplify_eq.
  - eexists _, _, _. split; [reflexivity|]. unfold neighbor_defaults.
    cbn [list_to_map foldr fst snd]. split_and!.
    + unfold detail_keys. repeat (apply Forall_cons; split); [..|by apply Forall_nil];
        rewrite ?lookup_insert_ne by done; rewrite lookup_insert_eq; by eexists.
    + rewrite !lookup_insert_ne by done. by rewrite lookup_insert_eq.
    + rewrite !lookup_insert_ne by done. by rewrite lookup_insert_eq.
    + apply WordFacts.normal_idem.
    + by rewrite lookup_insert_eq.
    + apply replace_unquoted.
  - eexists _, _, _. split; [reflexivity|]. unfold neighbor_defaults.
    cbn [list_to_map foldr fst snd]. split_and!.
    + unfold detail_keys. repeat (apply Forall_cons; split); [..|by apply Forall_nil];
        rewrite ?lookup_insert_ne by done; rewrite lookup_insert_eq; by eexists.
    + rewrite !lookup_insert_ne by done. by rewrite lookup_insert_eq.
    + rewrite !lookup_insert_ne by done. by rewrite lookup_insert_eq.
    + apply WordFacts.normal_idem.
    + rewrite !lookup_insert_ne by done. by rewrite lookup_insert_eq.
    + done.
Qed.

(** X23: when [get_lldp_neighbors_detail] returns, every entry belongs
    to a port of the [show port] reply and is a list of one neighbour;
    the neighbour has all eight keys, names the port as its parent
    interface, has a system description whose words are separated by
    single spaces, and a remote port without a double quote. *)
Theorem get_lldp_neighbors_detail_entries (send_command : string → string)
    (d : gmap string (list (gmap string string))) (port : string)
    (ns : list (gmap string string)) :
  get_lldp_neighbors_detail send_command = Ret d →
  d !! port = Some ns →
  port ∈ lldp_ports (_send_command send_command "show port" false)
  ∧ ∃ n descr remote_port,
      ns = [n]
      ∧ Forall (fun k => is_Some (n !! k)) detail_keys
      ∧ n !! "parent_interface" = Some port
      ∧ n !! "remote_system_description" = Some descr ∧ normalised descr
      ∧ n !! "remote_port" = Some remote_port ∧ unquoted remote_port = true.
Proof.
  unfold get_lldp_neighbors_detail. cbn zeta. intros Hret.
  revert port ns.
  eapply (for_each_ret
    (fun d : gmap string (list (gmap string string)) => ∀ port ns,
       d !! port = Some ns →
       port ∈ lldp_ports (_send_command send_command "show port" false)
       ∧ ∃ n descr remote_port,
           ns = [n]
           ∧ Forall (fun k => is_Some (n !! k)) detail_keys
           ∧ n !! "parent_interface" = Some port
           ∧ n !! "remote_system_description" = Some descr ∧ normalised descr
           ∧ n !! "remote_port" = Some remote_port ∧ unquoted remote_port = true)
    (fun _ => True)); [| |exact Hret].
  - intros port ns Hlook. by rewrite lookup_empty in Hlook.
  - intros s p s' Hp Hs Hbody. split; [|done].
    apply lldp_detail_ret in Hbody as [->|(n & descr & rp & -> & Hn)]; [done|].
    intros port ns Hlook. destruct (decide (p = port)) as [->|Hne].
    + rewrite lookup_insert_eq in Hlook. simplify_eq. split; [done|].
      by exists n, descr, rp.
    + rewrite lookup_insert_ne in Hlook by done. by apply Hs.
Qed.

Lemma get_lldp_neighbors_detail_entries_witness :
  get_lldp_neighbors_detail lldp_full_device
  = Ret {[ "nt-a:xfp:1" := [full_neighbor_detail] ]}
  ∧ ({[ "nt-a:xfp:1" := [full_neighbor_detail] ]}
       : gmap string (list (gmap string string))) !! "nt-a:xfp:1"
    = Some [full_neighbor_detail]
  ∧ "nt-a:xfp:1" ∈ lldp_ports (_send_command lldp_full_device "show port" false)
  ∧ ∃ n descr remote_port,
      [full_neighbor_detail] = [n]
      ∧ Forall (fun k => is_Some (n !! k)) detail_keys
      ∧ n !! "parent_interface" = Some "nt-a:xfp:1"
      ∧ n !! "remote_system_description" = Some descr ∧ normalised descr
      ∧ n !! "remote_port" = Some remote_port ∧ unquoted remote_port = true.
Proof.
  assert (get_lldp_neighbors_detail lldp_full_device
          = Ret {[ "nt-a:xfp:1" := [full_neighbor_detail] ]}) as H1
    by (vm_compute; reflexivity).
  assert (({[ "nt-a:xfp:1" := [full_neighbor_detail] ]}
             : gmap string (list (gmap string string))) !! "nt-a:xfp:1"
          = Some [full_neighbor_detail]) as H2 by (vm_compute; reflexivity).
  split; [exact H1|]. split; [exact H2|].
  exact (get_lldp_neighbors_detail_entries lldp_full_device _ _ _ H1 H2).
Defined.

(** What one pass of the loop of [get_lldp_neighbors] does to the dict
    when it returns. *)
Lemma lldp_neighbor_ret (lldp lldp' : gmap string (list (gmap string string)))
    (port data : string) :
  lldp_neighbor lldp port data = Ret lldp' →
  lldp' = lldp
  ∨ ∃ n m remote_port,
      lldp' = <[port := [n]]> lldp
      ∧ search MULTILINE REMOTE_HOST_REGEX data = Some m
      ∧ n !! "hostname" = Some (default "" (group 1 m))
      ∧ n !! "port" = Some remote_port ∧ unquoted remote_port = true.
Proof.
  unfold lldp_neighbor. intros Hret.
  destruct (search MULTILINE REMOTE_HOST_REGEX data) as [m|];
    [|left; by simplify_eq].
  right. cbn zeta in Hret.
  apply bind_ret in Hret as (port_text & _ & Hret).
  destruct (str_split port_text !! 1%nat) as [remote_port|]; simplify_eq.
  - eexists _, m, _. split; [reflexivity|]. split; [reflexivity|]. split_and!.
    + rewrite lookup_insert_ne by done. by rewrite lookup_insert_eq.
    + by rewrite lookup_insert_eq.
    + apply replace_unquoted.
  - eexists _, m, _. split; [reflexivity|]. split; [reflexivity|]. split_and!.
    + by rewrite lookup_insert_eq.
    + rewrite lookup_insert_ne by done. by rewrite lookup_singleton_eq.
    + done.
Qed.

(** X24: when [get_lldp_neighbors] returns, every entry belongs to a
    port of the [show port] reply and is a list of one neighbour, whose
    hostname is what the [System Name] line of that port's reply gives,
    and whose port holds no double quote. *)
Theorem get_lldp_neighbors_entries (send_command : string → string)
    (d : gmap string (list (gmap string string))) (port : string)
    (ns : list (gmap string string)) :
  get_lldp_neighbors send_command = Ret d →
  d !! port = Some ns →
  port ∈ lldp_ports (_send_command send_command "show port" false)
  ∧ ∃ n m remote_port,
      ns = [n]
      ∧ search MULTILINE REMOTE_HOST_REGEX
          (_send_command send_command (remote_info_command port) false) = Some m
      ∧ n !! "hostname" = Some (default "" (group 1 m))
      ∧ n !! "port" = Some remote_port ∧ unquoted remote_port = true.
Proof.
  unfold get_lldp_neighbors. cbn zeta. intros Hret.
  revert port ns.
  eapply (for_each_ret
    (fun d : gmap string (list (gmap string string)) => ∀ port ns,
       d !! port = Some ns →
       port ∈ lldp_ports (_send_command send_command "show port" false)
       ∧ ∃ n m remote_port,
           ns = [n]
           ∧ search MULTILINE REMOTE_HOST_REGEX
               (_send_command send_command (remote_info_command port) false) = Some m
           ∧ n !! "hostname" = Some (default "" (group 1 m))
           ∧ n !! "port" = Some remote_port ∧ unquoted remote_port = true)
    (fun _ => True)); [| |exact Hret].
  - intros port ns Hlook. by rewrite lookup_empty in Hlook.
  - intros s p s' Hp Hs Hbody. split; [|done].
    apply lldp_neighbor_ret in Hbody as [->|(n & m & rp & -> & Hn)]; [done|].
    intros port ns Hlook. destruct (decide (p = port)) as [->|Hne].
    + rewrite lookup_insert_eq in Hlook. simplify_eq. split; [done|].
      by exists n, m, rp.
    + rewrite lookup_insert_ne in Hlook by done. by apply Hs.
Qed.

Lemma get_lldp_neighbors_entries_witness :
  get_lldp_neighbors lldp_full_device = Ret {[ "nt-a:xfp:1" := [full_neighbor] ]}
  ∧ ({[ "nt-a:xfp:1" := [full_neighbor] ]}
       : gmap string (list (gmap string string))) !! "nt-a:xfp:1"
    = Some [full_neighbor]
  ∧ "nt-a:xfp:1" ∈ lldp_ports (_send_command lldp_full_device "show port" false)
  ∧ ∃ n m remote_port,
      [full_neighbor] = [n]
      ∧ search MULTILINE REMOTE_HOST_REGEX
          (_send_command lldp_full_device (remote_info_command "nt-a:xfp:1") false)
        = Some m
      ∧ n !! "hostname" = Some (default "" (group 1 m))
      ∧ n !! "port" = Some remote_port ∧ unquoted remote_port = true.
Proof.
  assert (get_lldp_neighbors lldp_full_device
          = Ret {[ "nt-a:xfp:1" := [full_neighbor] ]}) as H1
    by (vm_compute; reflexivity).
  assert (({[ "nt-a:xfp:1" := [full_neighbor] ]}
             : gmap string (list (gmap string string))) !! "nt-a:xfp:1"
          = Some [full_neighbor]) as H2 by (vm_compute; reflexivity).
  split; [exact H1|]. split; [exact H2|].
  exact (get_lldp_neighbors_entries lldp_full_device _ _ _ H1 H2).
Defined.

End LldpMore.

(** ** The interface table *)

Module InterfaceMore.
Import Etree NokiaOltDriver Samples.
















End InterfaceMore.

(** ** The running config *)

Module ConfigMore.
Import NokiaOltDriver Samples.

(** The accumulating loop, read from the left. *)
Lemma terminated_fold (ls : list string) (acc : string) :
  foldl (fun acc line => acc +:+ line +:+ String LF "") acc ls
  = acc +:+ foldr (fun line rest => line +:+ String LF rest) "" ls.
Proof.
  revert acc. induction ls as [|l ls IH]; intros acc.
  - cbn. by rewrite app_empty_r.
  - cbn [foldl foldr]. rewrite IH, str_app_assoc. f_equal. by rewrite str_app_assoc.
Qed.

(** A piece without the separator, then the separator. *)
Lemma split_on_go_piece (sep : ascii) (w cur rest : string) :
  str_all (fun c => negb (Ascii.eqb c sep)) w = true →
  split_on_go sep cur (w +:+ String sep rest)
  = str_rev (String.rev_app w cur) :: split_on_go sep "" rest.
Proof.
  revert cur. induction w as [|c w IH]; intros cur Hall.
  - change ("" +:+ String sep rest) with (String sep rest).
    cbn [split_on_go String.rev_app]. by rewrite Ascii.eqb_refl.
  - cbn [str_all] in Hall. apply andb_true_iff in Hall as [Hc Hall].
    apply negb_true_iff in Hc.
    change (String c w +:+ String sep rest) with (String c (w +:+ String sep rest)).
    cbn [split_on_go String.rev_app]. rewrite Hc. by apply IH.
Qed.

Lemma split_on_terminated (sep : ascii) (ls : list string) :
  Forall (fun l => str_all (fun c => negb (Ascii.eqb c sep)) l = true) ls →
  str_split_on sep (foldr (fun line rest => line +:+ String sep rest) "" ls)
  = ls ++ [""].
Proof.
  unfold str_split_on. induction 1 as [|l ls Hl Hls IH]; [done|].
  cbn [foldr app]. rewrite split_on_go_piece by done. rewrite IH. f_equal.
  apply (str_rev_involutive l).
Qed.

(** No piece of a split holds the separator. *)
Lemma split_on_go_pieces (sep : ascii) (cur s : string) :
  str_all (fun c => negb (Ascii.eqb c sep)) cur = true →
  Forall (fun l => str_all (fun c => negb (Ascii.eqb c sep)) l = true)
         (split_on_go sep cur s).
Proof.
  revert cur. induction s as [|c s IH]; intros cur Hcur.
  - cbn [split_on_go]. constructor; [|constructor].
    unfold str_rev, String.rev. by rewrite WordFacts.str_all_rev_app, Hcur.
  - cbn [split_on_go]. destruct (Ascii.eqb c sep) eqn:Hc.
    + constructor; [|by apply IH].
      unfold str_rev, String.rev. by rewrite WordFacts.str_all_rev_app, Hcur.
    + apply IH. cbn [str_all]. by rewrite Hc, Hcur.
Qed.

(** X27: with [retrieve] one of [all] and [running] and a reply that
    is not empty, the running config [get_config] returns is made of the
    reply's lines that are not blank, in their order, each closed by a
    line feed: splitting it at the line feeds gives those lines and one
    empty piece at the end. Cleaning it again changes nothing. The other
    two entries are constants. *)
Theorem get_config_running (send_command : string → string) (retrieve : string) :
  retrieve = "all" ∨ retrieve = "running" →
  _send_command send_command "info configure" false ≠ "" →
  ∃ running,
    get_config send_command retrieve !! "running" = Some running
    ∧ str_split_on LF running
      = filter (fun line => ¬ blank line)
               (str_split_on LF (_send_command send_command "info configure" false))
        ++ [""]
    ∧ terminated (filter (fun line => ¬ blank line) (str_split_on LF running))
      = running
    ∧ get_config send_command retrieve !! "startup" = Some "No Startup"
    ∧ get_config send_command retrieve !! "candidate" = Some "No Candidate".
Proof.
  intros Hretrieve Hreply. unfold get_config. cbn zeta.
  assert (bool_decide (retrieve = "all") || bool_decide (retrieve = "running") = true)
    as -> by (destruct Hretrieve as [-> | ->]; done).
  destruct (_send_command send_command "info configure" false) as [|c reply] eqn:Hr;
    [done|].
  eexists. split; [by rewrite lookup_insert_eq|].
  assert (Hsplit :
    str_split_on LF
      (foldl (fun acc line => acc +:+ line +:+ String LF "") ""
         (filter (fun line => str_strip line ≠ "") (str_split_on LF (String c reply))))
    = filter (fun line => ¬ blank line) (str_split_on LF (String c reply)) ++ [""]).
  { rewrite terminated_fold.
    change ("" +:+ ?x) with x.
    apply split_on_terminated.
    apply Forall_forall. intros l Hl. apply list_elem_of_filter in Hl as [_ Hl].
    revert l Hl. apply Forall_forall. by apply split_on_go_pieces. }
  split; [exact Hsplit|]. split; [|split].
  - rewrite Hsplit, filter_app.
    rewrite (filter_cons_False _ "") by (intros H; by apply H).
    rewrite filter_nil, app_nil_r, list_filter_filter.
    unfold terminated. f_equal. apply list_filter_iff. intros l. tauto.
  - by rewrite lookup_insert_ne.
  - by rewrite lookup_insert_ne.
Qed.

Lemma get_config_running_witness :
  ∃ running,
    get_config config_device "all" !! "running" = Some running
    ∧ str_split_on LF running
      = filter (fun line => ¬ blank line)
               (str_split_on LF (_send_command config_device "info configure" false))
        ++ [""]
    ∧ terminated (filter (fun line => ¬ blank line) (str_split_on LF running))
      = running
    ∧ get_config config_device "all" !! "startup" = Some "No Startup"
    ∧ get_config config_device "all" !! "candidate" = Some "No Candidate".
Proof.
  apply (get_config_running config_device "all").
  - left. reflexivity.
  - vm_compute. discriminate.
Defined.

End ConfigMore.

(** ** The software version *)

Module VersionMore.
Import NokiaOltDriver Samples.

(** A replacement keeps what holds of every character of the text and of
    the new piece. *)
Lemma replace_go_all (p : ascii → bool) (old new : string) (skip : nat) (s : string) :
  str_all p new = true → str_all p s = true →
  str_all p (replace_go old new skip s) = true.
Proof.
  intros Hnew. revert skip. induction s as [|c s IH]; intros skip Hs; [done|].
  cbn [str_all] in Hs. apply andb_true_iff in Hs as [Hc Hs].
  cbn [replace_go]. destruct skip as [|n]; [|by apply IH].
  destruct (strip_prefix old (String c s)).
  - rewrite str_all_app, Hnew. by apply IH.
  - cbn [str_all]. rewrite Hc. by apply IH.
Qed.

(** Replacing a character leaves none of it. *)
Lemma replace_char_gone (c : ascii) (new s : string) :
  str_all (fun x => negb (Ascii.eqb x c)) new = true →
  str_all (fun x => negb (Ascii.eqb x c)) (str_replace (String c "") new s) = true.
Proof.
  intros Hnew. unfold str_replace. induction s as [|x s IH]; [done|].
  cbn [replace_go strip_prefix String.length Nat.sub].
  destruct (Ascii.eqb c x) eqn:Hx.
  - by rewrite str_all_app, Hnew.
  - cbn [str_all]. by rewrite Ascii.eqb_sym, Hx.
Qed.

Lemma str_all_and (p q : ascii → bool) (s : string) :
  str_all p s = true → str_all q s = true →
  str_all (fun c => p c && q c) s = true.
Proof.
  induction s as [|c s IH]; [done|]. cbn [str_all].
  rewrite !andb_true_iff. intros [-> ?] [-> ?]. split; [done|]. by apply IH.
Qed.

(** The words of a text keep what holds of every character of it. *)
Lemma split_go_all (p : ascii → bool) (cur : option string) (s : string) :
  (∀ c, cur = Some c → str_all p c = true) → str_all p s = true →
  Forall (fun w => str_all p w = true) (split_go cur s).
Proof.
  revert cur. induction s as [|a s IH]; intros cur Hcur Hs.
  - cbn [split_go]. destruct cur as [c|]; cbn; [|constructor].
    constructor; [|constructor]. unfold str_rev, String.rev.
    by rewrite WordFacts.str_all_rev_app, (Hcur c).
  - cbn [str_all] in Hs. apply andb_true_iff in Hs as [Ha Hs].
    cbn [split_go]. destruct (py_isspace a).
    + apply Forall_app. split; [|by apply IH].
      destruct cur as [c|]; cbn; [|constructor].
      constructor; [|constructor]. unfold str_rev, String.rev.
      by rewrite WordFacts.str_all_rev_app, (Hcur c).
    + apply IH; [|done]. intros c Hc. simplify_eq. cbn [str_all]. rewrite Ha.
      destruct cur as [c|]; cbn; [by apply Hcur|done].
Qed.

Lemma version_words_plain (line : string) :
  Forall (fun w => is_word w = true ∧ bracket_free w = true) (version_words line).
Proof.
  unfold version_words.
  set (cleaned := str_replace "name=" "" _).
  assert (bracket_free cleaned = true) as Hfree.
  { unfold bracket_free, cleaned. apply str_all_and.
    - apply replace_go_all; [done|]. by apply replace_char_gone.
    - apply replace_go_all; [done|]. apply replace_go_all; [done|].
      by apply replace_char_gone. }
  pose proof (WordFacts.str_split_words cleaned) as Hwords.
  assert (Forall (fun w => bracket_free w = true) (str_split cleaned)) as Hall.
  { apply split_go_all; [|exact Hfree]. intros c Hc. discriminate. }
  apply Forall_forall. intros w Hw. split.
  - by apply (proj1 (Forall_forall _ _) Hwords).
  - by apply (proj1 (Forall_forall _ _) Hall).
Qed.

(** X28: the software version is read from the first line of the
    reply that mentions [info], and from no later line: it is the last
    word but one of that line once its angle brackets are blanked and
    [name=] is deleted, so it is a word without whitespace or angle
    brackets; when that line has fewer than two words the operation
    raises [IndexError]. *)
Theorem get_software_mgmt_version_etsi_reads (send_command : string → string)
    (hostname : string) (pre post : list string) (line : string) :
  _send_command send_command "show software-mngt version etsi" true ≠ "" →
  str_splitlines (_send_command send_command "show software-mngt version etsi" true)
    = pre ++ line :: post →
  Forall (fun l => str_contains "info" l = false) pre →
  str_contains "info" line = true →
  match reverse (version_words line) !! 1%nat with
  | Some software =>
      get_software_mgmt_version_etsi send_command hostname
        = Ret (Data (Some {[ "ISAM" := software ]}))
      ∧ is_word software = true ∧ bracket_free software = true
  | None =>
      get_software_mgmt_version_etsi send_command hostname = Raise IndexError
  end.
Proof.
  intros Hdata Hlines Hpre Hline.
  assert (convert_software_version_xml_to_dict
            (_send_command send_command "show software-mngt version etsi" true)
          = match reverse (version_words line) !! 1%nat with
            | Some software => Ret (Some {[ "ISAM" := software ]})
            | None => Raise IndexError
            end) as Hconv.
  { unfold convert_software_version_xml_to_dict.
    destruct (_send_command send_command "show software-mngt version etsi" true)
      as [|c data]; [done|].
    rewrite Hlines. clear Hlines.
    induction Hpre as [|l pre Hl _ IH]; cbn [app]; lazy beta iota fix;
      [|rewrite Hl; exact IH].
    rewrite Hline. cbn zeta. unfold list_item. fold (version_words line).
    by destruct (reverse (version_words line) !! 1%nat). }
  unfold get_software_mgmt_version_etsi. cbn zeta. rewrite Hconv.
  destruct (_send_command send_command "show software-mngt version etsi" true)
    as [|c data]; [done|].
  destruct (reverse (version_words line) !! 1%nat) as [software|] eqn:Hw; [|done].
  split; [done|].
  apply list_elem_of_lookup_2 in Hw. rewrite elem_of_reverse in Hw.
  exact (proj1 (Forall_forall _ _) (version_words_plain line) software Hw).
Qed.

Lemma get_software_mgmt_version_etsi_reads_witness :
  match reverse (version_words
                   "<info name='isam-release' type='Sw::ReleaseName'>L6GPAA62.607</info>")
        !! 1%nat with
  | Some software =>
      get_software_mgmt_version_etsi (answering version_reply) "olt1"
        = Ret (Data (Some {[ "ISAM" := software ]}))
      ∧ is_word software = true ∧ bracket_free software = true
  | None =>
      get_software_mgmt_version_etsi (answering version_reply) "olt1"
        = Raise IndexError
  end.
Proof.
  apply (get_software_mgmt_version_etsi_reads (answering version_reply) "olt1"
           ["<runtime-data>"; "<hierarchy name='etsi'>"]
           ["<info name='other' type='Sw::ReleaseName'>none</info>";
            "</hierarchy>"; "</runtime-data>"]).
  - vm_compute. discriminate.
  - vm_compute. reflexivity.
  - repeat constructor.
  - vm_compute. reflexivity.
Defined.

(** X29: when the reply is not empty and none of its lines mentions
    [info], [get_software_mgmt_version_etsi] returns [None]: no dict and
    no message. *)
Theorem get_software_mgmt_version_etsi_none (send_command : string → string)
    (hostname : string) :
  _send_command send_command "show software-mngt version etsi" true ≠ "" →
  Forall (fun l => str_contains "info" l = false)
    (str_splitlines (_send_command send_command "show software-mngt version etsi" true)) →
  get_software_mgmt_version_etsi send_command hostname = Ret (Data None).
Proof.
  intros Hdata Hlines.
  unfold get_software_mgmt_version_etsi, convert_software_version_xml_to_dict.
  cbn zeta.
  destruct (_send_command send_command "show software-mngt version etsi" true)
    as [|c data]; [done|].
  assert (∀ T (m : outcome T) (v : T) (f : T → outcome (reply T)),
            m = Ret v → m ≫= f = f v) as Hbind by (by intros ???? ->).
  erewrite Hbind; [reflexivity|].
  induction Hlines as [|l ls Hl _ IH]; lazy beta iota fix; [done|].
  rewrite Hl. exact IH.
Qed.

Lemma get_software_mgmt_version_etsi_none_witness :
  get_software_mgmt_version_etsi (answering "<runtime-data/>") "olt1"
  = Ret (Data None).
Proof.
  apply (get_software_mgmt_version_etsi_none (answering "<runtime-data/>") "olt1").
  - vm_compute. discriminate.
  - vm_compute. repeat constructor.
Defined.

End VersionMore.
